(** * Dehyphenation of line breaks: the dictionary baseline with supplements,
      the language-model decision rule and the evaluation counters

    A shallow embedding of

    - [scripts/evaluate/merge_hyphens_baseline_with_supplements.py]
      (class [BaselineWithSupplements]),
    - [scripts/evaluation/evaluate_baselines_on_file_confusion_matrix.py]
      (class [EvaluateBaseline]),
    - [scripts/evaluate/language_model_evaluate.py] (function [run]),

    followed by the properties of these programs.

    Conventions of the embedding.

    - A Python [str] is a list of Unicode code points ([list N]).
    - A Python [dict] whose iteration order is observed (the result of
      [merge_and_lookup], sorted by the harness) is an association list in
      insertion order; the word list [self.words], which is only queried, is
      a [gmap].
    - A Python [float] is a binary64 number of the Standard Library's
      IEEE 754 specification ([spec_float]); [int / int], [round(x, 2)],
      [x - y] and the comparisons are the correctly rounded operations.
    - A Python exception is the [Raise] case of the [result] type.
    - The built-ins [str.lower], [str.strip], [str.split()] and [int(str)]
      are the fields of the class [PyBuiltins]. *)

From Stdlib Require Import ZArith List Lia Ascii String SpecFloat.
From stdpp Require Import base option list gmap.

Local Open Scope Z_scope.

(* ================================================================== *)
(** * Part I: definitions                                              *)
(* ================================================================== *)

(** ** Exceptions and results *)

Inductive exn : Set :=
  | KeyError
  | ZeroDivisionError
  | OverflowError
  | ValueError
  | IndexError.

Inductive result (A : Type) : Type :=
  | Ok (a : A)
  | Raise (e : exn).

Arguments Ok {A} a.
Arguments Raise {A} e.

(** Sequencing: an exception ends the computation. *)
#[export] Instance result_ret : MRet result := fun A a => Ok a.
#[export] Instance result_bind : MBind result := fun A B k r =>
  match r with
  | Ok a => k a
  | Raise e => Raise e
  end.

Definition raises {A : Type} (r : result A) : Prop :=
  match r with
  | Ok _ => False
  | Raise _ => True
  end.

(** ** Strings *)

Abbreviation char := N (only parsing).
Abbreviation str := (list N) (only parsing).

(** An ASCII literal as a [str]. *)
Definition py (s : string) : str :=
  List.map N_of_ascii (list_ascii_of_string s).

Definition HYPHEN_MINUS : char := 45%N.          (* '-' *)
Definition TAB : char := 9%N.                    (* '\t' *)
Definition ANO_TELEIA : char := 903%N.           (* '·' *)
Definition CAPITAL_CHI : char := 935%N.          (* 'Χ' *)

(** The character class [[0-9]] of the [re] module on a [str] pattern. *)
Definition is_digit (c : char) : bool :=
  (48 <=? c)%N && (c <=? 57)%N.

(** [re.search(r'[0-9]', s) is not None] *)
Definition re_search_digit (s : str) : bool := existsb is_digit s.

(** [re.search(r'-', s) is not None] *)
Definition re_search_hyphen (s : str) : bool :=
  existsb (N.eqb HYPHEN_MINUS) s.

(** [re.sub(r'[0-9]', symbol, s)] for a one-character [symbol]. *)
Definition re_sub_digit (symbol : char) (s : str) : str :=
  List.map (fun c => if is_digit c then symbol else c) s.

(** [s.replace(old, new)] for a one-character [old]. *)
Definition str_replace (old : char) (new : str) (s : str) : str :=
  flat_map (fun c => if N.eqb c old then new else [c]) s.

(** [s.split(sep)] for a one-character [sep]. *)
Fixpoint str_split (sep : char) (s : str) : list str :=
  match s with
  | [] => [[]]
  | c :: s' =>
      if N.eqb c sep then [] :: str_split sep s'
      else match str_split sep s' with
           | piece :: pieces => (c :: piece) :: pieces
           | [] => [[c]]
           end
  end.

(** [s.find(c)]: the lowest index of [c], or [-1]. *)
Fixpoint str_find (c : char) (s : str) : Z :=
  match s with
  | [] => -1
  | x :: s' =>
      if N.eqb x c then 0
      else let i := str_find c s' in if i <? 0 then -1 else i + 1
  end.

(** [s.rfind(c)]: the highest index of [c], or [-1]. *)
Fixpoint str_rfind (c : char) (s : str) : Z :=
  match s with
  | [] => -1
  | x :: s' =>
      let i := str_rfind c s' in
      if 0 <=? i then i + 1
      else if N.eqb x c then 0 else -1
  end.

(** [s[i:]] and [s[:j]] for indices that are not negative. *)
Definition slice_from (i : Z) (s : str) : str := skipn (Z.to_nat i) s.
Definition slice_to (j : Z) (s : str) : str := firstn (Z.to_nat j) s.

Definition len (s : str) : Z := Z.of_nat (List.length s).

(** The number of occurrences of a character. *)
Definition str_count (c : char) (s : str) : nat :=
  List.length (List.filter (N.eqb c) s).

(** ** Built-ins taken from the interpreter *)

Class PyBuiltins := {
  str_lower : str -> str;             (* s.lower() *)
  str_strip : str -> str;             (* s.strip() *)
  str_split_ws : str -> list str;     (* s.split() *)
  int_of_str : str -> option Z        (* int(s); [None] is ValueError *)
}.

(** ** Floats: binary64 *)

Module PyFloat.

Definition prec : Z := 53.
Definition emax : Z := 1024.

(** An integer as an exact (unnormalised) operand of a division. *)
Definition of_int (z : Z) : spec_float :=
  match z with
  | Z0 => S754_zero false
  | Zpos p => S754_finite false p 0
  | Zneg p => S754_finite true p 0
  end.

(** The binary64 number nearest to [a / b]. *)
Definition quotient (a b : Z) : spec_float :=
  SFdiv prec emax (of_int a) (of_int b).

(** [a / b] on two [int]s. *)
Definition truediv (a b : Z) : result spec_float :=
  if b =? 0 then Raise ZeroDivisionError
  else match quotient a b with
       | S754_infinity _ => Raise OverflowError
       | q => Ok q
       end.

(** The integer nearest to [n / d], ties to the even one ([0 < d]). *)
Definition round_half_even (n d : Z) : Z :=
  let q := n / d in
  match 2 * (n mod d) ?= d with
  | Lt => q
  | Gt => q + 1
  | Eq => if Z.even q then q else q + 1
  end.

(** The integer nearest to [100 * (m * 2^e)], ties to even. *)
Definition hundredths_mag (m : positive) (e : Z) : Z :=
  match e with
  | Zneg p => round_half_even (100 * Zpos m) (2 ^ Zpos p)
  | _ => 100 * Zpos m * 2 ^ e
  end.

(** The value of a float in hundredths, rounded to the nearest integer. *)
Definition hundredths (x : spec_float) : Z :=
  match x with
  | S754_finite s m e =>
      if s then - hundredths_mag m e else hundredths_mag m e
  | _ => 0
  end.

(** [round(x, 2)]: the decimal with two places nearest to [x] (ties to
    even on the exact value of [x]), converted back to binary64. *)
Definition round2 (x : spec_float) : spec_float :=
  match x with
  | S754_finite s m e =>
      match hundredths_mag m e with
      | Zpos k => SFdiv prec emax (S754_finite s k 0) (of_int 100)
      | _ => S754_zero s
      end
  | _ => x
  end.

Definition sub (x y : spec_float) : spec_float := SFsub prec emax x y.

(** [x > y] and [x >= y] *)
Definition gt (x y : spec_float) : bool := SFltb y x.
Definition ge (x y : spec_float) : bool := SFleb y x.

(** The literals of the sources. *)
Definition lit_0_5 : spec_float := quotient 1 2.
Definition lit_0_01 : spec_float := quotient 1 100.
Definition lit_0_1 : spec_float := quotient 1 10.
Definition lit_0_75 : spec_float := quotient 3 4.

(** The float written with two decimals [n / 100]. *)
Definition decimal2 (n : Z) : spec_float := quotient n 100.

End PyFloat.

(** ** Numbers stored as confidences: [int] or [float] *)

Inductive pynum : Type :=
  | PyInt (z : Z)
  | PyFloat (f : spec_float).

(** [int] to [float], for a mixed comparison. *)
Definition pynum_float (x : pynum) : spec_float :=
  match x with
  | PyInt z => binary_normalize PyFloat.prec PyFloat.emax z 0 false
  | PyFloat f => f
  end.

(** [x < y] *)
Definition pynum_lt (x y : pynum) : bool :=
  match x, y with
  | PyInt a, PyInt b => a <? b
  | _, _ => SFltb (pynum_float x) (pynum_float y)
  end.

(** ** Dictionaries in insertion order *)

Abbreviation odict := (list (list N * pynum)) (only parsing).

(** [d[k] = v]: a present key keeps its position. *)
Fixpoint dict_set (d : odict) (k : str) (v : pynum) : odict :=
  match d with
  | [] => [(k, v)]
  | (k', v') :: d' =>
      if decide (k' = k) then (k, v) :: d'
      else (k', v') :: dict_set d' k v
  end.

(** [dict.fromkeys([k], v)] *)
Definition fromkeys (k : str) (v : pynum) : odict := [(k, v)].

(** [k in d] on the word list. *)
Definition contains (d : gmap (list N) Z) (k : str) : bool :=
  match d !! k with
  | Some _ => true
  | None => false
  end.

(** [d[k]] on the word list. *)
Definition getitem (d : gmap (list N) Z) (k : str) : result Z :=
  match d !! k with
  | Some v => Ok v
  | None => Raise KeyError
  end.

(** ** [BaselineWithSupplements] *)

Record BaselineWithSupplements : Type := {
  words : gmap (list N) Z;
  hyphen_symbol : char;      (* Standard: Greek Ano Teleia *)
  digit_symbol : char        (* Standard: Greek capital Chi *)
}.

Section Baseline.
Context `{PyBuiltins}.

(** The loop of [__init__] over the lines of the word list file. *)
Definition read_word_list (wlf : list str) : result (gmap (list N) Z) :=
  foldl (fun acc line =>
           ws ← acc;
           match str_split TAB (str_strip line) with
           | [word; frequency] =>
               match int_of_str frequency with
               | Some f => Ok (<[word := f]> ws)
               | None => Raise ValueError
               end
           | _ => Raise ValueError
           end)
        (Ok ∅) wlf.

(** [BaselineWithSupplements(word_list_file, hyphen_symbol, digit_symbol)] *)
Definition init (word_list_file : list str) (hyphen digit : char)
  : result BaselineWithSupplements :=
  ws ← read_word_list word_list_file;
  Ok {| words := ws; hyphen_symbol := hyphen; digit_symbol := digit |}.

(** The defaults of the constructor. *)
Definition init_default (word_list_file : list str)
  : result BaselineWithSupplements :=
  init word_list_file ANO_TELEIA CAPITAL_CHI.

Variable self : BaselineWithSupplements.

Definition calculate_confidence_score (hyphenated_word merged_word : str)
  : result odict :=
  let confidences : odict := [] in
  merged_freqency ← getitem (words self) merged_word;
  hyphenated_frequency ←
    (if contains (words self) hyphenated_word
     then getitem (words self) hyphenated_word else Ok 0);
  let total := merged_freqency + hyphenated_frequency in
  q_merged ← PyFloat.truediv merged_freqency total;
  let confidences :=
    dict_set confidences merged_word (PyFloat (PyFloat.round2 q_merged)) in
  q_hyphenated ← PyFloat.truediv hyphenated_frequency total;
  let confidences :=
    dict_set confidences hyphenated_word
             (PyFloat (PyFloat.round2 q_hyphenated)) in
  Ok confidences.

(** The loop [for c in confidences: ...] that renames the keys of the
    looked-up pair to the two forms of the whole word. *)
Definition rename_keys (confidences : odict)
           (hyphenated_word merged_word : str) : odict :=
  foldl (fun result '(c, v) =>
           if re_search_hyphen c then dict_set result hyphenated_word v
           else dict_set result merged_word v)
        [] confidences.

(** The halves and the target part of the second special case. *)
Definition subword_parts (left right : str) : str * str :=
  let left_hyphen_index := str_rfind HYPHEN_MINUS left in
  let right_hyphen_index :=
    if 0 <? str_find HYPHEN_MINUS right
    then str_find HYPHEN_MINUS right else len right in
  let subword_prefix := slice_from (left_hyphen_index + 1) left in
  let subword_suffix := slice_to right_hyphen_index right in
  (subword_prefix, subword_suffix).

(** The second special case once the word is split into [left] and
    [right]; its last line is the final [return] of [merge_and_lookup]. *)
Definition lookup_subword (merged_word hyphenated_word : str)
           (left_half right_half : str) : result odict :=
  let '(subword_prefix, subword_suffix) :=
    subword_parts left_half right_half in
  if contains (words self) (subword_prefix ++ subword_suffix) then
    if contains (words self)
         (subword_prefix ++ [HYPHEN_MINUS] ++ subword_suffix) then
      confidences ←
        calculate_confidence_score
          (subword_prefix ++ subword_suffix)
          (subword_prefix ++ [HYPHEN_MINUS] ++ subword_suffix);
      Ok (rename_keys confidences hyphenated_word merged_word)
    else Ok (fromkeys merged_word (PyInt 1))
  else if contains (words self)
            (subword_prefix ++ [HYPHEN_MINUS] ++ subword_suffix) then
    Ok (fromkeys hyphenated_word (PyInt 1))
  else Ok (fromkeys merged_word (PyInt 0)).

Definition merge_and_lookup (custom_hyph_word : str) : result odict :=
  let merged_word :=
    str_replace (hyphen_symbol self) [] (str_lower custom_hyph_word) in
  let hyphenated_word :=
    str_replace (hyphen_symbol self) [HYPHEN_MINUS]
                (str_lower custom_hyph_word) in
  (* the two cases on the whole word; [None]: nothing returned yet *)
  let whole_word : option (result odict) :=
    if negb (re_search_digit custom_hyph_word) then
      (* NORMAL CASE *)
      if contains (words self) merged_word then
        if contains (words self) hyphenated_word then
          Some (calculate_confidence_score hyphenated_word merged_word)
        else Some (Ok (fromkeys merged_word (PyInt 1)))
      else if contains (words self) hyphenated_word then
        Some (Ok (fromkeys hyphenated_word (PyInt 1)))
      else None
    else
      (* FIRST SPECIAL CASE *)
      let no_digit_merged_word :=
        re_sub_digit (digit_symbol self) merged_word in
      let no_digit_hyphenated_word :=
        re_sub_digit (digit_symbol self) hyphenated_word in
      if contains (words self) no_digit_merged_word then
        if contains (words self) no_digit_hyphenated_word then
          Some (confidences ←
                  calculate_confidence_score no_digit_hyphenated_word
                                             no_digit_merged_word;
                Ok (rename_keys confidences hyphenated_word merged_word))
        else Some (Ok (fromkeys merged_word (PyInt 1)))
      else if contains (words self) no_digit_hyphenated_word then
        Some (Ok (fromkeys hyphenated_word (PyInt 1)))
      else None in
  match whole_word with
  | Some r => r
  | None =>
      (* SECOND SPECIAL CASE *)
      if re_search_hyphen custom_hyph_word then
        match str_split (hyphen_symbol self) (str_lower custom_hyph_word) with
        | [left_half; right_half] =>
            lookup_subword merged_word hyphenated_word left_half right_half
        | _ => Raise ValueError   (* unpacking into [(left, right)] *)
        end
      else
        (* If the word wasn't found at all *)
        Ok (fromkeys merged_word (PyInt 0))
  end.

End Baseline.

(** ** What is assumed of [str.lower] in some statements *)

Section LowerCase.
Context `{PyBuiltins}.

(** Lower-casing neither adds, removes nor changes a decimal digit. *)
Definition lower_keeps_digits : Prop :=
  forall s, List.filter is_digit (str_lower s) = List.filter is_digit s.

(** No lower-cased string holds the character [c] (as for a capital
    letter). *)
Definition lower_avoids (c : char) : Prop :=
  forall s, ~ In c (str_lower s).

(** Lower-casing does not change the number of occurrences of [c] (as
    for a punctuation mark). *)
Definition lower_keeps_count (c : char) : Prop :=
  forall s, str_count c (str_lower s) = str_count c s.

End LowerCase.

(** ** Vocabulary for the statements about [merge_and_lookup] *)

Section BaselineVocabulary.
Context `{PyBuiltins}.
Variable self : BaselineWithSupplements.

(** The two forms of a word: the hyphen symbol removed, and replaced by a
    normal hyphen. *)
Definition merged_form (custom_hyph_word : str) : str :=
  str_replace (hyphen_symbol self) [] (str_lower custom_hyph_word).

Definition hyphenated_form (custom_hyph_word : str) : str :=
  str_replace (hyphen_symbol self) [HYPHEN_MINUS]
              (str_lower custom_hyph_word).

(** The key under which a form of the word is looked up: the form itself,
    or, for a word with a digit, the form with its digits replaced. *)
Definition lookup_key (custom_hyph_word form : str) : str :=
  if re_search_digit custom_hyph_word
  then re_sub_digit (digit_symbol self) form else form.

(** The convention of the word list: a word with digits is stored with the
    digit symbol in their place, so that no key holds a decimal digit. *)
Definition word_list_without_digits : Prop :=
  forall k, contains (words self) k = true -> re_search_digit k = false.

(** Neither form of the whole word is in the word list. *)
Definition whole_word_unknown (custom_hyph_word : str) : Prop :=
  contains (words self)
    (lookup_key custom_hyph_word (merged_form custom_hyph_word)) = false
  /\ contains (words self)
    (lookup_key custom_hyph_word (hyphenated_form custom_hyph_word)) = false.

(** The two keys of the second special case, when it is reached and the
    word splits in two at the hyphen symbol. *)
Definition subword_keys (custom_hyph_word : str) : list str :=
  if re_search_hyphen custom_hyph_word then
    match str_split (hyphen_symbol self) (str_lower custom_hyph_word) with
    | [left_half; right_half] =>
        let '(subword_prefix, subword_suffix) :=
          subword_parts left_half right_half in
        [subword_prefix ++ subword_suffix;
         subword_prefix ++ [HYPHEN_MINUS] ++ subword_suffix]
    | _ => []
    end
  else [].

(** Every key that [merge_and_lookup] may test for the word. *)
Definition looked_up_keys (custom_hyph_word : str) : list str :=
  lookup_key custom_hyph_word (merged_form custom_hyph_word)
  :: lookup_key custom_hyph_word (hyphenated_form custom_hyph_word)
  :: subword_keys custom_hyph_word.

(** The second special case runs to its end: there is no normal hyphen in
    the word, or exactly one hyphen symbol. *)
Definition cascade_completes (custom_hyph_word : str) : Prop :=
  re_search_hyphen custom_hyph_word = false
  \/ str_count (hyphen_symbol self) (str_lower custom_hyph_word) = 1%nat.

(** *** The subword fallback in the words of the specification *)

(** The last and the first hyphen-bounded segment of a string. *)
Definition last_segment (s : str) : str :=
  List.last (str_split HYPHEN_MINUS s) [].

Definition first_segment (s : str) : str :=
  List.hd [] (str_split HYPHEN_MINUS s).

(** The resolution of the subword next to the hyphen symbol, returned
    under the two forms of the whole word; [None] when the subword is
    unknown. *)
Definition subword_resolution (custom_hyph_word left_half right_half : str)
  : option (result odict) :=
  let subword_merged :=
    last_segment left_half ++ first_segment right_half in
  let subword_hyphenated :=
    last_segment left_half ++ [HYPHEN_MINUS] ++ first_segment right_half in
  let merged_word := merged_form custom_hyph_word in
  let hyphenated_word := hyphenated_form custom_hyph_word in
  match words self !! subword_merged, words self !! subword_hyphenated with
  | Some m, Some h =>
      Some (q_merged ← PyFloat.truediv m (m + h);
            q_hyphenated ← PyFloat.truediv h (m + h);
            Ok [(merged_word, PyFloat (PyFloat.round2 q_merged));
                (hyphenated_word, PyFloat (PyFloat.round2 q_hyphenated))])
  | Some _, None => Some (Ok (fromkeys merged_word (PyInt 1)))
  | None, Some _ => Some (Ok (fromkeys hyphenated_word (PyInt 1)))
  | None, None => None
  end.

(** The subword fallback as the specification words it: a word that is
    unknown as a whole and has a normal hyphen is split at the hyphen
    symbol, and a known subword decides the result (the candidates as a
    mapping, in any order). *)
Definition subword_fallback_as_specified (custom_hyph_word : str) : Prop :=
  whole_word_unknown custom_hyph_word ->
  re_search_hyphen custom_hyph_word = true ->
  exists left_half right_half,
    str_split (hyphen_symbol self) (str_lower custom_hyph_word)
    = [left_half; right_half]
    /\ match subword_resolution custom_hyph_word left_half right_half with
       | Some (Ok expected) =>
           exists r, merge_and_lookup self custom_hyph_word = Ok r
                     /\ r ≡ₚ expected
       | _ => True
       end.

End BaselineVocabulary.

(** *** The loading of the word list in the words of the specification *)

Section LoadingAsSpecified.
Context `{PyBuiltins}.

(** A line that is not [word<TAB>integer]. *)
Definition malformed_word_line (line : str) : Prop :=
  match str_split TAB (str_strip line) with
  | [word; frequency] => int_of_str frequency = None
  | _ => True
  end.

(** A malformed line is skipped and the remaining lines are read. *)
Definition read_word_list_skipping (wlf : list str) : gmap (list N) Z :=
  foldl (fun ws line =>
           match str_split TAB (str_strip line) with
           | [word; frequency] =>
               match int_of_str frequency with
               | Some f => <[word := f]> ws
               | None => ws
               end
           | _ => ws
           end)
        ∅ wlf.

Definition malformed_line_skipped (wlf : list str) : Prop :=
  read_word_list wlf = Ok (read_word_list_skipping wlf).

End LoadingAsSpecified.

(** ** [EvaluateBaseline] *)

(** [sorted(d.items(), key=lambda x: x[1], reverse=True)]: a stable sort in
    descending order of the confidence; items of equal confidence keep the
    order of the dictionary. *)
Fixpoint insert_desc (x : list N * pynum) (sorted : odict) : odict :=
  match sorted with
  | [] => [x]
  | y :: rest =>
      if pynum_lt (snd y) (snd x) then x :: sorted
      else y :: insert_desc x rest
  end.

Definition sorted_desc (items : odict) : odict :=
  foldl (fun sorted x => insert_desc x sorted) [] items.

(** [re.search(r'[\S]+(?:%s[\S]+)+' % hyphen, input)] on a word without
    white space: the hyphen symbol occurs with a character before it and a
    character after it. *)
Definition re_search_hyphenated (hyphen : char) (input : str) : bool :=
  match input with
  | [] => false
  | _ :: rest => existsb (N.eqb hyphen) (removelast rest)
  end.

(** One entry of the dictionaries [tp], [tn], [fn] and [fp]. *)
Record case_info : Type := {
  frequency : Z;
  confidence : pynum
}.

Record EvaluateBaseline : Type := {
  hyphen : char;
  mhb : BaselineWithSupplements;
  tp : gmap (list N) case_info;  tp_counter : Z;
  tn : gmap (list N) case_info;  tn_counter : Z;
  fn : gmap (list N) case_info;  fn_counter : Z;
  fp : gmap (list N) case_info;  fp_counter : Z
}.

(** The update of one case dictionary in [evaluate_words]. *)
Definition record_case (d : gmap (list N) case_info) (input : str)
           (conf : pynum) : gmap (list N) case_info :=
  match d !! input with
  | None => <[input := {| frequency := 1; confidence := conf |}]> d
  | Some info =>
      <[input := {| frequency := frequency info + 1;
                    confidence := confidence info |}]> d
  end.

Definition evaluate_words (eb : EvaluateBaseline)
           (input output exp_outputput : str) (conf : pynum)
  : EvaluateBaseline :=
  let with_hyphen := str_replace (hyphen eb) [HYPHEN_MINUS] input in
  if decide (exp_outputput = output) then
    if decide (exp_outputput = with_hyphen) then
      (* TRUE POSITIVE *)
      {| hyphen := hyphen eb; mhb := mhb eb;
         tp := record_case (tp eb) input conf; tp_counter := tp_counter eb + 1;
         tn := tn eb; tn_counter := tn_counter eb;
         fn := fn eb; fn_counter := fn_counter eb;
         fp := fp eb; fp_counter := fp_counter eb |}
    else
      (* TRUE NEGATIVE *)
      {| hyphen := hyphen eb; mhb := mhb eb;
         tp := tp eb; tp_counter := tp_counter eb;
         tn := record_case (tn eb) input conf; tn_counter := tn_counter eb + 1;
         fn := fn eb; fn_counter := fn_counter eb;
         fp := fp eb; fp_counter := fp_counter eb |}
  else
    if decide (exp_outputput = with_hyphen) then
      (* FALSE NEGATIVE *)
      {| hyphen := hyphen eb; mhb := mhb eb;
         tp := tp eb; tp_counter := tp_counter eb;
         tn := tn eb; tn_counter := tn_counter eb;
         fn := record_case (fn eb) input conf; fn_counter := fn_counter eb + 1;
         fp := fp eb; fp_counter := fp_counter eb |}
    else
      (* FALSE POSITIVE *)
      {| hyphen := hyphen eb; mhb := mhb eb;
         tp := tp eb; tp_counter := tp_counter eb;
         tn := tn eb; tn_counter := tn_counter eb;
         fn := fn eb; fn_counter := fn_counter eb;
         fp := record_case (fp eb) input conf; fp_counter := fp_counter eb + 1 |}.

Section Harness.
Context `{PyBuiltins}.

(** The word with the maximum confidence: the head of the sorted items
    of [merge_and_lookup(input)]. *)
Definition best_candidate (baseline : BaselineWithSupplements)
           (input : str) : result (list N * pynum) :=
  baseline_confidence ← merge_and_lookup baseline input;
  let sorted_confidences := sorted_desc baseline_confidence in
  match sorted_confidences with
  | (output, output_confidence) :: _ => Ok (output, output_confidence)
  | [] => Raise IndexError
  end.

(** The body of [for i, h in enumerate(hyphenated)]. *)
Definition evaluate_token (original : list str) (eb : EvaluateBaseline)
           (i : nat) (h : str) : result EvaluateBaseline :=
  let input := str_lower h in
  if re_search_hyphenated (hyphen eb) input then
    '(output, output_confidence) ← best_candidate (mhb eb) input;
    match original !! i with
    | Some o =>
        let exp_outputput := str_lower o in
        Ok (evaluate_words eb input output exp_outputput output_confidence)
    | None => Raise IndexError
    end
  else Ok eb.

Fixpoint evaluate_tokens (original : list str) (eb : EvaluateBaseline)
         (i : nat) (hyphenated : list str) : result EvaluateBaseline :=
  match hyphenated with
  | [] => Ok eb
  | h :: rest =>
      eb' ← evaluate_token original eb i h;
      evaluate_tokens original eb' (S i) rest
  end.

(** The body of [for line in hf].  When the two sentences differ in
    length the source enters the debugger; the run is followed here as
    continued from there. *)
Definition evaluate_line (eb : EvaluateBaseline) (line : str)
  : result EvaluateBaseline :=
  let line := str_split TAB line in
  match line !! 0%nat, line !! 1%nat with
  | Some line0, Some line1 =>
      let hyphenated := str_split_ws (str_strip line0) in
      let original := str_split_ws (str_strip line1) in
      evaluate_tokens original eb 0 hyphenated
  | _, _ => Raise IndexError
  end.

Definition evaluate_baseline_on_file (eb : EvaluateBaseline)
           (hyphenated_file : list str) : result EvaluateBaseline :=
  foldl (fun acc line => eb' ← acc; evaluate_line eb' line)
        (Ok eb) hyphenated_file.

End Harness.

(** *** The reading of the dataset in the words of the specification *)

Section DatasetAsSpecified.
Context `{PyBuiltins}.

(** A line that is [hyphenated sentence<TAB>original sentence]. *)
Definition well_formed_dataset_line (line : str) : bool :=
  Nat.eqb (List.length (str_split TAB line)) 2.

(** A malformed line is skipped and the remaining lines are evaluated. *)
Definition malformed_dataset_line_skipped (eb : EvaluateBaseline)
           (hyphenated_file : list str) : Prop :=
  evaluate_baseline_on_file eb hyphenated_file
  = evaluate_baseline_on_file eb
      (List.filter well_formed_dataset_line hyphenated_file).

End DatasetAsSpecified.

(** ** The language-model evaluation, [run] *)

(** The four cells of a confusion matrix: predicted v0/v1 (remove/keep the
    hyphen) against expected v0/v1. *)
Record matrix : Type := {
  predicted_v0_expected_v0 : Z;
  predicted_v0_expected_v1 : Z;
  predicted_v1_expected_v0 : Z;
  predicted_v1_expected_v1 : Z
}.

Definition incr_v0_v0 (m : matrix) : matrix :=
  {| predicted_v0_expected_v0 := predicted_v0_expected_v0 m + 1;
     predicted_v0_expected_v1 := predicted_v0_expected_v1 m;
     predicted_v1_expected_v0 := predicted_v1_expected_v0 m;
     predicted_v1_expected_v1 := predicted_v1_expected_v1 m |}.

Definition incr_v0_v1 (m : matrix) : matrix :=
  {| predicted_v0_expected_v0 := predicted_v0_expected_v0 m;
     predicted_v0_expected_v1 := predicted_v0_expected_v1 m + 1;
     predicted_v1_expected_v0 := predicted_v1_expected_v0 m;
     predicted_v1_expected_v1 := predicted_v1_expected_v1 m |}.

Definition incr_v1_v0 (m : matrix) : matrix :=
  {| predicted_v0_expected_v0 := predicted_v0_expected_v0 m;
     predicted_v0_expected_v1 := predicted_v0_expected_v1 m;
     predicted_v1_expected_v0 := predicted_v1_expected_v0 m + 1;
     predicted_v1_expected_v1 := predicted_v1_expected_v1 m |}.

Definition incr_v1_v1 (m : matrix) : matrix :=
  {| predicted_v0_expected_v0 := predicted_v0_expected_v0 m;
     predicted_v0_expected_v1 := predicted_v0_expected_v1 m;
     predicted_v1_expected_v0 := predicted_v1_expected_v0 m;
     predicted_v1_expected_v1 := predicted_v1_expected_v1 m + 1 |}.

Definition matrix_total (m : matrix) : Z :=
  predicted_v0_expected_v0 m + predicted_v0_expected_v1 m
  + predicted_v1_expected_v0 m + predicted_v1_expected_v1 m.

Definition matrix_zero : matrix :=
  {| predicted_v0_expected_v0 := 0; predicted_v0_expected_v1 := 0;
     predicted_v1_expected_v0 := 0; predicted_v1_expected_v1 := 0 |}.

(** The counters of [run]: [num] holds [num_predicted_*], [num_ambiguous]
    holds [num_predicted_*_ambiguous]. *)
Record counters : Type := {
  num : matrix;
  num_ambiguous : matrix;
  num_error_category_1 : Z;
  num_error_category_2 : Z;
  num_error_category_3 : Z;
  num_error_category_4 : Z
}.

Definition counters_zero : counters :=
  {| num := matrix_zero; num_ambiguous := matrix_zero;
     num_error_category_1 := 0; num_error_category_2 := 0;
     num_error_category_3 := 0; num_error_category_4 := 0 |}.

(** A hyphenated word of a processed sentence, with the two probabilities
    computed for it. *)
Record hyphenated_word_case : Type := {
  input_word_v0 : list N;
  input_word_v1 : list N;
  expected_word : list N;
  prob_word_v0 : spec_float;
  prob_word_v1 : spec_float
}.

(** Decide: keep the hyphen? *)
Definition prediction_keep_hyphen (prob_word_v1 prob_word_v0 : spec_float)
  : bool :=
  if PyFloat.gt prob_word_v1 PyFloat.lit_0_5 then
    PyFloat.gt (PyFloat.round2 (PyFloat.sub prob_word_v1 prob_word_v0))
               PyFloat.lit_0_01
  else
    PyFloat.ge (PyFloat.round2 (PyFloat.sub prob_word_v1 prob_word_v0))
               PyFloat.lit_0_1.

Definition predicted_word (w : hyphenated_word_case) : str :=
  if prediction_keep_hyphen (prob_word_v1 w) (prob_word_v0 w)
  then input_word_v1 w else input_word_v0 w.

(** Both probabilities reach the threshold [0.75]. *)
Definition both_high (w : hyphenated_word_case) : bool :=
  PyFloat.ge (prob_word_v0 w) PyFloat.lit_0_75
  && PyFloat.ge (prob_word_v1 w) PyFloat.lit_0_75.

(** The four [if]s on the error categories. *)
Definition count_error_category (c : counters) (w : hyphenated_word_case)
  : counters :=
  let p0 := PyFloat.ge (prob_word_v0 w) PyFloat.lit_0_5 in
  let p1 := PyFloat.ge (prob_word_v1 w) PyFloat.lit_0_5 in
  let q0 := PyFloat.gt PyFloat.lit_0_5 (prob_word_v0 w) in
  let q1 := PyFloat.gt PyFloat.lit_0_5 (prob_word_v1 w) in
  {| num := num c; num_ambiguous := num_ambiguous c;
     num_error_category_1 :=
       num_error_category_1 c + (if p0 && p1 then 1 else 0);
     num_error_category_2 :=
       num_error_category_2 c + (if q0 && p1 then 1 else 0);
     num_error_category_3 :=
       num_error_category_3 c + (if p0 && q1 then 1 else 0);
     num_error_category_4 :=
       num_error_category_4 c + (if q0 && q1 then 1 else 0) |}.

Definition with_matrices (c : counters) (m a : matrix) : counters :=
  {| num := m; num_ambiguous := a;
     num_error_category_1 := num_error_category_1 c;
     num_error_category_2 := num_error_category_2 c;
     num_error_category_3 := num_error_category_3 c;
     num_error_category_4 := num_error_category_4 c |}.

(** The counting of one hyphenated word. *)
Definition count_word (c : counters) (w : hyphenated_word_case) : counters :=
  let keep := prediction_keep_hyphen (prob_word_v1 w) (prob_word_v0 w) in
  if decide (predicted_word w = expected_word w) then
    (* Prediction is correct. *)
    if keep
    then with_matrices c (incr_v1_v1 (num c)) (incr_v1_v1 (num_ambiguous c))
    else with_matrices c (incr_v0_v0 (num c)) (incr_v0_v0 (num_ambiguous c))
  else
    (* Prediction is not correct. *)
    let c' :=
      if keep then
        with_matrices c (incr_v1_v0 (num c))
          (if both_high w then incr_v0_v0 (num_ambiguous c)
           else incr_v1_v0 (num_ambiguous c))
      else
        with_matrices c (incr_v0_v1 (num c))
          (if both_high w then incr_v1_v1 (num_ambiguous c)
           else incr_v0_v1 (num_ambiguous c)) in
    count_error_category c' w.

(** The counters after the hyphenated words processed so far. *)
Definition count_words (c : counters) (ws : list hyphenated_word_case)
  : counters :=
  foldl count_word c ws.

(** No cell of the second matrix is below the cell of the first. *)
Definition matrix_le (m m' : matrix) : Prop :=
  predicted_v0_expected_v0 m <= predicted_v0_expected_v0 m'
  /\ predicted_v0_expected_v1 m <= predicted_v0_expected_v1 m'
  /\ predicted_v1_expected_v0 m <= predicted_v1_expected_v0 m'
  /\ predicted_v1_expected_v1 m <= predicted_v1_expected_v1 m'.

Definition counters_le (c c' : counters) : Prop :=
  matrix_le (num c) (num c')
  /\ matrix_le (num_ambiguous c) (num_ambiguous c')
  /\ num_error_category_1 c <= num_error_category_1 c'
  /\ num_error_category_2 c <= num_error_category_2 c'
  /\ num_error_category_3 c <= num_error_category_3 c'
  /\ num_error_category_4 c <= num_error_category_4 c'.

(** Exactly one cell of the matrix is incremented, by one. *)
Definition one_cell_incremented (m m' : matrix) : Prop :=
  m' = incr_v0_v0 m \/ m' = incr_v0_v1 m \/ m' = incr_v1_v0 m
  \/ m' = incr_v1_v1 m.

(** *** The reclassification in the words of the specification *)

(** Both probabilities exceed the threshold [0.75]. *)
Definition both_exceed (w : hyphenated_word_case) : bool :=
  PyFloat.gt (prob_word_v0 w) PyFloat.lit_0_75
  && PyFloat.gt (prob_word_v1 w) PyFloat.lit_0_75.

(** The ambiguous matrix after a wrong prediction, as specified: the
    correct cell of the expected variant when both probabilities exceed the
    threshold, the error cell otherwise. *)
Definition reclassified_as_specified (c : counters)
           (w : hyphenated_word_case) : Prop :=
  predicted_word w <> expected_word w ->
  num_ambiguous (count_word c w) =
    if prediction_keep_hyphen (prob_word_v1 w) (prob_word_v0 w) then
      if both_exceed w then incr_v0_v0 (num_ambiguous c)
      else incr_v1_v0 (num_ambiguous c)
    else
      if both_exceed w then incr_v1_v1 (num_ambiguous c)
      else incr_v0_v1 (num_ambiguous c).

(** ** An instance of the built-ins on ASCII text, for the examples *)

Definition is_space (c : char) : bool :=
  (N.eqb c 32 || ((9 <=? c)%N && (c <=? 13)%N))%bool.

(** Lower case of the ASCII and of the Greek capital letters. *)
Definition lower_char (c : char) : char :=
  if ((65 <=? c)%N && (c <=? 90)%N)%bool then (c + 32)%N
  else if ((913 <=? c)%N && (c <=? 939)%N)%bool then (c + 32)%N
  else c.

Fixpoint lstrip (s : str) : str :=
  match s with
  | c :: s' => if is_space c then lstrip s' else s
  | [] => []
  end.

Definition strip (s : str) : str := rev (lstrip (rev (lstrip s))).

(** Maximal runs of characters that are not white space. *)
Fixpoint split_ws_aux (cur : str) (s : str) : list str :=
  match s with
  | [] => match cur with [] => [] | _ => [rev cur] end
  | c :: s' =>
      if is_space c
      then match cur with
           | [] => split_ws_aux [] s'
           | _ => rev cur :: split_ws_aux [] s'
           end
      else split_ws_aux (c :: cur) s'
  end.

Fixpoint digits_value (acc : Z) (s : str) : option Z :=
  match s with
  | [] => Some acc
  | c :: s' =>
      if is_digit c then digits_value (10 * acc + (Z.of_N c - 48)) s'
      else None
  end.

(** Decimal numerals with an optional sign. *)
Definition parse_int (s : str) : option Z :=
  match s with
  | [] => None
  | c :: s' =>
      if N.eqb c HYPHEN_MINUS
      then match s' with
           | [] => None
           | _ => Z.opp <$> digits_value 0 s'
           end
      else digits_value 0 s
  end.

Definition ascii_builtins : PyBuiltins := {|
  str_lower := List.map lower_char;
  str_strip := strip;
  str_split_ws := split_ws_aux [];
  int_of_str := parse_int
|}.

(** ** Data of the examples *)

(** A baseline over the given word list, with the standard symbols. *)
Definition baseline_of (entries : list (list N * Z))
  : BaselineWithSupplements :=
  {| words := list_to_map entries;
     hyphen_symbol := ANO_TELEIA;
     digit_symbol := CAPITAL_CHI |}.

Definition email_baseline : BaselineWithSupplements :=
  baseline_of [(py "email", 570); (py "e-mail", 430)].

Definition aliens_baseline : BaselineWithSupplements :=
  baseline_of [(py "aliens", 1)].

(** ['ΧΧ-million'], the entry of the word list for ['13-million']. *)
Definition digits_million_baseline : BaselineWithSupplements :=
  baseline_of [([CAPITAL_CHI; CAPITAL_CHI] ++ py "-million", 7)].

(** ['Χ-million'] *)
Definition digit_million_baseline : BaselineWithSupplements :=
  baseline_of [([CAPITAL_CHI] ++ py "-million", 7)].

Definition million_baseline : BaselineWithSupplements :=
  baseline_of [(py "million", 5)].

Definition longtime_baseline : BaselineWithSupplements :=
  baseline_of [(py "longtime", 3); (py "long-time", 3)].

Definition letter_baseline : BaselineWithSupplements :=
  baseline_of [(py "a", 1); (py "ab", 1)].

Definition empty_baseline : BaselineWithSupplements := baseline_of [].

(** ['e·mail'], ['ali·ens'], ['13-milli·on'], ['3-mil·lion'],
    ['multi-mil·lion-dollar'], ['long·time-g1bb3r1sh'], ['a·-b'],
    ['x-a·b·c'], ['1·a'] *)
Definition token_email : str := py "e" ++ [ANO_TELEIA] ++ py "mail".
Definition token_aliens : str := py "ali" ++ [ANO_TELEIA] ++ py "ens".
Definition token_13_million : str := py "13-milli" ++ [ANO_TELEIA] ++ py "on".
Definition token_3_million : str := py "3-mil" ++ [ANO_TELEIA] ++ py "lion".
Definition token_multi_million : str :=
  py "multi-mil" ++ [ANO_TELEIA] ++ py "lion-dollar".
Definition token_long_time : str :=
  py "long" ++ [ANO_TELEIA] ++ py "time-g1bb3r1sh".
Definition token_hyphen_after_symbol : str := py "a" ++ [ANO_TELEIA] ++ py "-b".
Definition token_two_symbols : str :=
  py "x-a" ++ [ANO_TELEIA] ++ py "b" ++ [ANO_TELEIA] ++ py "c".
Definition token_digit_letter : str := py "1" ++ [ANO_TELEIA] ++ py "a".

(** A word list file with a malformed second line. *)
Definition word_list_with_malformed_line : list str :=
  [py "email" ++ [TAB] ++ py "570" ++ [10%N];
   py "no frequency" ++ [10%N];
   py "e-mail" ++ [TAB] ++ py "430" ++ [10%N]].

(** A dataset with a second line that has no TAB. *)
Definition dataset_with_malformed_line : list str :=
  [token_email ++ py " now" ++ [TAB] ++ py "email now" ++ [10%N];
   py "no tab here" ++ [10%N];
   token_email ++ [TAB] ++ py "email" ++ [10%N]].

Definition new_EvaluateBaseline (baseline : BaselineWithSupplements)
  : EvaluateBaseline :=
  {| hyphen := hyphen_symbol baseline; mhb := baseline;
     tp := ∅; tp_counter := 0; tn := ∅; tn_counter := 0;
     fn := ∅; fn_counter := 0; fp := ∅; fp_counter := 0 |}.

(** A wrong prediction with both probabilities equal to [0.75]. *)
Definition word_on_threshold : hyphenated_word_case :=
  {| input_word_v0 := py "email";
     input_word_v1 := py "e-mail";
     expected_word := py "e-mail";
     prob_word_v0 := PyFloat.decimal2 75;
     prob_word_v1 := PyFloat.decimal2 75 |}.

(** ** [MergeHyphensBaseline], the basic baseline *)

Record MergeHyphensBaseline : Type := {
  basic_words : gmap (list N) Z;
  basic_hyphen_symbol : char      (* Standard: Greek Ano Teleia *)
}.

Section BasicBaseline.
Context `{PyBuiltins}.

(** [MergeHyphensBaseline(word_list_file, hyphen_symbol)] *)
Definition basic_init (word_list_file : list str) (hyphen : char)
  : result MergeHyphensBaseline :=
  ws ← read_word_list word_list_file;
  Ok {| basic_words := ws; basic_hyphen_symbol := hyphen |}.

Variable self : MergeHyphensBaseline.

(** [MergeHyphensBaseline.calculate_confidence_score] *)
Definition basic_calculate_confidence_score
           (hyphenated_word merged_word : str) : result odict :=
  let confidences : odict := [] in
  merged_freqency ← getitem (basic_words self) merged_word;
  hyphenated_frequency ←
    (if contains (basic_words self) hyphenated_word
     then getitem (basic_words self) hyphenated_word else Ok 0);
  let total := merged_freqency + hyphenated_frequency in
  q_merged ← PyFloat.truediv merged_freqency total;
  let confidences :=
    dict_set confidences merged_word (PyFloat (PyFloat.round2 q_merged)) in
  q_hyphenated ← PyFloat.truediv hyphenated_frequency total;
  let confidences :=
    dict_set confidences hyphenated_word
             (PyFloat (PyFloat.round2 q_hyphenated)) in
  Ok confidences.

(** [MergeHyphensBaseline.merge_and_lookup] *)
Definition basic_merge_and_lookup (custom_hyph_word : str) : result odict :=
  let merged_word :=
    str_replace (basic_hyphen_symbol self) [] (str_lower custom_hyph_word) in
  let hyphenated_word :=
    str_replace (basic_hyphen_symbol self) [HYPHEN_MINUS]
                (str_lower custom_hyph_word) in
  (* Look up the merged word *)
  if contains (basic_words self) merged_word then
    if contains (basic_words self) hyphenated_word then
      basic_calculate_confidence_score hyphenated_word merged_word
    else Ok (fromkeys merged_word (PyInt 1))
  (* If only the hyphenated word is found *)
  else if contains (basic_words self) hyphenated_word then
    Ok (fromkeys hyphenated_word (PyInt 1))
  (* If the word wasn't found at all *)
  else Ok (fromkeys merged_word (PyInt 0)).

End BasicBaseline.

(** The basic baseline over the word list and the hyphen symbol of a
    supplemented one. *)
Definition basic_of (self : BaselineWithSupplements) : MergeHyphensBaseline :=
  {| basic_words := words self; basic_hyphen_symbol := hyphen_symbol self |}.

(** ** More vocabulary for the statements *)

(** Every frequency of the word list is at least one. *)
Definition positive_frequencies (ws : gmap (list N) Z) : Prop :=
  forall k v, ws !! k = Some v -> 1 <= v.

(** A confidence between 0 and 1: the [int] 0 or 1, or the float of a
    number with two decimals from [0.00] to [1.00]. *)
Definition unit_confidence (v : pynum) : Prop :=
  v = PyInt 0 \/ v = PyInt 1
  \/ exists n, 0 <= n <= 100 /\ v = PyFloat (PyFloat.decimal2 n).

(** ** [EvaluateBaseline.frequency_sort] *)

(** [sorted(case_dict.items(), key=lambda x: x[1]['frequency'],
    reverse=True)] on the items of the dictionary, in its order. *)
Fixpoint insert_by_frequency (x : list N * case_info)
         (sorted : list (list N * case_info)) : list (list N * case_info) :=
  match sorted with
  | [] => [x]
  | y :: rest =>
      if frequency (snd y) <? frequency (snd x) then x :: sorted
      else y :: insert_by_frequency x rest
  end.

Definition frequency_sort (case_dict : list (list N * case_info))
  : list (list N * case_info) :=
  foldl (fun sorted x => insert_by_frequency x sorted) [] case_dict.

(** The sum of the four counters of the harness. *)
Definition total_counter (eb : EvaluateBaseline) : Z :=
  tp_counter eb + tn_counter eb + fp_counter eb + fn_counter eb.

(** The sum of the frequencies of a case dictionary. *)
Definition sum_of_frequencies (d : gmap (list N) case_info) : Z :=
  map_fold (fun _ info acc => frequency info + acc) 0 d.

(** ** [ProcessFile.run] with a baseline model *)

(** [sep.join(l)] *)
Fixpoint str_join (sep : str) (l : list str) : str :=
  match l with
  | [] => []
  | [x] => x
  | x :: rest => x ++ sep ++ str_join sep rest
  end.

Definition SPACE : char := 32%N.
Definition NEWLINE : char := 10%N.

Section ProcessFile.
Context `{PyBuiltins}.

(** The symbol of the [ProcessFile] object and the [merge_and_lookup] of
    the model that was loaded with this symbol. *)
Variable hyphen_sym : char.
Variable model_merge_and_lookup : str -> result odict.




End ProcessFile.

(** ** The sentences of the language-model evaluation *)


(** The character used to represent a hyphenation position in a word. *)
Definition HYPHENATION_SYMBOL : char := ANO_TELEIA.

(** [any([c == HYPHENATION_SYMBOL for c in word])] *)
Definition has_hyphenation_symbol (word : str) : bool :=
  existsb (fun c => N.eqb c HYPHENATION_SYMBOL) word.

(** The state of the loop over the words of the input sentence. *)
Record sentence_variants : Type := {
  input_words_v0 : list (list N);
  input_words_v1 : list (list N);
  word_boundaries_v0 : list (Z * Z);
  word_boundaries_v1 : list (Z * Z);
  index_v0 : Z;
  index_v1 : Z;
  positions_hyphenated_words : list nat
}.

Definition no_words : sentence_variants :=
  {| input_words_v0 := []; input_words_v1 := [];
     word_boundaries_v0 := []; word_boundaries_v1 := [];
     index_v0 := 0; index_v1 := 0; positions_hyphenated_words := [] |}.

(** The body of [for word_pos, word in enumerate(input_words)]. *)
Definition add_word (st : sentence_variants) (word_pos : nat) (word : str)
  : sentence_variants :=
  let hyphenated := has_hyphenation_symbol word in
  let word_v0 :=
    if hyphenated then str_replace HYPHENATION_SYMBOL [] word else word in
  let word_v1 :=
    if hyphenated then str_replace HYPHENATION_SYMBOL [HYPHEN_MINUS] word
    else word in
  {| input_words_v0 := input_words_v0 st ++ [word_v0];
     input_words_v1 := input_words_v1 st ++ [word_v1];
     word_boundaries_v0 :=
       word_boundaries_v0 st ++ [(index_v0 st, index_v0 st + len word_v0)];
     word_boundaries_v1 :=
       word_boundaries_v1 st ++ [(index_v1 st, index_v1 st + len word_v1)];
     (* + 1 because of the whitespaces between words. *)
     index_v0 := index_v0 st + len word_v0 + 1;
     index_v1 := index_v1 st + len word_v1 + 1;
     positions_hyphenated_words :=
       if hyphenated then positions_hyphenated_words st ++ [word_pos]
       else positions_hyphenated_words st |}.

Fixpoint add_words (st : sentence_variants) (word_pos : nat)
         (input_words : list str) : sentence_variants :=
  match input_words with
  | [] => st
  | word :: rest => add_words (add_word st word_pos word) (S word_pos) rest
  end.

Definition variants_of (input_words : list str) : sentence_variants :=
  add_words no_words 0 input_words.

Section Sentences.
Context `{PyBuiltins}.


End Sentences.

(** [s[i:j]] for indices that are not negative. *)
Definition slice (i j : Z) (s : str) : str :=
  firstn (Z.to_nat (j - i)) (skipn (Z.to_nat i) s).

(** *** The probability of a word *)

(** [x + y] on numbers. *)
Definition pynum_add (x y : pynum) : pynum :=
  match x, y with
  | PyInt a, PyInt b => PyInt (a + b)
  | _, _ =>
      PyFloat (SFadd PyFloat.prec PyFloat.emax (pynum_float x) (pynum_float y))
  end.

(** [x / n] for an [int] [n]. *)
Definition pynum_div_int (x : pynum) (n : Z) : result spec_float :=
  match x with
  | PyInt a => PyFloat.truediv a n
  | PyFloat f =>
      if n =? 0 then Raise ZeroDivisionError
      else Ok (SFdiv PyFloat.prec PyFloat.emax f (pynum_float (PyInt n)))
  end.

(** The loop [for i_word, i_sent in enumerate(range(w_start, w_end))] that
    sums the probabilities of the characters of the word; the answer of the
    language model is a list with one mapping from characters to numbers
    for each position of the sentence.  [n] positions are left. *)
Fixpoint sum_probabilities (json : list (gmap N pynum)) (input_word : str)
         (i_word i_sent n : nat) (prob : pynum) : result pynum :=
  match n with
  | O => Ok prob
  | S n' =>
      match json !! i_sent with
      | None => Raise IndexError
      | Some distribution =>
          match input_word !! i_word with
          | None => Raise IndexError
          | Some c =>
              sum_probabilities json input_word (S i_word) (S i_sent) n'
                (pynum_add prob (default (PyInt 0) (distribution !! c)))
          end
      end
  end.

(** The probability of the word at [word_pos]: the mean of the
    probabilities of its characters, rounded to two decimals.  The word
    boundaries are not negative. *)
Definition word_probability (json : list (gmap N pynum))
           (word_boundaries : list (Z * Z)) (input_words : list str)
           (word_pos : nat) : result spec_float :=
  match word_boundaries !! word_pos with
  | Some (w_start, w_end) =>
      match input_words !! word_pos with
      | Some input_word =>
          prob ← sum_probabilities json input_word 0 (Z.to_nat w_start)
                                   (Z.to_nat (w_end - w_start)) (PyInt 0);
          prob ← pynum_div_int prob (len input_word);
          Ok (PyFloat.round2 prob)
      | None => Raise IndexError
      end
  | None => Raise IndexError
  end.

(** A probability that is a number. *)
Definition not_nan (x : spec_float) : Prop := x <> S754_nan.

(** ['ΧΧ-million'] and ['ΧΧ-milli-on'] *)
Definition digits_both_baseline : BaselineWithSupplements :=
  baseline_of [([CAPITAL_CHI; CAPITAL_CHI] ++ py "-million", 3);
               ([CAPITAL_CHI; CAPITAL_CHI] ++ py "-milli-on", 1)].

(** Both forms of ['e·mail'] are listed with the frequency 0. *)
Definition zero_baseline : BaselineWithSupplements :=
  baseline_of [(py "email", 0); (py "e-mail", 0)].

(** ['13-megapix·el'] *)
Definition token_13_megapixel : str :=
  py "13-megapix" ++ [ANO_TELEIA] ++ py "el".

(** ** More vocabulary for the loading of the word list *)

Section LoadingVocabulary.
Context `{PyBuiltins}.

(** The word and the frequency of a line [word<TAB>integer]; [None] for
    any other line. *)
Definition entry_of_line (line : str) : option (list N * Z) :=
  match str_split TAB (str_strip line) with
  | [word; frequency] =>
      match int_of_str frequency with
      | Some f => Some (word, f)
      | None => None
      end
  | _ => None
  end.

End LoadingVocabulary.

(** A word list file of three lines, the first word listed again on the
    last line. *)
Definition word_list_with_repeated_word : list str :=
  [py "email" ++ [TAB] ++ py "570" ++ [10%N];
   py "e-mail" ++ [TAB] ++ py "430" ++ [10%N];
   py "email" ++ [TAB] ++ py "2" ++ [10%N]].

(** ** More vocabulary for [frequency_sort] *)

(** No item is followed by an item of a higher frequency. *)
Fixpoint descending_frequencies (items : list (list N * case_info)) : Prop :=
  match items with
  | [] => True
  | x :: rest =>
      Forall (fun y => frequency (snd y) <= frequency (snd x)) rest
      /\ descending_frequencies rest
  end.

(** The items of the frequency [f], in their order. *)
Definition items_of_frequency (f : Z) (items : list (list N * case_info))
  : list (list N * case_info) :=
  List.filter (fun x => frequency (snd x) =? f) items.

(** ** More vocabulary for the evaluation harness *)

(** Each counter is the sum of the frequencies of its dictionary. *)
Definition counters_match (eb : EvaluateBaseline) : Prop :=
  tp_counter eb = sum_of_frequencies (tp eb)
  /\ tn_counter eb = sum_of_frequencies (tn eb)
  /\ fn_counter eb = sum_of_frequencies (fn eb)
  /\ fp_counter eb = sum_of_frequencies (fp eb).

Section HarnessVocabulary.
Context `{PyBuiltins}.

(** The words of the first sentence of a line that are evaluated: those
    that hold the hyphen symbol between two characters. *)
Definition hyphenated_words (hyphen : char) (line : str) : list str :=
  List.filter (fun h => re_search_hyphenated hyphen (str_lower h))
              (str_split_ws (str_strip (List.hd [] (str_split TAB line)))).

Definition num_hyphenated_words (hyphen : char) (hyphenated_file : list str)
  : Z :=
  Z.of_nat (List.length (flat_map (hyphenated_words hyphen) hyphenated_file)).

End HarnessVocabulary.

(** A dataset of two lines with three hyphenated words. *)
Definition dataset_email : list str :=
  [token_email ++ py " now" ++ [TAB] ++ py "email now" ++ [10%N];
   py "an " ++ token_email ++ py " for " ++ token_aliens ++ [TAB]
     ++ py "an e-mail for aliens" ++ [10%N]].

(** ** More vocabulary for the language-model evaluation *)

(** The words expected without and with the hyphen, the correct and the
    wrong predictions of a matrix. *)
Definition expected_v0 (m : matrix) : Z :=
  predicted_v0_expected_v0 m + predicted_v1_expected_v0 m.

Definition expected_v1 (m : matrix) : Z :=
  predicted_v0_expected_v1 m + predicted_v1_expected_v1 m.

Definition correct_predictions (m : matrix) : Z :=
  predicted_v0_expected_v0 m + predicted_v1_expected_v1 m.

Definition wrong_predictions (m : matrix) : Z :=
  predicted_v0_expected_v1 m + predicted_v1_expected_v0 m.

(** The sum of the four error categories. *)
Definition error_categories (c : counters) : Z :=
  num_error_category_1 c + num_error_category_2 c
  + num_error_category_3 c + num_error_category_4 c.

(** *** Word boundaries *)

(** [boundaries] are the positions of [words] in the sentence that joins
    them with single spaces, and [index] is the position after the last
    word and its space. *)
Definition boundaries_of_words (words : list str) (boundaries : list (Z * Z))
           (index : Z) : Prop :=
  List.length boundaries = List.length words
  /\ index = match words with
             | [] => 0
             | _ => len (str_join [SPACE] words) + 1
             end
  /\ forall word_pos w_start w_end,
       boundaries !! word_pos = Some (w_start, w_end) ->
       exists word,
         words !! word_pos = Some word
         /\ 0 <= w_start /\ w_end = w_start + len word
         /\ w_end <= len (str_join [SPACE] words)
         /\ slice w_start w_end (str_join [SPACE] words) = word.

(** The answer of the language model holds [float]s only. *)
Definition json_of_floats (json : list (gmap N pynum)) : Prop :=
  Forall (map_Forall (fun (_ : N) v => exists f, v = PyFloat f)) json.

(** ['e·mail'] and ['now'], and an answer of ten positions, enough
    for ['email now'] and ['e-mail now']. *)
Definition words_email_now : list str := [token_email; py "now"].

Definition json_email_now : list (gmap N pynum) :=
  replicate 10 {[ 101%N := PyFloat (PyFloat.decimal2 50);
                 109%N := PyFloat (PyFloat.decimal2 25) ]}.

(** The line ['e·mail now<TAB>email now'] of a dataset, and a line without
    a hyphenated word. *)
Definition line_email_now : str :=
  token_email ++ py " now" ++ [TAB] ++ py "email now" ++ [NEWLINE].


(** ** [EvaluateBaseline.evaluate_accuracy] *)

(** The three percentages of the report, in the order in which they are
    computed: the accuracy, the accuracy on the words expected without a
    hyphen and the accuracy on the words expected with a hyphen.  Their
    rendering as text is left out. *)
Definition evaluate_accuracy (eb : EvaluateBaseline)
  : result (spec_float * spec_float * spec_float) :=
  (* d: delete the hyphen; k: keep the hyphen. *)
  let num_d_d := tn_counter eb in
  let num_d_k := fn_counter eb in
  let num_k_d := fp_counter eb in
  let num_k_k := tp_counter eb in
  accuracy ← PyFloat.truediv (num_d_d + num_k_k)
                             (num_d_d + num_d_k + num_k_d + num_k_k);
  expected_non_hyphen ← PyFloat.truediv (100 * num_d_d) (num_d_d + num_k_d);
  expected_hyphen ← PyFloat.truediv (100 * num_k_k) (num_d_k + num_k_k);
  Ok (SFmul PyFloat.prec PyFloat.emax accuracy (pynum_float (PyInt 100)),
      expected_non_hyphen, expected_hyphen).

(** No counter is negative. *)
Definition counters_nonnegative (eb : EvaluateBaseline) : Prop :=
  0 <= tp_counter eb /\ 0 <= tn_counter eb
  /\ 0 <= fn_counter eb /\ 0 <= fp_counter eb.

Section LowerCaseTwice.
Context `{PyBuiltins}.

(** Lower-casing a lower-cased string changes nothing. *)
Definition lower_idempotent : Prop :=
  forall s, str_lower (str_lower s) = str_lower s.

End LowerCaseTwice.

(** ['E·Mail'] *)
Definition token_email_capitals : str := py "E" ++ [ANO_TELEIA] ++ py "Mail".

(** *** The report of the language-model evaluation *)

(** The six percentages of the report printed by [run], in the order in
    which they are computed; the starred ones are those of the ambiguous
    matrix.  Their rendering as text is left out. *)
Definition report_accuracies (c : counters) : result (list spec_float) :=
  let m := num c in
  let a := num_ambiguous c in
  accuracy ←
    PyFloat.truediv
      (predicted_v0_expected_v0 m + predicted_v1_expected_v1 m)
      (predicted_v0_expected_v0 m + predicted_v0_expected_v1 m
       + predicted_v1_expected_v0 m + predicted_v1_expected_v1 m);
  accuracy_amb ←
    PyFloat.truediv
      (predicted_v0_expected_v0 a + predicted_v1_expected_v1 a)
      (predicted_v0_expected_v0 a + predicted_v0_expected_v1 a
       + predicted_v1_expected_v0 a + predicted_v1_expected_v1 a);
  expected_non_hyphen ←
    PyFloat.truediv (100 * predicted_v0_expected_v0 m)
                    (predicted_v0_expected_v0 m + predicted_v1_expected_v0 m);
  expected_non_hyphen_amb ←
    PyFloat.truediv (100 * predicted_v0_expected_v0 a)
                    (predicted_v0_expected_v0 a + predicted_v1_expected_v0 a);
  expected_hyphen ←
    PyFloat.truediv (100 * predicted_v1_expected_v1 m)
                    (predicted_v0_expected_v1 m + predicted_v1_expected_v1 m);
  expected_hyphen_amb ←
    PyFloat.truediv (100 * predicted_v1_expected_v1 a)
                    (predicted_v0_expected_v1 a + predicted_v1_expected_v1 a);
  Ok [SFmul PyFloat.prec PyFloat.emax accuracy (pynum_float (PyInt 100));
      SFmul PyFloat.prec PyFloat.emax accuracy_amb (pynum_float (PyInt 100));
      expected_non_hyphen; expected_non_hyphen_amb;
      expected_hyphen; expected_hyphen_amb].

(* ================================================================== *)
(** * Part II: properties                                              *)
(* ================================================================== *)

(** ** Binary64 division and rounding to two decimals *)

Lemma shr_1_m mrs : 0 <= shr_m mrs -> shr_m (shr_1 mrs) = shr_m mrs / 2.
Proof.
  destruct mrs as [m r s]; simpl. intros Hm.
  destruct m as [|p|p]; try lia; [reflexivity|].
  destruct p; simpl shr_m.
  - rewrite (Pos2Z.inj_xI p). apply Z.div_unique with 1; lia.
  - rewrite (Pos2Z.inj_xO p). apply Z.div_unique with 0; lia.
  - reflexivity.
Qed.

Lemma iter_shr_1_m p : forall mrs, 0 <= shr_m mrs ->
  shr_m (SpecFloat.iter_pos shr_1 p mrs) = shr_m mrs / 2 ^ Zpos p.
Proof.
  induction p as [p IH|p IH|]; intros mrs Hm; simpl SpecFloat.iter_pos.
  - assert (H1 : 0 <= shr_m (shr_1 mrs)).
    { rewrite shr_1_m by lia. apply Z.div_pos; lia. }
    assert (H2 : 0 <= shr_m (SpecFloat.iter_pos shr_1 p (shr_1 mrs))).
    { rewrite IH by lia. apply Z.div_pos; lia. }
    rewrite IH by lia. rewrite IH by lia. rewrite shr_1_m by lia.
    rewrite !Z.div_div by lia.
    f_equal. rewrite (Pos2Z.inj_xI p).
    rewrite Z.pow_add_r, Z.pow_mul_r by lia.
    change (2 ^ 2) with 4. rewrite Z.pow_1_r.
    replace (4 ^ Z.pos p) with (2 ^ Z.pos p * 2 ^ Z.pos p).
    2:{ rewrite <- Z.pow_mul_l. reflexivity. }
    lia.
  - assert (H2 : 0 <= shr_m (SpecFloat.iter_pos shr_1 p mrs)).
    { rewrite IH by lia. apply Z.div_pos; lia. }
    rewrite IH by lia. rewrite IH by lia.
    rewrite !Z.div_div by lia.
    f_equal. rewrite (Pos2Z.inj_xO p).
    replace (2 * Z.pos p) with (Z.pos p + Z.pos p) by lia.
    rewrite Z.pow_add_r by lia. reflexivity.
  - rewrite shr_1_m by lia. reflexivity.
Qed.

Lemma digits2_pos_lower p : 2 ^ (Zpos (digits2_pos p) - 1) <= Zpos p.
Proof.
  induction p as [p IH|p IH|]; simpl digits2_pos.
  - rewrite Pos2Z.inj_succ, (Pos2Z.inj_xI p).
    replace (Z.succ (Z.pos (digits2_pos p)) - 1)
      with (1 + (Z.pos (digits2_pos p) - 1)) by lia.
    rewrite Z.pow_add_r by lia. change (2 ^ 1) with 2. lia.
  - rewrite Pos2Z.inj_succ, (Pos2Z.inj_xO p).
    replace (Z.succ (Z.pos (digits2_pos p)) - 1)
      with (1 + (Z.pos (digits2_pos p) - 1)) by lia.
    rewrite Z.pow_add_r by lia. change (2 ^ 1) with 2. lia.
  - reflexivity.
Qed.

Lemma digits2_pos_upper p : Zpos p < 2 ^ Zpos (digits2_pos p).
Proof.
  induction p as [p IH|p IH|]; simpl digits2_pos.
  - rewrite Pos2Z.inj_succ, (Pos2Z.inj_xI p), Z.pow_succ_r by lia. lia.
  - rewrite Pos2Z.inj_succ, (Pos2Z.inj_xO p), Z.pow_succ_r by lia. lia.
  - reflexivity.
Qed.

Lemma Zdigits2_le_of_lt m n :
  0 <= m -> 0 <= n -> m < 2 ^ n -> Zdigits2 m <= n.
Proof.
  intros Hm Hn Hlt. destruct m as [|p|p]; simpl; try lia.
  pose proof (digits2_pos_lower p) as Hl.
  destruct (Z_le_gt_dec (Zpos (digits2_pos p)) n) as [|Hgt]; [assumption|].
  exfalso.
  assert (2 ^ n <= 2 ^ (Zpos (digits2_pos p) - 1)).
  { apply Z.pow_le_mono_r; lia. }
  lia.
Qed.

Lemma digits2_pos_mono a b : (a <= b)%positive ->
  Zpos (digits2_pos a) <= Zpos (digits2_pos b).
Proof.
  intros Hab. apply (Zdigits2_le_of_lt (Zpos a)); try lia.
  pose proof (digits2_pos_upper b). lia.
Qed.

Lemma fexp_binary64 e :
  fexp PyFloat.prec PyFloat.emax e = Z.max (e - 53) (-1074).
Proof. reflexivity. Qed.

Lemma shr_m_of_loc m l : shr_m (shr_record_of_loc m l) = m.
Proof. destruct l as [|[]]; reflexivity. Qed.

(** [shr_fexp] is a floor division by a power of two. *)
Lemma shr_fexp_spec m e l : 0 <= m ->
  snd (shr_fexp PyFloat.prec PyFloat.emax m e l)
  = Z.max e (fexp PyFloat.prec PyFloat.emax (Zdigits2 m + e)) /\
  shr_m (fst (shr_fexp PyFloat.prec PyFloat.emax m e l))
  = m / 2 ^ (snd (shr_fexp PyFloat.prec PyFloat.emax m e l) - e).
Proof.
  intros Hm. unfold shr_fexp, shr.
  set (f := fexp PyFloat.prec PyFloat.emax (Zdigits2 m + e)) in *.
  destruct (f - e) as [|p|p] eqn:Hn; simpl fst; simpl snd.
  - rewrite Z.sub_diag, shr_m_of_loc, Z.div_1_r. split; [lia|reflexivity].
  - split; [lia|].
    rewrite iter_shr_1_m by (rewrite shr_m_of_loc; lia).
    rewrite shr_m_of_loc. f_equal. f_equal. lia.
  - rewrite Z.sub_diag, shr_m_of_loc, Z.div_1_r. split; [lia|reflexivity].
Qed.

Lemma round_nearest_even_cases m l :
  round_nearest_even m l = m \/ round_nearest_even m l = m + 1.
Proof.
  destruct l as [|[]]; simpl; auto. destruct (Z.even m); auto.
Qed.

Lemma div_pow2_bounds m k : 0 <= k ->
  (m / 2 ^ k) * 2 ^ k <= m < (m / 2 ^ k) * 2 ^ k + 2 ^ k.
Proof.
  intros Hk. assert (0 < 2 ^ k) by (apply Z.pow_pos_nonneg; lia).
  pose proof (Z.div_mod m (2 ^ k) ltac:(lia)).
  pose proof (Z.mod_pos_bound m (2 ^ k) ltac:(lia)). lia.
Qed.

Lemma fexp_small e : e <= 1 -> fexp PyFloat.prec PyFloat.emax e <= -52.
Proof. intros. rewrite fexp_binary64. lia. Qed.

Lemma binary_round_aux_unit sx mx ex lx :
  0 <= mx -> ex <= -53 -> mx <= 2 ^ (- ex) ->
  exists mf N,
    52 <= N <= - ex /\ 0 <= mf /\
    binary_round_aux PyFloat.prec PyFloat.emax sx mx ex lx =
      match mf with
      | Zpos p => S754_finite sx p (- N)
      | _ => S754_zero sx
      end /\
    mx - 2 * 2 ^ (- ex - N) < mf * 2 ^ (- ex - N) <= mx + 2 ^ (- ex - N).
Proof.
  intros Hmx Hex Hub. unfold binary_round_aux.
  destruct (shr_fexp_spec mx ex lx Hmx) as [He1 Hm1].
  destruct (shr_fexp PyFloat.prec PyFloat.emax mx ex lx) as [mrs1 e1] eqn:E1.
  cbn [fst snd] in Hm1, He1.
  set (mx1 := round_nearest_even (shr_m mrs1) (loc_of_shr_record mrs1)).
  assert (Hpow : 0 < 2 ^ (- ex)) by (apply Z.pow_pos_nonneg; lia).
  assert (Hd1 : Zdigits2 mx + ex <= 1).
  { assert (Zdigits2 mx <= - ex + 1); [|lia].
    apply Zdigits2_le_of_lt; try lia.
    rewrite Z.pow_add_r by lia. lia. }
  pose proof (fexp_small _ Hd1) as Hf1.
  assert (He1' : ex <= e1 <= -52) by lia.
  pose proof (div_pow2_bounds mx (e1 - ex) ltac:(lia)) as Hdiv1.
  rewrite <- Hm1 in Hdiv1.
  assert (HA : 0 < 2 ^ (e1 - ex)) by (apply Z.pow_pos_nonneg; lia).
  assert (Hsplit1 : 2 ^ (- ex) = 2 ^ (- e1) * 2 ^ (e1 - ex)).
  { rewrite <- Z.pow_add_r by lia. f_equal. lia. }
  assert (Hpow1 : 0 < 2 ^ (- e1)) by (apply Z.pow_pos_nonneg; lia).
  assert (Hm1nn : 0 <= shr_m mrs1).
  { rewrite Hm1. apply Z.div_pos; lia. }
  assert (Hm1ub : shr_m mrs1 <= 2 ^ (- e1)) by nia.
  assert (Hmx1 : mx1 = shr_m mrs1 \/ mx1 = shr_m mrs1 + 1)
    by apply round_nearest_even_cases.
  assert (Hmx1nn : 0 <= mx1) by lia.
  destruct (shr_fexp_spec mx1 e1 loc_Exact Hmx1nn) as [He2 Hm2].
  destruct (shr_fexp PyFloat.prec PyFloat.emax mx1 e1 loc_Exact) as [mrs2 e2] eqn:E2.
  cbn [fst snd] in Hm2, He2.
  assert (Hbig : 2 <= 2 ^ (- e1)).
  { change 2 with (2 ^ 1) at 1. apply Z.pow_le_mono_r; lia. }
  assert (Hd2 : Zdigits2 mx1 + e1 <= 1).
  { assert (Zdigits2 mx1 <= - e1 + 1); [|lia].
    apply Zdigits2_le_of_lt; try lia.
    rewrite Z.pow_add_r by lia. lia. }
  pose proof (fexp_small _ Hd2) as Hf2.
  assert (He2' : e1 <= e2 <= -52) by lia.
  pose proof (div_pow2_bounds mx1 (e2 - e1) ltac:(lia)) as Hdiv2.
  rewrite <- Hm2 in Hdiv2.
  assert (HB : 0 < 2 ^ (e2 - e1)) by (apply Z.pow_pos_nonneg; lia).
  assert (Hmfnn : 0 <= shr_m mrs2).
  { rewrite Hm2. apply Z.div_pos; lia. }
  exists (shr_m mrs2), (- e2).
  assert (HAB : 2 ^ (- ex - - e2) = 2 ^ (e1 - ex) * 2 ^ (e2 - e1)).
  { rewrite <- Z.pow_add_r by lia. f_equal. lia. }
  rewrite HAB, Z.opp_involutive.
  split; [lia|]. split; [lia|]. split.
  - destruct (shr_m mrs2) as [|p|p]; try reflexivity; [|lia].
    replace (e2 <=? PyFloat.emax - PyFloat.prec) with true; [reflexivity|].
    symmetry. apply Z.leb_le. unfold PyFloat.emax, PyFloat.prec. lia.
  - set (A := 2 ^ (e1 - ex)) in *. set (B := 2 ^ (e2 - e1)) in *.
    set (m1 := shr_m mrs1) in *. set (mf := shr_m mrs2) in *.
    split; nia.
Qed.

(** The quotient of two positive integers [a <= b]: a float [mf * 2^-N]
    within [3 * 2^-N] of [a / b]. *)
Lemma quotient_approx (a b : positive) : (a <= b)%positive ->
  exists mf N,
    52 <= N /\ 0 <= mf /\
    PyFloat.quotient (Zpos a) (Zpos b) =
      match mf with
      | Zpos p => S754_finite false p (- N)
      | _ => S754_zero false
      end /\
    - 3 * Zpos b < mf * Zpos b - Zpos a * 2 ^ N <= Zpos b.
Proof.
  intros Hab. unfold PyFloat.quotient, PyFloat.of_int, SFdiv, SFdiv_core_binary.
  cbn [xorb].
  set (e' := Z.min _ _).
  assert (He' : e' <= -53).
  { subst e'. rewrite fexp_binary64.
    pose proof (digits2_pos_mono a b Hab). simpl Zdigits2. lia. }
  destruct (0 - 0 - e') as [|s|s] eqn:Hs; try lia.
  rewrite Z.shiftl_mul_pow2 by lia.
  destruct (Z.div_eucl (Z.pos a * 2 ^ Z.pos s) (Z.pos b)) as [q r] eqn:Hqr.
  assert (Hq : q = (Z.pos a * 2 ^ Z.pos s) / Z.pos b).
  { unfold Z.div. rewrite Hqr. reflexivity. }
  assert (HS : 0 < 2 ^ Z.pos s) by (apply Z.pow_pos_nonneg; lia).
  assert (Hse : Z.pos s = - e') by lia.
  pose proof (Z.div_mod (Z.pos a * 2 ^ Z.pos s) (Z.pos b) ltac:(lia)) as Hdm.
  pose proof (Z.mod_pos_bound (Z.pos a * 2 ^ Z.pos s) (Z.pos b) ltac:(lia)) as Hmb.
  rewrite <- Hq in Hdm.
  assert (Hq0 : 0 <= q) by (subst q; apply Z.div_pos; lia).
  assert (Hqub : q <= 2 ^ (- e')).
  { rewrite <- Hse. assert (Z.pos a <= Z.pos b) by lia. nia. }
  destruct (binary_round_aux_unit false q e' (new_location (Z.pos b) r)
              Hq0 He' Hqub) as (mf & N & HN & Hmf & Hres & Hbnd).
  exists mf, N. split; [lia|]. split; [lia|]. split; [exact Hres|].
  assert (HAB : 0 < 2 ^ (- e' - N)) by (apply Z.pow_pos_nonneg; lia).
  assert (HSplit : 2 ^ Z.pos s = 2 ^ N * 2 ^ (- e' - N)).
  { rewrite <- Z.pow_add_r by lia. f_equal. lia. }
  set (AB := 2 ^ (- e' - N)) in *. set (D := 2 ^ N) in *.
  set (S := 2 ^ Z.pos s) in *. set (B := Z.pos b) in *. set (A := Z.pos a) in *.
  set (rr := (A * S) mod B) in *.
  assert (HB : 0 < B) by (subst B; lia).
  split.
  - assert (0 < (mf * B - A * D + 3 * B) * AB); [|nia]. nia.
  - assert ((mf * B - A * D - B) * AB <= 0); [|nia]. nia.
Qed.

Lemma round_half_even_bound n d : 0 < d ->
  - d <= 2 * (PyFloat.round_half_even n d * d - n) <= d.
Proof.
  intros Hd. unfold PyFloat.round_half_even.
  pose proof (Z.div_mod n d ltac:(lia)) as Hdm.
  pose proof (Z.mod_pos_bound n d Hd) as Hmb.
  destruct (Z.compare_spec (2 * (n mod d)) d) as [Hc|Hc|Hc].
  - destruct (Z.even (n / d)); nia.
  - nia.
  - nia.
Qed.

(** The hundredths of the quotient are within one of [100 * a / b]. *)
Lemma hundredths_quotient (a b : positive) : (a <= b)%positive ->
  - Zpos b < PyFloat.hundredths (PyFloat.quotient (Zpos a) (Zpos b)) * Zpos b
             - 100 * Zpos a < Zpos b.
Proof.
  intros Hab.
  destruct (quotient_approx a b Hab) as (mf & N & HN & Hmf & -> & Hbnd).
  assert (HD : 2 ^ 52 <= 2 ^ N) by (apply Z.pow_le_mono_r; lia).
  change (2 ^ 52) with 4503599627370496 in HD.
  destruct mf as [|p|p]; try lia.
  - simpl PyFloat.hundredths. nia.
  - destruct N as [|n|n]; try lia.
    simpl PyFloat.hundredths. unfold PyFloat.hundredths_mag.
    pose proof (round_half_even_bound (100 * Z.pos p) (2 ^ Z.pos n) ltac:(lia)) as Hr.
    set (k := PyFloat.round_half_even (100 * Z.pos p) (2 ^ Z.pos n)) in *.
    set (D := 2 ^ Z.pos n) in *. set (B := Z.pos b) in *. set (A := Z.pos a) in *.
    set (P := Z.pos p) in *.
    assert (HB : 0 < B) by (subst B; lia).
    assert (H1 : - D * B <= 2 * (k * D - 100 * P) * B <= D * B) by nia.
    assert (H2 : - 600 * B < 200 * (P * B - A * D) <= 200 * B) by lia.
    assert (H3 : - 2 * D * B < 2 * (k * B - 100 * A) * D < 2 * D * B) by nia.
    split; nia.
Qed.

(** A decimal with two places in [0, 1] is read back from its float. *)
Lemma hundredths_decimal2 k : 0 <= k <= 100 ->
  PyFloat.hundredths (PyFloat.decimal2 k) = k.
Proof.
  intros Hk.
  assert (Hall : forallb (fun n => PyFloat.hundredths (PyFloat.decimal2 (Z.of_nat n))
                                   =? Z.of_nat n) (seq 0 101) = true)
    by (vm_compute; reflexivity).
  rewrite forallb_forall in Hall.
  specialize (Hall (Z.to_nat k)).
  rewrite Z2Nat.id in Hall by lia.
  apply Z.eqb_eq, Hall, in_seq. lia.
Qed.

Lemma hundredths_mag_nonneg m e : 0 <= PyFloat.hundredths_mag m e.
Proof.
  unfold PyFloat.hundredths_mag.
  destruct e as [|p|p].
  - lia.
  - assert (0 < 2 ^ Z.pos p) by (apply Z.pow_pos_nonneg; lia). nia.
  - unfold PyFloat.round_half_even.
    assert (0 < 2 ^ Z.pos p) by (apply Z.pow_pos_nonneg; lia).
    assert (0 <= 100 * Z.pos m / 2 ^ Z.pos p) by (apply Z.div_pos; lia).
    destruct (_ ?= _); [destruct (Z.even _)| |]; lia.
Qed.

Lemma hundredths_round2 x : 0 <= PyFloat.hundredths x <= 100 ->
  PyFloat.hundredths (PyFloat.round2 x) = PyFloat.hundredths x.
Proof.
  destruct x as [s|s| |s m e]; try reflexivity.
  cbn [PyFloat.round2 PyFloat.hundredths]. intros Hk.
  pose proof (hundredths_mag_nonneg m e) as Hnn.
  destruct (PyFloat.hundredths_mag m e) as [|k|k] eqn:E; try lia.
  - destruct s; reflexivity.
  - destruct s; [lia|]. apply (hundredths_decimal2 (Zpos k)). lia.
Qed.

Lemma truediv_pos a b : 1 <= a <= b ->
  PyFloat.truediv a b = Ok (PyFloat.quotient a b).
Proof.
  intros Hab. unfold PyFloat.truediv.
  destruct (Z.eqb_spec b 0) as [->|_]; [lia|].
  destruct a as [|a|a]; try lia. destruct b as [|b|b]; try lia.
  destruct (quotient_approx a b ltac:(lia)) as (mf & N & _ & _ & -> & _).
  destruct mf; reflexivity.
Qed.

Lemma hundredths_truediv a b : 1 <= a <= b ->
  - b < PyFloat.hundredths (PyFloat.quotient a b) * b - 100 * a < b.
Proof.
  intros Hab.
  destruct a as [|a|a]; try lia. destruct b as [|b|b]; try lia.
  apply hundredths_quotient. lia.
Qed.

(** ** Strings: [split], [find], [rfind] and the slices *)

Lemma str_split_length sep s :
  List.length (str_split sep s) = S (str_count sep s).
Proof.
  unfold str_count. induction s as [|c s IH]; [reflexivity|].
  cbn [str_split List.filter].
  rewrite (N.eqb_sym sep c).
  destruct (N.eqb c sep).
  - cbn [List.length]. rewrite IH. reflexivity.
  - destruct (str_split sep s) as [|piece pieces]; [discriminate IH|].
    exact IH.
Qed.

Lemma str_split_two sep s :
  str_count sep s = 1%nat <->
  exists left_half right_half, str_split sep s = [left_half; right_half].
Proof.
  pose proof (str_split_length sep s) as Hlen. split.
  - intros Hc. rewrite Hc in Hlen.
    destruct (str_split sep s) as [|a [|b [|? ?]]]; try discriminate Hlen.
    eauto.
  - intros (a & b & Hs). rewrite Hs in Hlen. cbn in Hlen. lia.
Qed.

Lemma str_split_nonempty sep s : str_split sep s <> [].
Proof.
  destruct s as [|c s]; cbn [str_split]; [discriminate|].
  destruct (N.eqb c sep); [discriminate|].
  destruct (str_split sep s); discriminate.
Qed.

Lemma str_find_lower_bound c s : -1 <= str_find c s.
Proof.
  induction s as [|x s IH]; cbn [str_find]; [lia|].
  destruct (N.eqb x c); [lia|]. destruct (Z.ltb_spec (str_find c s) 0); lia.
Qed.

Lemma str_rfind_lower_bound c s : -1 <= str_rfind c s.
Proof.
  induction s as [|x s IH]; cbn [str_rfind]; [lia|].
  destruct (Z.leb_spec 0 (str_rfind c s)); [lia|].
  destruct (N.eqb x c); lia.
Qed.

Lemma str_find_absent c s : str_find c s < 0 -> str_split c s = [s].
Proof.
  induction s as [|x s IH]; cbn [str_find str_split]; [reflexivity|].
  destruct (N.eqb x c); [lia|].
  destruct (Z.ltb_spec (str_find c s) 0) as [Hlt|Hge].
  - intros _. rewrite IH by assumption. reflexivity.
  - pose proof (str_find_lower_bound c s). lia.
Qed.

Lemma str_rfind_absent c s : str_rfind c s < 0 -> str_split c s = [s].
Proof.
  induction s as [|x s IH]; cbn [str_rfind str_split]; [reflexivity|].
  destruct (Z.leb_spec 0 (str_rfind c s)) as [Hge|Hlt].
  - pose proof (str_rfind_lower_bound c s). lia.
  - destruct (N.eqb x c); [lia|]. intros _. rewrite IH by assumption. reflexivity.
Qed.

Lemma str_rfind_present c s : 0 <= str_rfind c s ->
  (2 <= List.length (str_split c s))%nat.
Proof.
  rewrite str_split_length. unfold str_count.
  induction s as [|x s IH]; cbn [str_rfind List.filter]; [lia|].
  destruct (Z.leb_spec 0 (str_rfind c s)) as [Hge|Hlt].
  - intros _. specialize (IH Hge). destruct (N.eqb c x); cbn [List.length]; lia.
  - rewrite (N.eqb_sym c x). destruct (N.eqb x c); [|lia].
    intros _. cbn [List.length]. lia.
Qed.

(** [s[s.rfind(c) + 1:]] is the last piece of [s.split(c)]. *)
Lemma slice_from_rfind c s :
  slice_from (str_rfind c s + 1) s = List.last (str_split c s) [].
Proof.
  unfold slice_from. induction s as [|x s IH]; [reflexivity|].
  cbn [str_rfind str_split].
  pose proof (str_rfind_lower_bound c s) as Hlb.
  destruct (Z.leb_spec 0 (str_rfind c s)) as [Hge|Hlt].
  - replace (Z.to_nat (str_rfind c s + 1 + 1))
      with (S (Z.to_nat (str_rfind c s + 1))) by lia.
    cbn [skipn]. rewrite IH.
    pose proof (str_rfind_present c s Hge) as Hlen.
    destruct (str_split c s) as [|piece [|q pieces]]; cbn in Hlen; try lia.
    destruct (N.eqb x c); reflexivity.
  - rewrite (str_rfind_absent c s Hlt).
    destruct (N.eqb x c); reflexivity.
Qed.

(** [s[:s.find(c)]] is the first piece of [s.split(c)] when [c] occurs. *)
Lemma slice_to_find c s : 0 <= str_find c s ->
  slice_to (str_find c s) s = List.hd [] (str_split c s).
Proof.
  unfold slice_to. induction s as [|x s IH]; cbn [str_find str_split]; [lia|].
  destruct (N.eqb x c); [reflexivity|].
  destruct (Z.ltb_spec (str_find c s) 0) as [Hlt|Hge]; [lia|]. intros _.
  replace (Z.to_nat (str_find c s + 1)) with (S (Z.to_nat (str_find c s))) by lia.
  cbn [firstn]. rewrite IH by assumption.
  pose proof (str_split_nonempty c s).
  destruct (str_split c s); [contradiction|reflexivity].
Qed.

Lemma str_find_zero c s : str_find c s = 0 -> hd_error s = Some c.
Proof.
  destruct s as [|x s]; cbn [str_find]; [lia|].
  destruct (N.eqb_spec x c) as [->|_]; [reflexivity|].
  destruct (Z.ltb_spec (str_find c s) 0); [lia|].
  pose proof (str_find_lower_bound c s). lia.
Qed.

(** No piece of [s.split(c)] holds [c]. *)
Lemma str_split_pieces c s :
  Forall (fun piece => existsb (N.eqb c) piece = false) (str_split c s).
Proof.
  induction s as [|x s IH]; cbn [str_split].
  - repeat constructor.
  - destruct (N.eqb_spec x c) as [->|Hne].
    + constructor; [reflexivity|assumption].
    + destruct (str_split c s) as [|piece pieces]; [repeat constructor|].
      * cbn. apply orb_false_intro; [|reflexivity]. apply N.eqb_neq. congruence.
      * apply Forall_cons in IH as [Hp Hps]. constructor; [|assumption].
        cbn [existsb]. rewrite Hp. apply orb_false_intro; [|reflexivity].
        apply N.eqb_neq. congruence.
Qed.

Lemma last_segment_no_hyphen s : re_search_hyphen (last_segment s) = false.
Proof.
  unfold last_segment, re_search_hyphen.
  pose proof (str_split_pieces HYPHEN_MINUS s) as Hall.
  pose proof (str_split_nonempty HYPHEN_MINUS s) as Hne.
  destruct (str_split HYPHEN_MINUS s) as [|p ps] ; [contradiction|].
  rewrite Forall_forall in Hall. apply Hall.
  apply list_elem_of_In. apply (@List.exists_last _ (p :: ps)) in Hne as (l' & a & ->).
  rewrite List.last_last. apply in_or_app. right. left. reflexivity.
Qed.

Lemma first_segment_no_hyphen s : re_search_hyphen (first_segment s) = false.
Proof.
  unfold first_segment, re_search_hyphen.
  pose proof (str_split_pieces HYPHEN_MINUS s) as Hall.
  destruct (str_split HYPHEN_MINUS s) as [|p ps]; [reflexivity|].
  apply Forall_cons in Hall as [Hp _]. exact Hp.
Qed.

(** The target part of the source is the pair of segments of the
    specification, unless the right half starts with a normal hyphen. *)
Lemma subword_parts_segments left_half right_half :
  hd_error right_half <> Some HYPHEN_MINUS ->
  subword_parts left_half right_half
  = (last_segment left_half, first_segment right_half).
Proof.
  intros Hhd. unfold subword_parts, last_segment, first_segment.
  rewrite slice_from_rfind. f_equal.
  pose proof (str_find_lower_bound HYPHEN_MINUS right_half) as Hlb.
  destruct (Z.ltb_spec 0 (str_find HYPHEN_MINUS right_half)) as [Hpos|Hle].
  - apply slice_to_find. lia.
  - assert (Hneg : str_find HYPHEN_MINUS right_half < 0).
    { destruct (Z.eq_dec (str_find HYPHEN_MINUS right_half) 0) as [E|E]; [|lia].
      apply str_find_zero in E. contradiction. }
    rewrite (str_find_absent _ _ Hneg). cbn [List.hd].
    unfold slice_to, len. rewrite Nat2Z.id. apply firstn_all.
Qed.

Lemma re_search_digit_filter s :
  re_search_digit s = false <-> List.filter is_digit s = [].
Proof.
  unfold re_search_digit. induction s as [|c s IH]; [tauto|].
  cbn [existsb List.filter]. destruct (is_digit c); cbn [orb]; [|exact IH].
  split; discriminate.
Qed.

Lemma str_replace_In old new s x :
  In x (str_replace old new s) -> In x new \/ In x s.
Proof.
  unfold str_replace. intros Hin. apply in_flat_map in Hin as (c & Hc & Hx).
  destruct (N.eqb c old); [auto|]. destruct Hx as [<-|[]]. auto.
Qed.

Lemma str_replace_digits old new s :
  is_digit old = false -> List.filter is_digit new = [] ->
  List.filter is_digit (str_replace old new s) = List.filter is_digit s.
Proof.
  intros Hold Hnew. unfold str_replace.
  induction s as [|c s IH]; [reflexivity|].
  cbn [flat_map List.filter]. rewrite List.filter_app, IH.
  destruct (N.eqb_spec c old) as [->|_].
  - rewrite Hnew, Hold. reflexivity.
  - cbn [List.filter]. destruct (is_digit c); reflexivity.
Qed.

Lemma str_replace_length_one old x s :
  List.length (str_replace old [x] s) = List.length s.
Proof.
  unfold str_replace. induction s as [|c s IH]; [reflexivity|].
  cbn [flat_map]. rewrite List.length_app, IH.
  destruct (N.eqb c old); reflexivity.
Qed.

Lemma str_replace_length_nil old s :
  (List.length (str_replace old [] s) + str_count old s)%nat = List.length s.
Proof.
  unfold str_replace, str_count. induction s as [|c s IH]; [reflexivity|].
  cbn [flat_map List.filter]. rewrite List.length_app, (N.eqb_sym old c).
  destruct (N.eqb c old); cbn [List.length]; lia.
Qed.

(** ** The word list and the confidence scores *)

Lemma contains_true (d : gmap (list N) Z) k v :
  d !! k = Some v -> contains d k = true.
Proof. unfold contains. intros ->. reflexivity. Qed.

Lemma contains_false (d : gmap (list N) Z) k :
  d !! k = None <-> contains d k = false.
Proof. unfold contains. destruct (d !! k); split; congruence. Qed.

Lemma calculate_confidence_score_pos self hyphenated_word merged_word m h :
  words self !! merged_word = Some m ->
  words self !! hyphenated_word = Some h ->
  1 <= m -> 1 <= h ->
  calculate_confidence_score self hyphenated_word merged_word
  = Ok (dict_set [(merged_word,
                   PyFloat (PyFloat.round2 (PyFloat.quotient m (m + h))))]
                 hyphenated_word
                 (PyFloat (PyFloat.round2 (PyFloat.quotient h (m + h))))).
Proof.
  intros Hm Hh Hm1 Hh1. unfold calculate_confidence_score, getitem.
  rewrite (contains_true _ _ _ Hh), Hm, Hh. cbn [mbind result_bind].
  rewrite !truediv_pos by lia. reflexivity.
Qed.

Lemma confidences_sum m h : 1 <= m -> 1 <= h ->
  let cm := PyFloat.round2 (PyFloat.quotient m (m + h)) in
  let ch := PyFloat.round2 (PyFloat.quotient h (m + h)) in
  0 <= PyFloat.hundredths cm <= 100 /\ 0 <= PyFloat.hundredths ch <= 100 /\
  99 <= PyFloat.hundredths cm + PyFloat.hundredths ch <= 101.
Proof.
  intros Hm Hh cm ch.
  pose proof (hundredths_truediv m (m + h) ltac:(lia)) as Bm.
  pose proof (hundredths_truediv h (m + h) ltac:(lia)) as Bh.
  assert (Rm : 0 <= PyFloat.hundredths (PyFloat.quotient m (m + h)) <= 100) by nia.
  assert (Rh : 0 <= PyFloat.hundredths (PyFloat.quotient h (m + h)) <= 100) by nia.
  subst cm ch. rewrite !hundredths_round2 by assumption.
  split; [assumption|]. split; [assumption|]. nia.
Qed.

(** Claim C1.  For a word list that holds the merged form with frequency
    [m >= 1] and the hyphenated form with frequency [h >= 1] (two distinct
    strings), [calculate_confidence_score] returns exactly the two-entry
    mapping [{merged: round(m / (m + h), 2), hyphenated: round(h / (m + h), 2)}]
    and the two confidences, in hundredths, sum to 100 up to the rounding of
    each addend: the sum is 99, 100 or 101. *)
Theorem confidence_score_of_pair self (hyphenated_word merged_word : list N)
        (m h : Z) :
  words self !! merged_word = Some m ->
  words self !! hyphenated_word = Some h ->
  1 <= m -> 1 <= h ->
  merged_word <> hyphenated_word ->
  let cm := PyFloat.round2 (PyFloat.quotient m (m + h)) in
  let ch := PyFloat.round2 (PyFloat.quotient h (m + h)) in
  PyFloat.truediv m (m + h) = Ok (PyFloat.quotient m (m + h))
  /\ PyFloat.truediv h (m + h) = Ok (PyFloat.quotient h (m + h))
  /\ calculate_confidence_score self hyphenated_word merged_word
     = Ok [(merged_word, PyFloat cm); (hyphenated_word, PyFloat ch)]
  /\ 99 <= PyFloat.hundredths cm + PyFloat.hundredths ch <= 101.
Proof.
  intros Hm Hh Hm1 Hh1 Hne cm ch.
  split; [apply truediv_pos; lia|]. split; [apply truediv_pos; lia|]. split.
  - rewrite (calculate_confidence_score_pos self _ _ m h) by assumption.
    cbn [dict_set]. rewrite decide_False by assumption. reflexivity.
  - apply confidences_sum; assumption.
Qed.

(** The sum does differ from 100: [round(3 / 200, 2) + round(197 / 200, 2)]
    is [0.01 + 0.98]. *)
Lemma confidences_sum_99 :
  PyFloat.hundredths (PyFloat.round2 (PyFloat.quotient 3 200))
  + PyFloat.hundredths (PyFloat.round2 (PyFloat.quotient 197 200)) = 99.
Proof. vm_compute. reflexivity. Qed.

(** For one and the same string as both forms (a word without hyphen
    symbol) the mapping has the single entry [0.5]. *)
Lemma confidence_score_of_one_word :
  calculate_confidence_score aliens_baseline (py "aliens") (py "aliens")
  = Ok [(py "aliens", PyFloat (PyFloat.decimal2 50))].
Proof. vm_compute. reflexivity. Qed.

Lemma confidence_score_of_pair_witness :
  calculate_confidence_score email_baseline (py "e-mail") (py "email")
  = Ok [(py "email", PyFloat (PyFloat.decimal2 57));
        (py "e-mail", PyFloat (PyFloat.decimal2 43))].
Proof.
  refine (proj1 (proj2 (proj2
    (confidence_score_of_pair email_baseline (py "e-mail") (py "email") 570 430 _ _ _ _ _)))).
  - vm_compute; reflexivity.
  - vm_compute; reflexivity.
  - lia.
  - lia.
  - vm_compute; discriminate.
Defined.

(** ** The instance on ASCII text *)

Ltac case_leb :=
  repeat match goal with
  | |- context [N.leb ?a ?b] => destruct (N.leb_spec a b)
  | H : context [N.leb ?a ?b] |- _ => destruct (N.leb_spec a b)
  end.

Lemma lower_char_digit c : is_digit (lower_char c) = is_digit c.
Proof.
  unfold lower_char, is_digit. case_leb; cbn [andb] in *; try reflexivity; lia.
Qed.

Lemma lower_char_not_chi c : lower_char c <> CAPITAL_CHI.
Proof.
  unfold lower_char, CAPITAL_CHI. case_leb; cbn [andb] in *; lia.
Qed.

Lemma lower_char_ano_teleia c :
  N.eqb ANO_TELEIA (lower_char c) = N.eqb ANO_TELEIA c.
Proof.
  unfold lower_char, ANO_TELEIA. case_leb; cbn [andb] in *; try reflexivity;
    destruct (N.eqb_spec 903 c); destruct (N.eqb_spec 903 (c + 32));
    try reflexivity; lia.
Qed.

Lemma ascii_lower_keeps_digits : @lower_keeps_digits ascii_builtins.
Proof.
  intros s. cbn [str_lower ascii_builtins].
  induction s as [|c s IH]; [reflexivity|].
  cbn [List.map List.filter]. rewrite lower_char_digit, IH.
  destruct (is_digit c) eqn:E; [|reflexivity].
  f_equal. unfold lower_char. unfold is_digit in E.
  case_leb; cbn [andb] in *; try reflexivity; try discriminate; lia.
Qed.

Lemma ascii_lower_avoids_chi : @lower_avoids ascii_builtins CAPITAL_CHI.
Proof.
  intros s Hin. cbn [str_lower ascii_builtins] in Hin.
  apply in_map_iff in Hin as (c & Hc & _). exact (lower_char_not_chi c Hc).
Qed.

Lemma ascii_lower_keeps_ano_teleia : @lower_keeps_count ascii_builtins ANO_TELEIA.
Proof.
  intros s. cbn [str_lower ascii_builtins]. unfold str_count.
  induction s as [|c s IH]; [reflexivity|].
  cbn [List.map List.filter]. rewrite lower_char_ano_teleia.
  destruct (N.eqb ANO_TELEIA c); cbn [List.length]; lia.
Qed.

(** ** The examples of the sources, evaluated *)

(** [find], [rfind], [split] and [replace] as the interpreter computes
    them. *)
Lemma str_examples :
  str_find HYPHEN_MINUS (py "a-b-c") = 1
  /\ str_rfind HYPHEN_MINUS (py "a-b-c") = 3
  /\ str_find HYPHEN_MINUS (py "abc") = -1
  /\ str_rfind HYPHEN_MINUS (py "abc") = -1
  /\ str_split HYPHEN_MINUS (py "a-b-c") = [py "a"; py "b"; py "c"]
  /\ str_split HYPHEN_MINUS (py "-") = [[]; []]
  /\ str_split HYPHEN_MINUS [] = [[]]
  /\ str_replace HYPHEN_MINUS [] (py "a-b-c") = py "abc"
  /\ re_sub_digit CAPITAL_CHI (py "13-million")
     = [CAPITAL_CHI; CAPITAL_CHI] ++ py "-million".
Proof. repeat split; reflexivity. Qed.

(** [1 / 3], [round(1 / 3, 2)], [round(0.125, 2)], [round(0.375, 2)],
    [0.8 - 0.6] and [round(0.8 - 0.6, 2)] with the bits that the interpreter
    gives them. *)
Lemma float_examples :
  PyFloat.quotient 1 3 = S754_finite false 6004799503160661 (-54)
  /\ PyFloat.round2 (PyFloat.quotient 1 3)
     = S754_finite false 5944751508129055 (-54)
  /\ PyFloat.round2 (PyFloat.quotient 1 8) = PyFloat.decimal2 12
  /\ PyFloat.round2 (PyFloat.quotient 3 8) = PyFloat.decimal2 38
  /\ PyFloat.sub (PyFloat.decimal2 80) (PyFloat.decimal2 60)
     = S754_finite false 7205759403792796 (-55)
  /\ PyFloat.round2 (PyFloat.sub (PyFloat.decimal2 80) (PyFloat.decimal2 60))
     = S754_finite false 7205759403792794 (-55).
Proof. repeat split; vm_compute; reflexivity. Qed.

(** The scenarios of the specification and the doctests of
    [merge_and_lookup] (with the standard hyphen symbol). *)
Lemma merge_and_lookup_examples :
  @merge_and_lookup ascii_builtins email_baseline token_email
  = Ok [(py "email", PyFloat (PyFloat.decimal2 57));
        (py "e-mail", PyFloat (PyFloat.decimal2 43))]
  /\ @best_candidate ascii_builtins email_baseline token_email
     = Ok (py "email", PyFloat (PyFloat.decimal2 57))
  /\ @merge_and_lookup ascii_builtins aliens_baseline token_aliens
     = Ok [(py "aliens", PyInt 1)]
  /\ @merge_and_lookup ascii_builtins aliens_baseline token_email
     = Ok [(py "email", PyInt 0)].
Proof. repeat split; vm_compute; reflexivity. Qed.

(** ** The cascade of [merge_and_lookup] *)

Section Cascade.
Context `{PyBuiltins}.
Variable self : BaselineWithSupplements.

Lemma merge_and_lookup_whole_word_unknown tok :
  whole_word_unknown self tok ->
  merge_and_lookup self tok =
    if re_search_hyphen tok then
      match str_split (hyphen_symbol self) (str_lower tok) with
      | [left_half; right_half] =>
          lookup_subword self (merged_form self tok) (hyphenated_form self tok)
                         left_half right_half
      | _ => Raise ValueError
      end
    else Ok (fromkeys (merged_form self tok) (PyInt 0)).
Proof.
  unfold whole_word_unknown, lookup_key, merge_and_lookup, merged_form,
    hyphenated_form.
  intros [Hm Hh]. destruct (re_search_digit tok); cbn [negb];
    rewrite Hm, Hh; reflexivity.
Qed.

(** Claim C4.  When the merged form of a word (lower-cased, hyphen symbol
    removed) is in the word list and its hyphenated form is not,
    [merge_and_lookup] returns exactly the one-entry mapping
    [{merged form: 1}]: first with the presence of a form read as the source
    looks it up (for a word with a digit, under the key with the digits
    replaced by the digit symbol); then with the presence of the forms
    themselves, for every word list that follows its convention of holding
    no decimal digit. *)
Theorem merged_form_only_known tok :
  (contains (words self) (lookup_key self tok (merged_form self tok)) = true ->
   contains (words self) (lookup_key self tok (hyphenated_form self tok))
   = false ->
   merge_and_lookup self tok = Ok [(merged_form self tok, PyInt 1)])
  /\ (word_list_without_digits self ->
      lower_keeps_digits ->
      is_digit (hyphen_symbol self) = false ->
      contains (words self) (merged_form self tok) = true ->
      contains (words self) (hyphenated_form self tok) = false ->
      merge_and_lookup self tok = Ok [(merged_form self tok, PyInt 1)]).
Proof.
  assert (Hkey :
    contains (words self) (lookup_key self tok (merged_form self tok)) = true ->
    contains (words self) (lookup_key self tok (hyphenated_form self tok))
    = false ->
    merge_and_lookup self tok = Ok [(merged_form self tok, PyInt 1)]).
  { unfold lookup_key, merge_and_lookup, merged_form, hyphenated_form.
    intros Hm Hh. destruct (re_search_digit tok); cbn [negb];
      rewrite Hm, Hh; reflexivity. }
  split; [exact Hkey|].
  intros Hconv Hlow Hsym Hm Hh.
  assert (Hd : re_search_digit tok = false).
  { specialize (Hconv _ Hm).
    unfold merged_form in Hconv.
    rewrite re_search_digit_filter in Hconv |- *.
    rewrite str_replace_digits, Hlow in Hconv by auto. exact Hconv. }
  apply Hkey; unfold lookup_key; rewrite Hd; assumption.
Qed.

(** Claim C5.  When the cascade completes (the word has no normal
    hyphen, or exactly one hyphen symbol, so that the split into two
    halves succeeds) and none of the keys that are looked up (the merged
    and the hyphenated form, digit-substituted for a word with a digit,
    and the two forms of the adjacent subword) is in the word list,
    [merge_and_lookup] returns exactly [{merged form: 0}]; it returns,
    and raises nothing. *)
Theorem unknown_word_sentinel tok :
  cascade_completes self tok ->
  Forall (fun k => words self !! k = None) (looked_up_keys self tok) ->
  merge_and_lookup self tok = Ok [(merged_form self tok, PyInt 0)].
Proof.
  intros Hc Hall. unfold looked_up_keys in Hall.
  apply Forall_cons in Hall as [Hm Hall]. apply Forall_cons in Hall as [Hh Hsub].
  rewrite merge_and_lookup_whole_word_unknown
    by (split; apply contains_false; assumption).
  unfold subword_keys in Hsub. unfold cascade_completes in Hc.
  destruct (re_search_hyphen tok); [|reflexivity].
  destruct Hc as [Hc|Hc]; [discriminate Hc|].
  apply str_split_two in Hc as (l & r & Hs). rewrite Hs in *.
  unfold lookup_subword. destruct (subword_parts l r) as [p s].
  apply Forall_cons in Hsub as [H1 Hsub]. apply Forall_cons in Hsub as [H2 _].
  apply contains_false in H1, H2. rewrite H1, H2. reflexivity.
Qed.

Lemma calculate_confidence_score_no_ValueError hyphenated_word merged_word :
  calculate_confidence_score self hyphenated_word merged_word
  <> Raise ValueError.
Proof.
  unfold calculate_confidence_score, getitem, PyFloat.truediv.
  destruct (words self !! merged_word) as [m|]; [|discriminate].
  cbn [mbind result_bind].
  destruct (contains (words self) hyphenated_word);
    [destruct (words self !! hyphenated_word) as [h|]; [|discriminate]|];
    cbn [mbind result_bind];
    (destruct (_ =? 0); [discriminate|]);
    (destruct (PyFloat.quotient _ _); try discriminate; cbn [mbind result_bind];
     destruct (PyFloat.quotient _ _); discriminate).
Qed.

Lemma lookup_subword_no_ValueError merged_word hyphenated_word l r :
  lookup_subword self merged_word hyphenated_word l r <> Raise ValueError.
Proof.
  unfold lookup_subword. destruct (subword_parts l r) as [p s].
  destruct (contains _ (p ++ s)); destruct (contains _ (p ++ _ ++ s));
    try discriminate.
  pose proof (calculate_confidence_score_no_ValueError
                (p ++ s) (p ++ [HYPHEN_MINUS] ++ s)) as Hc.
  destruct (calculate_confidence_score _ _ _); cbn [mbind result_bind];
    congruence.
Qed.

(** Claim C10.  For a word that holds the hyphen symbol two or more times
    and a normal hyphen, and whose lookups as a whole word (plain or
    digit-substituted) all fail, [merge_and_lookup] raises [ValueError] at
    the unpacking of the split into [(left, right)]; among such words with
    a normal hyphen, it raises this exception exactly when the number of
    hyphen symbols is not one.  (The split is made on the lower-cased
    word; [str.lower] is taken not to change the number of hyphen
    symbols.) *)
Theorem several_symbols_raise tok :
  lower_keeps_count (hyphen_symbol self) ->
  re_search_hyphen tok = true ->
  whole_word_unknown self tok ->
  ((2 <= str_count (hyphen_symbol self) tok)%nat ->
   merge_and_lookup self tok = Raise ValueError)
  /\ (merge_and_lookup self tok = Raise ValueError
      <-> str_count (hyphen_symbol self) tok <> 1%nat).
Proof.
  intros Hlow Hh Hu.
  rewrite merge_and_lookup_whole_word_unknown by assumption. rewrite Hh.
  pose proof (str_split_length (hyphen_symbol self) (str_lower tok)) as Hlen.
  rewrite Hlow in Hlen.
  destruct (str_split _ _) as [|a [|b [|c rest]]]; cbn in Hlen.
  - lia.
  - split; [reflexivity|]. split; [lia|reflexivity].
  - split; [lia|]. split; [|lia].
    intros E. exfalso. exact (lookup_subword_no_ValueError _ _ _ _ E).
  - split; [reflexivity|]. split; [lia|reflexivity].
Qed.
End Cascade.

Lemma all_absent (d : gmap (list N) Z) (keys : list (list N)) :
  forallb (fun k => negb (contains d k)) keys = true ->
  Forall (fun k => d !! k = None) keys.
Proof.
  intros Hall. apply Forall_forall. intros k Hk.
  rewrite forallb_forall in Hall. apply contains_false.
  apply negb_true_iff, Hall. apply list_elem_of_In. exact Hk.
Qed.

(** Without the convention the second reading fails: with the key ['1a']
    in the word list, ['1·a'] is looked up as ['Χa'] and is unknown. *)
Lemma merged_form_with_digit_in_word_list :
  let self := baseline_of [(py "1a", 5)] in
  contains (words self) (@merged_form ascii_builtins self token_digit_letter)
  = true
  /\ @merge_and_lookup ascii_builtins self token_digit_letter
     = Ok [(py "1a", PyInt 0)].
Proof. split; vm_compute; reflexivity. Qed.

Lemma merged_form_only_known_witness :
  @merge_and_lookup ascii_builtins aliens_baseline token_aliens
  = Ok [(py "aliens", PyInt 1)].
Proof.
  refine (proj1 (@merged_form_only_known ascii_builtins aliens_baseline
                   token_aliens) _ _).
  - vm_compute; reflexivity.
  - vm_compute; reflexivity.
Defined.

Lemma unknown_word_sentinel_witness :
  @merge_and_lookup ascii_builtins aliens_baseline token_multi_million
  = Ok [(py "multi-million-dollar", PyInt 0)].
Proof.
  refine (@unknown_word_sentinel ascii_builtins aliens_baseline
            token_multi_million _ _).
  - right. vm_compute; reflexivity.
  - apply all_absent. vm_compute; reflexivity.
Defined.

Lemma several_symbols_raise_witness :
  (2 <= str_count ANO_TELEIA token_two_symbols)%nat
  /\ @merge_and_lookup ascii_builtins aliens_baseline token_two_symbols
     = Raise ValueError.
Proof.
  assert (Hc : (2 <= str_count (hyphen_symbol aliens_baseline)
                              token_two_symbols)%nat)
    by (vm_compute; lia).
  split; [exact Hc|].
  refine (proj1 (@several_symbols_raise ascii_builtins aliens_baseline
                   token_two_symbols ascii_lower_keeps_ano_teleia _ _) Hc).
  - vm_compute; reflexivity.
  - split; vm_compute; reflexivity.
Defined.


(** ** Keys of the returned mapping *)

(** Case analysis on the results that are sequenced in the goal. *)
Ltac case_results :=
  repeat match goal with
  | |- context [@mbind result _ _ _ _ ?r] =>
      lazymatch r with
      | Ok _ => cbn [mbind result_bind]
      | Raise _ => cbn [mbind result_bind]
      | _ => destruct r; cbn [mbind result_bind]
      end
  end.


Lemma dict_set_keys d k v x :
  In x (List.map fst (dict_set d k v)) -> x = k \/ In x (List.map fst d).
Proof.
  induction d as [|[k' v'] d IH]; cbn [dict_set List.map fst In].
  - intros [<-|[]]. left; reflexivity.
  - destruct (decide (k' = k)) as [->|Hne]; cbn [List.map fst In].
    + intros [<-|Hin]; auto.
    + intros [<-|Hin]; auto. destruct (IH Hin); auto.
Qed.

Lemma rename_keys_keys confidences hyphenated_word merged_word x :
  In x (List.map fst (rename_keys confidences hyphenated_word merged_word)) ->
  x = merged_word \/ x = hyphenated_word.
Proof.
  unfold rename_keys.
  enough (Hgen : forall acc,
    In x (List.map fst
      (foldl (fun result '(c, v) =>
                if re_search_hyphen c then dict_set result hyphenated_word v
                else dict_set result merged_word v) acc confidences)) ->
    x = merged_word \/ x = hyphenated_word \/ In x (List.map fst acc)).
  { intros Hin. destruct (Hgen [] Hin) as [?|[?|[]]]; auto. }
  induction confidences as [|[c v] cs IH]; intros acc; cbn [foldl]; [auto|].
  intros Hin. apply IH in Hin as [?|[?|Hin]]; auto.
  destruct (re_search_hyphen c); apply dict_set_keys in Hin as [?|?]; auto.
Qed.

Section Keys.
Context `{PyBuiltins}.
Variable self : BaselineWithSupplements.

Lemma calculate_confidence_score_keys hyphenated_word merged_word r x :
  calculate_confidence_score self hyphenated_word merged_word = Ok r ->
  In x (List.map fst r) -> x = merged_word \/ x = hyphenated_word.
Proof.
  unfold calculate_confidence_score. case_results; try (intros [=]; fail).
  intros Hr Hin. injection Hr as <-.
  destruct (decide (merged_word = hyphenated_word)); cbn in Hin;
    intuition auto.
Qed.

Lemma lookup_subword_keys merged_word hyphenated_word l r res x :
  lookup_subword self merged_word hyphenated_word l r = Ok res ->
  In x (List.map fst res) -> x = merged_word \/ x = hyphenated_word.
Proof.
  unfold lookup_subword, fromkeys. destruct (subword_parts l r) as [p s].
  destruct (contains _ (p ++ s)); destruct (contains _ (p ++ _ ++ s)).
  - destruct (calculate_confidence_score _ _ _); cbn [mbind result_bind];
      [|intros [=]].
    intros [= <-]. apply rename_keys_keys.
  - intros [= <-] [<-|[]]; auto.
  - intros [= <-] [<-|[]]; auto.
  - intros [= <-] [<-|[]]; auto.
Qed.

(** Every key of the returned mapping is one of the two forms of the
    word. *)
Lemma merge_and_lookup_keys tok res x :
  merge_and_lookup self tok = Ok res ->
  In x (List.map fst res) ->
  x = merged_form self tok \/ x = hyphenated_form self tok.
Proof.
  unfold merge_and_lookup. fold (merged_form self tok) (hyphenated_form self tok).
  set (m := merged_form self tok). set (h := hyphenated_form self tok).
  assert (Hsub : forall r0 : result (list (list N * pynum)),
    (if re_search_hyphen tok
     then match str_split (hyphen_symbol self) (str_lower tok) with
          | [left_half; right_half] => lookup_subword self m h left_half right_half
          | _ => Raise ValueError
          end
     else Ok (fromkeys m (PyInt 0))) = Ok res ->
    In x (List.map fst res) -> x = m \/ x = h).
  { intros _. destruct (re_search_hyphen tok).
    - destruct (str_split _ _) as [|a [|b [|c rest]]]; try (intros [=]; fail).
      apply (lookup_subword_keys m h a b).
    - intros [= <-] [<-|[]]; auto. }
  specialize (Hsub (Ok [])).
  destruct (re_search_digit tok); cbn [negb].
  - destruct (contains _ (re_sub_digit _ m)); destruct (contains _ (re_sub_digit _ h));
      try exact Hsub.
    + destruct (calculate_confidence_score _ _ _); cbn [mbind result_bind];
        [|intros [=]].
      intros [= <-]. apply rename_keys_keys.
    + intros [= <-] [<-|[]]; auto.
    + intros [= <-] [<-|[]]; auto.
  - destruct (contains _ m); destruct (contains _ h); try exact Hsub.
    + apply calculate_confidence_score_keys.
    + intros [= <-] [<-|[]]; auto.
    + intros [= <-] [<-|[]]; auto.
Qed.
End Keys.

(** ** Words with digits *)

(** Claim C2.  For every word with a decimal digit, [merge_and_lookup]
    looks up the merged and the hyphenated form with every digit replaced
    by the digit symbol (the three outcomes of the lookup of the whole word
    are decided by these two keys), and every key of the mapping it returns
    is one of the two forms with the digits of the word itself: its digits
    are those of the word, and it does not hold the digit symbol.  In
    particular ['13-milli·on'] against ['ΧΧ-million'] (each digit is
    replaced) and ['3-mil·lion'] against ['Χ-million'] resolve to
    ['13-million'] and ['3-million'] with confidence 1, and ['13-milli·on']
    against ['Χ-million'] returns the candidate ['13-million'] as well.
    ([str.lower] is taken to keep the digits and never to return the digit
    symbol, a capital letter; the two symbols are neither a digit nor the
    normal hyphen.) *)
Theorem digits_replaced_for_lookup_only :
  (forall (B : PyBuiltins) (self : BaselineWithSupplements) (tok : list N),
     re_search_digit tok = true ->
     lower_keeps_digits ->
     lower_avoids (digit_symbol self) ->
     is_digit (hyphen_symbol self) = false ->
     digit_symbol self <> HYPHEN_MINUS ->
     let merged_word := merged_form self tok in
     let hyphenated_word := hyphenated_form self tok in
     let no_digit_merged_word := re_sub_digit (digit_symbol self) merged_word in
     let no_digit_hyphenated_word :=
       re_sub_digit (digit_symbol self) hyphenated_word in
     (contains (words self) no_digit_merged_word = true ->
      contains (words self) no_digit_hyphenated_word = false ->
      merge_and_lookup self tok = Ok [(merged_word, PyInt 1)])
     /\ (contains (words self) no_digit_merged_word = false ->
         contains (words self) no_digit_hyphenated_word = true ->
         merge_and_lookup self tok = Ok [(hyphenated_word, PyInt 1)])
     /\ (contains (words self) no_digit_merged_word = true ->
         contains (words self) no_digit_hyphenated_word = true ->
         merge_and_lookup self tok =
           (confidences ← calculate_confidence_score
                            self no_digit_hyphenated_word no_digit_merged_word;
            Ok (rename_keys confidences hyphenated_word merged_word)))
     /\ (forall res k v,
           merge_and_lookup self tok = Ok res -> In (k, v) res ->
           (k = merged_word \/ k = hyphenated_word)
           /\ List.filter is_digit k = List.filter is_digit tok
           /\ ~ In (digit_symbol self) k))
  /\ @merge_and_lookup ascii_builtins digits_million_baseline token_13_million
     = Ok [(py "13-million", PyInt 1)]
  /\ @merge_and_lookup ascii_builtins digit_million_baseline token_3_million
     = Ok [(py "3-million", PyInt 1)]
  /\ @merge_and_lookup ascii_builtins digit_million_baseline token_13_million
     = Ok [(py "13-million", PyInt 0)].
Proof.
  split; [|repeat split; vm_compute; reflexivity].
  intros B self tok Hdigit Hkeep Havoid Hsym Hdig m h ndm ndh.
  assert (Hm : List.filter is_digit m = List.filter is_digit tok).
  { subst m. unfold merged_form. rewrite str_replace_digits by auto. apply Hkeep. }
  assert (Hh : List.filter is_digit h = List.filter is_digit tok).
  { subst h. unfold hyphenated_form. rewrite str_replace_digits by auto. apply Hkeep. }
  assert (Hmc : ~ In (digit_symbol self) m).
  { subst m. unfold merged_form. intros Hin.
    apply str_replace_In in Hin as [[]|Hin]. exact (Havoid _ Hin). }
  assert (Hhc : ~ In (digit_symbol self) h).
  { subst h. unfold hyphenated_form. intros Hin.
    apply str_replace_In in Hin as [[E|[]]|Hin]; [congruence|]. exact (Havoid _ Hin). }
  repeat split.
  - intros H1 H2. subst m h ndm ndh.
    unfold merge_and_lookup, merged_form, hyphenated_form in *.
    rewrite Hdigit. cbn [negb]. rewrite H1, H2. reflexivity.
  - intros H1 H2. subst m h ndm ndh.
    unfold merge_and_lookup, merged_form, hyphenated_form in *.
    rewrite Hdigit. cbn [negb]. rewrite H1, H2. reflexivity.
  - intros H1 H2. subst m h ndm ndh.
    unfold merge_and_lookup, merged_form, hyphenated_form in *.
    rewrite Hdigit. cbn [negb]. rewrite H1, H2. reflexivity.
  - apply (merge_and_lookup_keys self tok res k H).
    apply in_map_iff. exists (k, v). auto.
  - destruct (merge_and_lookup_keys self tok res k H) as [->| ->]; auto.
    apply in_map_iff. exists (k, v). auto.
  - destruct (merge_and_lookup_keys self tok res k H) as [->| ->]; auto.
    apply in_map_iff. exists (k, v). auto.
Qed.

Lemma digits_replaced_for_lookup_only_witness :
  re_search_digit token_13_million = true
  /\ @merge_and_lookup ascii_builtins digits_million_baseline token_13_million
     = Ok [(merged_form (H := ascii_builtins) digits_million_baseline
                        token_13_million, PyInt 1)].
Proof.
  split; [reflexivity|].
  refine (proj1 (proj1 digits_replaced_for_lookup_only
            ascii_builtins digits_million_baseline token_13_million
            _ ascii_lower_keeps_digits ascii_lower_avoids_chi _ _) _ _).
  - reflexivity.
  - reflexivity.
  - vm_compute; discriminate.
  - vm_compute; reflexivity.
  - vm_compute; reflexivity.
Defined.

(** ** The subword fallback *)

Lemma re_search_hyphen_app a b :
  re_search_hyphen (a ++ b) = re_search_hyphen a || re_search_hyphen b.
Proof. apply existsb_app. Qed.

Section Subword.
Context `{PyBuiltins}.
Variable self : BaselineWithSupplements.

Lemma forms_differ tok :
  str_count (hyphen_symbol self) (str_lower tok) = 1%nat ->
  hyphenated_form self tok <> merged_form self tok.
Proof.
  intros Hc E. apply (f_equal (@List.length N)) in E.
  unfold hyphenated_form, merged_form in E.
  rewrite str_replace_length_one in E.
  pose proof (str_replace_length_nil (hyphen_symbol self) (str_lower tok)).
  lia.
Qed.

(** The second special case on a known pair of subwords. *)
Lemma lookup_subword_pair merged_word hyphenated_word l r m h qm qh :
  hyphenated_word <> merged_word ->
  hd_error r <> Some HYPHEN_MINUS ->
  words self !! (last_segment l ++ first_segment r) = Some m ->
  words self !! (last_segment l ++ [HYPHEN_MINUS] ++ first_segment r) = Some h ->
  PyFloat.truediv m (m + h) = Ok qm ->
  PyFloat.truediv h (m + h) = Ok qh ->
  lookup_subword self merged_word hyphenated_word l r
  = Ok [(hyphenated_word, PyFloat (PyFloat.round2 qh));
        (merged_word, PyFloat (PyFloat.round2 qm))].
Proof.
  intros Hne Hhd Hm Hh Hqm Hqh. unfold lookup_subword.
  rewrite subword_parts_segments by assumption.
  set (p := last_segment l) in *. set (s := first_segment r) in *.
  rewrite (contains_true _ _ _ Hm), (contains_true _ _ _ Hh).
  unfold calculate_confidence_score, getitem.
  rewrite (contains_true _ _ _ Hm), Hm, Hh. cbn [mbind result_bind].
  rewrite (Z.add_comm h m), Hqh, Hqm. cbn [mbind result_bind dict_set].
  rewrite decide_False.
  2:{ intros E. apply (f_equal (@List.length N)) in E.
      rewrite !List.length_app in E. cbn [List.length] in E. lia. }
  unfold rename_keys. cbn [foldl].
  rewrite !re_search_hyphen_app. subst p s.
  rewrite last_segment_no_hyphen, first_segment_no_hyphen.
  cbn [re_search_hyphen existsb HYPHEN_MINUS N.eqb Pos.eqb orb dict_set].
  rewrite decide_False by assumption. reflexivity.
Qed.

Lemma subword_fallback_holds tok :
  str_count (hyphen_symbol self) (str_lower tok) = 1%nat ->
  (forall l r, str_split (hyphen_symbol self) (str_lower tok) = [l; r] ->
               hd_error r <> Some HYPHEN_MINUS) ->
  subword_fallback_as_specified self tok.
Proof.
  intros Hc Hhd Hu Hh.
  pose proof (proj1 (str_split_two _ _) Hc) as (l & r & Hs).
  exists l, r. split; [assumption|].
  specialize (Hhd l r Hs).
  rewrite merge_and_lookup_whole_word_unknown by assumption.
  rewrite Hh, Hs. unfold subword_resolution.
  destruct (words self !! (last_segment l ++ first_segment r)) as [m|] eqn:Em;
    destruct (words self !! (last_segment l ++ [HYPHEN_MINUS] ++ first_segment r))
      as [h|] eqn:Eh; [| | |exact I].
  - destruct (PyFloat.truediv m (m + h)) as [qm|] eqn:Eqm;
      cbn [mbind result_bind]; [|exact I].
    destruct (PyFloat.truediv h (m + h)) as [qh|] eqn:Eqh;
      cbn [mbind result_bind]; [|exact I].
    eexists. split.
    + apply (lookup_subword_pair _ _ l r m h qm qh); auto using forms_differ.
    + apply perm_swap.
  - eexists. split; [|reflexivity].
    unfold lookup_subword. rewrite subword_parts_segments by assumption.
    apply contains_false in Eh. rewrite (contains_true _ _ _ Em), Eh. reflexivity.
  - eexists. split; [|reflexivity].
    unfold lookup_subword. rewrite subword_parts_segments by assumption.
    apply contains_false in Em. rewrite (contains_true _ _ _ Eh), Em. reflexivity.
Qed.
End Subword.

(** Claim C3 as stated fails: for ['a·-b'] with the word list [{a, ab}] the
    subword of the specification is ['a'] (the first hyphen-bounded segment
    of the right half ['-b'] is empty) and resolves the word, but the source
    takes the whole right half, looks up ['a-b'] and ['a--b'], and returns
    [{'a-b': 0}]; and ['x-a·b·c'] is not split in two halves at all. *)
Lemma subword_fallback_counterexample :
  ~ @subword_fallback_as_specified ascii_builtins letter_baseline
      token_hyphen_after_symbol
  /\ ~ @subword_fallback_as_specified ascii_builtins empty_baseline
         token_two_symbols.
Proof.
  split; intros Hc.
  - destruct Hc as (l & r & Hs & Hres).
    + split; vm_compute; reflexivity.
    + reflexivity.
    + vm_compute in Hs. injection Hs as <- <-.
      vm_compute in Hres. destruct Hres as (res & Hres & Hp).
      injection Hres as <-. apply Permutation_singleton_l in Hp. discriminate Hp.
  - destruct Hc as (l & r & Hs & _).
    + split; vm_compute; reflexivity.
    + reflexivity.
    + vm_compute in Hs. discriminate Hs.
Qed.

(** Claim C3, amended.  If every lookup of the whole word fails, the word
    has a normal hyphen and exactly one hyphen symbol, and its right half
    does not start with a normal hyphen, then [merge_and_lookup] splits the
    word at the hyphen symbol, takes the last hyphen-bounded segment of the
    left half and the first hyphen-bounded segment of the right half as the
    subword, looks it up merged and hyphenated, and on success returns the
    merged and hyphenated forms of the whole word with the confidences of
    the subword; in particular ['multi-mil·lion-dollar'] against
    [{million}] returns [{'multi-million-dollar': 1}]. *)
Theorem subword_fallback_one_symbol :
  (forall (B : PyBuiltins) (self : BaselineWithSupplements) (tok : list N),
     str_count (hyphen_symbol self) (str_lower tok) = 1%nat ->
     (forall l r, str_split (hyphen_symbol self) (str_lower tok) = [l; r] ->
                  hd_error r <> Some HYPHEN_MINUS) ->
     subword_fallback_as_specified self tok)
  /\ @merge_and_lookup ascii_builtins million_baseline token_multi_million
     = Ok [(py "multi-million-dollar", PyInt 1)].
Proof.
  split; [|vm_compute; reflexivity].
  intros B self tok. apply subword_fallback_holds.
Qed.

Lemma subword_fallback_one_symbol_witness :
  exists left_half right_half,
    str_split (hyphen_symbol million_baseline)
              (str_lower (PyBuiltins := ascii_builtins) token_multi_million)
    = [left_half; right_half]
    /\ match subword_resolution (H := ascii_builtins) million_baseline
                 token_multi_million left_half right_half with
       | Some (Ok expected) =>
           exists r,
             @merge_and_lookup ascii_builtins million_baseline
                               token_multi_million = Ok r
             /\ r ≡ₚ expected
       | _ => True
       end.
Proof.
  refine (proj1 subword_fallback_one_symbol ascii_builtins million_baseline
            token_multi_million _ _ _ _).
  - vm_compute; reflexivity.
  - intros l r Hs. vm_compute in Hs. injection Hs as <- <-. discriminate.
  - split; vm_compute; reflexivity.
  - vm_compute; reflexivity.
Defined.

(** ** The choice of the harness on equal confidences *)

Lemma SFltb_irrefl x : SFltb x x = false.
Proof.
  unfold SFltb, SFcompare.
  destruct x as [s|s| |s m e]; try reflexivity; destruct s; try reflexivity;
    rewrite Z.compare_refl, Pos.compare_cont_refl; reflexivity.
Qed.

Lemma sorted_desc_tie a b c :
  sorted_desc [(a, PyFloat c); (b, PyFloat c)] = [(a, PyFloat c); (b, PyFloat c)].
Proof.
  unfold sorted_desc. cbn [foldl insert_desc snd pynum_lt pynum_float].
  rewrite SFltb_irrefl. reflexivity.
Qed.

(** On the whole word, a tie is decided for the merged form. *)
Lemma whole_word_tie_selects_merged `{PyBuiltins} self tok f :
  re_search_digit tok = false ->
  words self !! merged_form self tok = Some f ->
  words self !! hyphenated_form self tok = Some f ->
  1 <= f ->
  merged_form self tok <> hyphenated_form self tok ->
  best_candidate self tok
  = Ok (merged_form self tok, PyFloat (PyFloat.round2 (PyFloat.quotient f (f + f)))).
Proof.
  intros Hd Hm Hh Hf Hne. unfold best_candidate, merge_and_lookup.
  fold (merged_form self tok) (hyphenated_form self tok).
  rewrite Hd. cbn [negb].
  rewrite (contains_true _ _ _ Hm), (contains_true _ _ _ Hh).
  rewrite (calculate_confidence_score_pos self _ _ f f) by assumption.
  cbn [dict_set]. rewrite decide_False by assumption.
  cbn [mbind result_bind]. rewrite sorted_desc_tie. reflexivity.
Qed.

(** Where the subword decides, a tie is decided for the hyphenated form. *)
Lemma subword_tie_selects_hyphenated `{PyBuiltins} self tok l r f :
  whole_word_unknown self tok ->
  re_search_hyphen tok = true ->
  str_split (hyphen_symbol self) (str_lower tok) = [l; r] ->
  hd_error r <> Some HYPHEN_MINUS ->
  words self !! (last_segment l ++ first_segment r) = Some f ->
  words self !! (last_segment l ++ [HYPHEN_MINUS] ++ first_segment r)
  = Some f ->
  1 <= f ->
  best_candidate self tok
  = Ok (hyphenated_form self tok,
        PyFloat (PyFloat.round2 (PyFloat.quotient f (f + f)))).
Proof.
  intros Hu Hh Hs Hhd Hm Hhy Hf. unfold best_candidate.
  rewrite merge_and_lookup_whole_word_unknown by assumption.
  rewrite Hh, Hs.
  assert (Hc : str_count (hyphen_symbol self) (str_lower tok) = 1%nat)
    by (apply str_split_two; eauto).
  rewrite (lookup_subword_pair self _ _ l r f f
             (PyFloat.quotient f (f + f)) (PyFloat.quotient f (f + f)));
    auto using forms_differ, truediv_pos; try (apply truediv_pos; lia).
  cbn [mbind result_bind]. rewrite sorted_desc_tie. reflexivity.
Qed.

(** Claim C6 fails on the source where the subword decides: for
    ['long·time-g1bb3r1sh'] against [{longtime: 3, long-time: 3}] the two
    candidates have the equal confidence 0.5, the hyphenated candidate is
    the first entry of the returned mapping (the second special case calls
    [calculate_confidence_score] with the merged subword as its
    [hyphenated_word] and the hyphenated subword as its [merged_word]), and
    the harness selects the hyphenated form. *)
Theorem tie_in_subword_selects_hyphenated :
  @merge_and_lookup ascii_builtins longtime_baseline token_long_time
  = Ok [(py "long-time-g1bb3r1sh", PyFloat (PyFloat.decimal2 50));
        (py "longtime-g1bb3r1sh", PyFloat (PyFloat.decimal2 50))]
  /\ @best_candidate ascii_builtins longtime_baseline token_long_time
     = Ok (py "long-time-g1bb3r1sh", PyFloat (PyFloat.decimal2 50))
  /\ @hyphenated_form ascii_builtins longtime_baseline token_long_time
     = py "long-time-g1bb3r1sh"
  /\ @merged_form ascii_builtins longtime_baseline token_long_time
     = py "longtime-g1bb3r1sh".
Proof. repeat split; vm_compute; reflexivity. Qed.

(** ** The decision rule of the language model *)

Lemma keep_hyphen_decimal_table :
  forallb (fun a =>
    forallb (fun b =>
      Bool.eqb (prediction_keep_hyphen (PyFloat.decimal2 (Z.of_nat a))
                                       (PyFloat.decimal2 (Z.of_nat b)))
               (if 50 <? Z.of_nat a then 1 <? Z.of_nat a - Z.of_nat b
                else 10 <=? Z.of_nat a - Z.of_nat b))
      (seq 0 101))
    (seq 0 101) = true.
Proof. vm_compute. reflexivity. Qed.

(** Claim C7.  The language-model strategy keeps the hyphen exactly when
    [round(prob_v1 - prob_v0, 2) > 0.01] in the case [prob_v1 > 0.5], and
    exactly when [round(prob_v1 - prob_v0, 2) >= 0.1] otherwise, and the
    predicted word is the variant chosen so; on probabilities with two
    decimals [a / 100] and [b / 100] this is [a - b > 1] for [a > 50] and
    [a - b >= 10] otherwise; [0.80] against [0.60] (delta [0.20]) keeps the
    hyphen, [0.40] against [0.38] (delta [0.02]) merges. *)
Theorem keep_hyphen_rule :
  (forall prob_word_v1 prob_word_v0,
     let delta := PyFloat.round2 (PyFloat.sub prob_word_v1 prob_word_v0) in
     prediction_keep_hyphen prob_word_v1 prob_word_v0 = true <->
     if PyFloat.gt prob_word_v1 PyFloat.lit_0_5
     then PyFloat.gt delta PyFloat.lit_0_01 = true
     else PyFloat.ge delta PyFloat.lit_0_1 = true)
  /\ (forall w,
        predicted_word w =
        if prediction_keep_hyphen (prob_word_v1 w) (prob_word_v0 w)
        then input_word_v1 w else input_word_v0 w)
  /\ (forall a b, 0 <= a <= 100 -> 0 <= b <= 100 ->
        prediction_keep_hyphen (PyFloat.decimal2 a) (PyFloat.decimal2 b)
        = if 50 <? a then 1 <? a - b else 10 <=? a - b)
  /\ prediction_keep_hyphen (PyFloat.decimal2 80) (PyFloat.decimal2 60) = true
  /\ PyFloat.round2 (PyFloat.sub (PyFloat.decimal2 80) (PyFloat.decimal2 60))
     = PyFloat.decimal2 20
  /\ prediction_keep_hyphen (PyFloat.decimal2 40) (PyFloat.decimal2 38) = false
  /\ PyFloat.round2 (PyFloat.sub (PyFloat.decimal2 40) (PyFloat.decimal2 38))
     = PyFloat.decimal2 2.
Proof.
  split; [|split; [|split]].
  - intros p1 p0 delta. unfold prediction_keep_hyphen. fold delta.
    destruct (PyFloat.gt p1 PyFloat.lit_0_5); reflexivity.
  - reflexivity.
  - intros a b Ha Hb.
    pose proof keep_hyphen_decimal_table as Ht.
    rewrite forallb_forall in Ht. specialize (Ht (Z.to_nat a)).
    rewrite forallb_forall in Ht. specialize (Ht ltac:(apply in_seq; lia) (Z.to_nat b)).
    rewrite !Z2Nat.id in Ht by lia.
    apply Bool.eqb_prop, Ht, in_seq. lia.
  - repeat split; vm_compute; reflexivity.
Qed.

Lemma keep_hyphen_rule_witness :
  prediction_keep_hyphen (PyFloat.decimal2 51) (PyFloat.decimal2 50) = false.
Proof.
  refine (proj1 (proj2 (proj2 keep_hyphen_rule)) 51 50 _ _); lia.
Defined.

(** ** The counters of the language-model evaluation *)

Lemma incr_total m m' : one_cell_incremented m m' ->
  matrix_total m' = matrix_total m + 1 /\ matrix_le m m'.
Proof.
  unfold one_cell_incremented, matrix_total, matrix_le.
  intros [->|[->|[->| ->]]]; cbn; lia.
Qed.

(** One word: one cell of each matrix. *)
Lemma count_word_cells c w :
  one_cell_incremented (num c) (num (count_word c w))
  /\ one_cell_incremented (num_ambiguous c) (num_ambiguous (count_word c w)).
Proof.
  unfold count_word, one_cell_incremented.
  destruct (decide (predicted_word w = expected_word w));
    destruct (prediction_keep_hyphen _ _); cbn [num num_ambiguous with_matrices count_error_category];
    try destruct (both_high w); auto 10.
Qed.

Lemma count_word_le c w : counters_le c (count_word c w).
Proof.
  destruct (count_word_cells c w) as [Hn Ha].
  apply incr_total in Hn as [_ Hn]. apply incr_total in Ha as [_ Ha].
  split; [assumption|]. split; [assumption|].
  unfold count_word.
  destruct (decide (predicted_word w = expected_word w));
    destruct (prediction_keep_hyphen _ _); cbn; try lia;
    repeat match goal with |- context [if ?b then 1 else 0] => destruct b end; lia.
Qed.

Lemma count_words_totals c ws :
  matrix_total (num_ambiguous c) = matrix_total (num c) ->
  matrix_total (num_ambiguous (count_words c ws))
  = matrix_total (num (count_words c ws)).
Proof.
  unfold count_words. revert c. induction ws as [|w ws IH]; intros c Hc; [exact Hc|].
  cbn [foldl]. apply IH.
  destruct (count_word_cells c w) as [Hn Ha].
  apply incr_total in Hn as [Hn _]. apply incr_total in Ha as [Ha _]. lia.
Qed.

Lemma counters_le_refl c : counters_le c c.
Proof. unfold counters_le, matrix_le. lia. Qed.

Lemma counters_le_trans a b c :
  counters_le a b -> counters_le b c -> counters_le a c.
Proof. unfold counters_le, matrix_le. lia. Qed.

Lemma count_words_le c ws : counters_le c (count_words c ws).
Proof.
  unfold count_words. revert c. induction ws as [|w ws IH]; intros c.
  - apply counters_le_refl.
  - cbn [foldl]. eapply counters_le_trans; [apply count_word_le|apply IH].
Qed.

(** Claim C8 as stated fails on the threshold: a wrong prediction with both
    probabilities equal to [0.75], which do not exceed [0.75], is counted in
    the correct cell of the ambiguous matrix, not in the error cell. *)
Lemma reclassification_counterexample :
  ~ reclassified_as_specified counters_zero word_on_threshold.
Proof.
  intros Hc. unfold reclassified_as_specified in Hc.
  assert (Hne : predicted_word word_on_threshold <> expected_word word_on_threshold)
    by (vm_compute; discriminate).
  specialize (Hc Hne). vm_compute in Hc. discriminate Hc.
Qed.

(** Claim C8, amended.  At every point of a pass (after every prefix of
    the hyphenated words processed) the four counters of the ambiguous
    matrix and the four of the confusion matrix have the same sum; each word
    increments exactly one cell of each matrix; a wrong prediction is
    counted in the correct cell of the ambiguous matrix whenever both
    probabilities are at least [0.75] ([>= 0.75]), and in the corresponding
    error cell otherwise; no counter ever decreases. *)
Theorem matrices_count_every_word :
  (forall ws n,
     matrix_total (num_ambiguous (count_words counters_zero (take n ws)))
     = matrix_total (num (count_words counters_zero (take n ws))))
  /\ (forall c w,
        one_cell_incremented (num c) (num (count_word c w))
        /\ one_cell_incremented (num_ambiguous c)
                                (num_ambiguous (count_word c w)))
  /\ (forall c w,
        predicted_word w <> expected_word w ->
        num_ambiguous (count_word c w) =
          if prediction_keep_hyphen (prob_word_v1 w) (prob_word_v0 w) then
            if both_high w then incr_v0_v0 (num_ambiguous c)
            else incr_v1_v0 (num_ambiguous c)
          else
            if both_high w then incr_v1_v1 (num_ambiguous c)
            else incr_v0_v1 (num_ambiguous c))
  /\ (forall c w ws,
        counters_le c (count_word c w)
        /\ counters_le c (count_words c ws)).
Proof.
  split; [|split; [|split]].
  - intros ws n. apply count_words_totals. reflexivity.
  - apply count_word_cells.
  - intros c w Hne. unfold count_word.
    rewrite decide_False by assumption.
    destruct (prediction_keep_hyphen _ _); destruct (both_high w); reflexivity.
  - intros c w ws. split; [apply count_word_le|apply count_words_le].
Qed.

Lemma matrices_count_every_word_witness :
  predicted_word word_on_threshold <> expected_word word_on_threshold
  /\ num_ambiguous (count_word counters_zero word_on_threshold)
     = incr_v1_v1 matrix_zero.
Proof.
  assert (Hne : predicted_word word_on_threshold <> expected_word word_on_threshold)
    by (vm_compute; discriminate).
  split; [exact Hne|].
  exact (proj1 (proj2 (proj2 matrices_count_every_word))
           counters_zero word_on_threshold Hne).
Defined.

(** ** Malformed lines *)

Lemma str_split_absent c s : ~ In c s -> str_split c s = [s].
Proof.
  induction s as [|x s IH]; cbn [str_split]; [reflexivity|].
  intros Hn. destruct (N.eqb_spec x c) as [->|_].
  - exfalso. apply Hn. left. reflexivity.
  - rewrite IH; [reflexivity|]. intros Hin. apply Hn. right. exact Hin.
Qed.

Section Malformed.
Context `{PyBuiltins}.

(** A malformed line of the word list ends the loading with [ValueError]. *)
Lemma read_word_list_malformed wlf :
  Exists malformed_word_line wlf -> read_word_list wlf = Raise ValueError.
Proof.
  unfold read_word_list. intros Hex.
  match goal with |- foldl ?f _ _ = _ => set (step := f) end.
  enough (Hgen : forall acc,
            acc = Raise ValueError
            \/ ((exists ws, acc = Ok ws) /\ Exists malformed_word_line wlf) ->
            foldl step acc wlf = Raise ValueError).
  { apply Hgen. right. eauto. }
  clear Hex. induction wlf as [|line wlf IH]; intros acc Hacc; cbn [foldl].
  - destruct Hacc as [->|[_ Hex]]; [reflexivity|]. inversion Hex.
  - apply IH. destruct Hacc as [->|[[ws ->] Hex]]; [left; reflexivity|].
    unfold step. cbn [mbind result_bind].
    apply Exists_cons in Hex as [Hm|Hex].
    + left. unfold malformed_word_line in Hm.
      destruct (str_split TAB (str_strip line)) as [|w [|f [|x rest]]];
        try reflexivity.
      rewrite Hm. reflexivity.
    + destruct (str_split TAB (str_strip line)) as [|w [|f [|x rest]]];
        try (left; reflexivity).
      destruct (int_of_str f); [right; split; [eauto|assumption]|left; reflexivity].
Qed.

Lemma evaluate_line_no_tab eb line :
  ~ In TAB line -> evaluate_line eb line = Raise IndexError.
Proof.
  intros Hn. unfold evaluate_line. rewrite (str_split_absent _ _ Hn). reflexivity.
Qed.

(** A dataset line without TAB ends the evaluation with an exception. *)
Lemma evaluate_baseline_on_file_no_tab eb hyphenated_file :
  Exists (fun line => ~ In TAB line) hyphenated_file ->
  raises (evaluate_baseline_on_file eb hyphenated_file).
Proof.
  unfold evaluate_baseline_on_file. intros Hex.
  match goal with |- raises (foldl ?f _ _) => set (step := f) end.
  enough (Hgen : forall acc,
            raises acc \/ Exists (fun line => ~ In TAB line) hyphenated_file ->
            raises (foldl step acc hyphenated_file)).
  { apply Hgen. right. assumption. }
  clear Hex eb. induction hyphenated_file as [|line file IH]; intros acc Hacc;
    cbn [foldl].
  - destruct Hacc as [Hr|Hex]; [exact Hr|inversion Hex].
  - apply IH. unfold step at 1.
    destruct acc as [eb|e]; cbn [mbind result_bind]; [|left; exact I].
    destruct Hacc as [[]|Hex].
    apply Exists_cons in Hex as [Hn|Hex]; [left|right; assumption].
    rewrite (evaluate_line_no_tab eb line Hn). exact I.
Qed.
End Malformed.

(** Claim C9 as stated fails: a word list with a malformed line is not
    loaded with that line skipped, and a dataset with a line without TAB is
    not evaluated with that line skipped. *)
Lemma malformed_line_counterexample :
  ~ @malformed_line_skipped ascii_builtins word_list_with_malformed_line
  /\ ~ @malformed_dataset_line_skipped ascii_builtins
         (new_EvaluateBaseline email_baseline) dataset_with_malformed_line.
Proof.
  split; intros Hc.
  - unfold malformed_line_skipped in Hc.
    rewrite (@read_word_list_malformed ascii_builtins) in Hc; [discriminate Hc|].
    apply Exists_cons_tl, Exists_cons_hd. exact I.
  - unfold malformed_dataset_line_skipped in Hc.
    pose proof (@evaluate_baseline_on_file_no_tab ascii_builtins
                  (new_EvaluateBaseline email_baseline)
                  dataset_with_malformed_line) as Hr.
    rewrite Hc in Hr. apply Hr.
    apply Exists_cons_tl, Exists_cons_hd.
    intros Hin. vm_compute in Hin. intuition discriminate.
Qed.

(** Claim C9, amended.  A malformed line is neither logged nor skipped: a
    line of the word list that is not [word<TAB>integer] raises
    [ValueError], which ends the construction of the baseline, and a dataset
    line without TAB raises [IndexError], which ends the pass over the
    file. *)
Theorem malformed_line_aborts :
  (forall (B : PyBuiltins) (word_list_file : list (list N)) (hyphen digit : N),
     Exists malformed_word_line word_list_file ->
     init word_list_file hyphen digit = Raise ValueError)
  /\ (forall (B : PyBuiltins) (eb : EvaluateBaseline)
             (hyphenated_file : list (list N)),
        Exists (fun line => ~ In TAB line) hyphenated_file ->
        raises (evaluate_baseline_on_file eb hyphenated_file))
  /\ (forall (B : PyBuiltins) (eb : EvaluateBaseline) (line : list N),
        ~ In TAB line -> evaluate_line eb line = Raise IndexError).
Proof.
  split; [|split].
  - intros B wlf hyphen digit Hex. unfold init.
    rewrite read_word_list_malformed by assumption. reflexivity.
  - intros B. apply evaluate_baseline_on_file_no_tab.
  - intros B. apply evaluate_line_no_tab.
Qed.

Lemma malformed_line_aborts_witness :
  Exists (@malformed_word_line ascii_builtins) word_list_with_malformed_line
  /\ @init_default ascii_builtins word_list_with_malformed_line
     = Raise ValueError.
Proof.
  assert (Hex : Exists (@malformed_word_line ascii_builtins)
                       word_list_with_malformed_line)
    by (apply Exists_cons_tl, Exists_cons_hd; exact I).
  split; [exact Hex|].
  exact (proj1 malformed_line_aborts ascii_builtins
           word_list_with_malformed_line ANO_TELEIA CAPITAL_CHI Hex).
Defined.

(* ================================================================== *)
(** * Part III: further properties of the code *)

(** ** Confidences are decimals between 0 and 1 *)

Lemma round2_quotient a b : 1 <= a <= b ->
  0 <= PyFloat.hundredths (PyFloat.quotient a b) <= 100
  /\ PyFloat.round2 (PyFloat.quotient a b)
     = PyFloat.decimal2 (PyFloat.hundredths (PyFloat.quotient a b)).
Proof.
  intros Hab.
  pose proof (hundredths_truediv a b Hab) as Hh.
  destruct a as [|a|a]; try lia. destruct b as [|b|b]; try lia.
  destruct (quotient_approx a b) as (mf & N & HN & Hmf & Hq & Hb); [lia|].
  split; [nia|].
  rewrite Hq in *. destruct mf as [|p|p]; try lia.
  - reflexivity.
  - cbn [PyFloat.round2 PyFloat.hundredths] in *.
    pose proof (hundredths_mag_nonneg p (- N)).
    destruct (PyFloat.hundredths_mag p (- N)); try lia; reflexivity.
Qed.

Lemma quotient_same m : 1 <= m ->
  PyFloat.round2 (PyFloat.quotient m m) = PyFloat.decimal2 100.
Proof.
  intros Hm. destruct (round2_quotient m m) as [_ ->]; [lia|].
  pose proof (hundredths_truediv m m ltac:(lia)) as Hh.
  f_equal. nia.
Qed.

Lemma truediv_zero m : 1 <= m ->
  PyFloat.truediv 0 m = Ok (PyFloat.decimal2 0).
Proof.
  intros Hm. unfold PyFloat.truediv. destruct (Z.eqb_spec m 0); [lia|].
  destruct m; try lia; reflexivity.
Qed.

Lemma unit_confidence_quotient a b : 1 <= a <= b ->
  unit_confidence (PyFloat (PyFloat.round2 (PyFloat.quotient a b))).
Proof.
  intros Hab. destruct (round2_quotient a b Hab) as [Hh ->].
  right; right. eauto.
Qed.

(** ** The order of the confidences *)

Lemma SFltb_asym x y : SFltb x y = true -> SFltb y x = false.
Proof.
  unfold SFltb, SFcompare.
  destruct x as [[]| [] | |[] mx ex], y as [[]| [] | | [] my ey];
    try discriminate; try reflexivity.
  - destruct (Z.compare_spec ex ey), (Z.compare_spec ey ex);
      try lia; try discriminate; try reflexivity.
    change (PosDef.Pos.compare_cont Eq my mx) with (Pos.compare my mx).
    change (PosDef.Pos.compare_cont Eq mx my) with (Pos.compare mx my).
    rewrite (Pos.compare_antisym mx my).
    destruct (Pos.compare mx my); cbn; try discriminate; reflexivity.
  - destruct (Z.compare_spec ex ey), (Z.compare_spec ey ex);
      try lia; try discriminate; try reflexivity.
    change (PosDef.Pos.compare_cont Eq my mx) with (Pos.compare my mx).
    change (PosDef.Pos.compare_cont Eq mx my) with (Pos.compare mx my).
    rewrite (Pos.compare_antisym mx my).
    destruct (Pos.compare mx my); cbn; try discriminate; reflexivity.
Qed.

Lemma pynum_lt_irrefl x : pynum_lt x x = false.
Proof. destruct x; cbn; [apply Z.ltb_irrefl | apply SFltb_irrefl]. Qed.

(** ** The shape of a dictionary of confidences *)

Lemma dict_set_nonempty d k v : dict_set d k v <> [].
Proof. destruct d as [|[k' v'] d]; cbn; [|destruct (decide _)]; discriminate. Qed.

Lemma dict_set_NoDup d k v :
  NoDup (List.map fst d) -> NoDup (List.map fst (dict_set d k v)).
Proof.
  induction d as [|[k' v'] d IH]; cbn [dict_set List.map fst]; intros Hd.
  - apply NoDup_singleton.
  - apply NoDup_cons in Hd as [Hk' Hd].
    destruct (decide (k' = k)) as [->|Hne]; cbn [List.map fst].
    + apply NoDup_cons; auto.
    + apply NoDup_cons; split; [|auto].
      intros Hin%list_elem_of_In%dict_set_keys. apply Hk'.
      apply list_elem_of_In. destruct Hin; congruence.
Qed.

Lemma dict_set_values d k v x w :
  In (x, w) (dict_set d k v) -> w = v \/ In (x, w) d.
Proof.
  induction d as [|[k' v'] d IH]; cbn [dict_set In].
  - intros [[= <- <-]|[]]; auto.
  - destruct (decide (k' = k)) as [->|Hne]; cbn [In].
    + intros [[= <- <-]|Hin]; auto.
    + intros [Heq|Hin]; auto. destruct (IH Hin); auto.
Qed.

Lemma rename_keys_fold (P : list (list N * pynum) -> Prop)
      confidences hyphenated_word merged_word :
  P [] -> (forall d k v, P d -> P (dict_set d k v)) ->
  P (rename_keys confidences hyphenated_word merged_word).
Proof.
  intros Hnil Hset. unfold rename_keys. generalize ([] : list (list N * pynum)) Hnil.
  induction confidences as [|[c v] cs IH]; intros acc Hacc; cbn [foldl]; [auto|].
  apply IH. destruct (re_search_hyphen c); auto.
Qed.

Lemma rename_keys_NoDup confidences hyphenated_word merged_word :
  NoDup (List.map fst (rename_keys confidences hyphenated_word merged_word)).
Proof.
  apply (rename_keys_fold (fun d => NoDup (List.map fst d))).
  - apply NoDup_nil_2.
  - intros; by apply dict_set_NoDup.
Qed.

Lemma rename_keys_values confidences hyphenated_word merged_word x w :
  In (x, w) (rename_keys confidences hyphenated_word merged_word) ->
  In w (List.map snd confidences).
Proof.
  unfold rename_keys.
  enough (Hgen : forall acc,
    In (x, w)
      (foldl (fun result '(c, v) =>
                if re_search_hyphen c then dict_set result hyphenated_word v
                else dict_set result merged_word v) acc confidences) ->
    In w (List.map snd confidences) \/ In (x, w) acc).
  { intros Hin. destruct (Hgen [] Hin) as [?|[]]; auto. }
  induction confidences as [|[c v] cs IH]; intros acc; cbn [foldl List.map snd In];
    [auto|].
  intros Hin. apply IH in Hin as [?|Hin]; auto.
  destruct (re_search_hyphen c); apply dict_set_values in Hin as [?|?]; auto.
Qed.

Lemma rename_keys_nonempty confidences hyphenated_word merged_word :
  confidences <> [] ->
  rename_keys confidences hyphenated_word merged_word <> [].
Proof.
  intros Hne. destruct (exists_last Hne) as (cs & [c v] & ->).
  unfold rename_keys. rewrite foldl_snoc.
  destruct (re_search_hyphen c); apply dict_set_nonempty.
Qed.

Lemma two_keys {A} (l : list A) a b :
  NoDup l -> (forall x, In x l -> x = a \/ x = b) -> (List.length l <= 2)%nat.
Proof.
  intros Hnd Hin.
  destruct l as [|x [|y [|z l]]]; cbn [List.length]; try lia.
  exfalso.
  apply NoDup_cons in Hnd as [Hx Hnd]. apply NoDup_cons in Hnd as [Hy Hnd].
  apply NoDup_cons in Hnd as [Hz _].
  rewrite !list_elem_of_In in Hx, Hy, Hz. cbn [In] in *.
  destruct (Hin x) as [?|?], (Hin y) as [?|?], (Hin z) as [?|?];
    cbn; auto; subst; tauto.
Qed.

(** ** The outcomes of [merge_and_lookup] *)

Section Outcomes.
Context `{PyBuiltins}.
Variable self : BaselineWithSupplements.

(** The six ways in which [merge_and_lookup] ends. *)
Lemma merge_and_lookup_cases tok :
  let m := merged_form self tok in
  let h := hyphenated_form self tok in
  merge_and_lookup self tok = Ok [(m, PyInt 1)]
  \/ merge_and_lookup self tok = Ok [(h, PyInt 1)]
  \/ merge_and_lookup self tok = Ok [(m, PyInt 0)]
  \/ (contains (words self) m = true /\ contains (words self) h = true
      /\ merge_and_lookup self tok = calculate_confidence_score self h m)
  \/ (exists k1 k2,
        contains (words self) k1 = true /\ contains (words self) k2 = true
        /\ merge_and_lookup self tok =
           (confidences ← calculate_confidence_score self k2 k1;
            Ok (rename_keys confidences h m)))
  \/ (~ cascade_completes self tok
      /\ merge_and_lookup self tok = Raise ValueError).
Proof.
  intros m h. unfold merge_and_lookup.
  fold (merged_form self tok) (hyphenated_form self tok). fold m h.
  assert (Hsub : forall P : Prop,
    let r := (if re_search_hyphen tok
     then match str_split (hyphen_symbol self) (str_lower tok) with
          | [left_half; right_half] => lookup_subword self m h left_half right_half
          | _ => Raise ValueError
          end
     else Ok (fromkeys m (PyInt 0))) in
    r = Ok [(m, PyInt 1)] \/ r = Ok [(h, PyInt 1)] \/ r = Ok [(m, PyInt 0)]
    \/ P
    \/ (exists k1 k2,
        contains (words self) k1 = true /\ contains (words self) k2 = true
        /\ r = (confidences ← calculate_confidence_score self k2 k1;
                Ok (rename_keys confidences h m)))
    \/ (~ cascade_completes self tok /\ r = Raise ValueError)).
  { intros P. cbn zeta. unfold cascade_completes.
    destruct (re_search_hyphen tok) eqn:Hhy; [|auto].
    destruct (str_split _ _) as [|a [|b [|c rest]]] eqn:Hsp.
    - destruct (str_split_nonempty _ _ Hsp).
    - do 5 right. split; [|reflexivity]. intros [[=]|Hc].
      apply str_split_two in Hc as (? & ? & Hc). congruence.
    - unfold lookup_subword, fromkeys. destruct (subword_parts a b) as [p s].
      destruct (contains _ (p ++ s)) eqn:H1;
        destruct (contains _ (p ++ _ ++ s)) eqn:H2; auto.
      do 4 right. left. eauto.
    - do 5 right. split; [|reflexivity]. intros [[=]|Hc].
      apply str_split_two in Hc as (? & ? & Hc). congruence. }
  destruct (re_search_digit tok); cbn [negb].
  - destruct (contains _ (re_sub_digit _ m)) eqn:H1;
      destruct (contains _ (re_sub_digit _ h)) eqn:H2;
      try apply (Hsub (contains (words self) m = true
                       /\ contains (words self) h = true /\ _)); auto.
    do 4 right. left. eauto.
  - destruct (contains _ m) eqn:H1; destruct (contains _ h) eqn:H2;
      try apply (Hsub (contains (words self) m = true
                       /\ contains (words self) h = true /\ _)); auto.
    do 3 right. left. auto.
Qed.

Lemma contains_Some k : contains (words self) k = true ->
  exists v, words self !! k = Some v.
Proof. unfold contains. destruct (_ !! _); [eauto|discriminate]. Qed.

(** The confidences of two listed words with positive frequencies. *)
Lemma calculate_confidence_score_listed hyphenated_word merged_word :
  positive_frequencies (words self) ->
  contains (words self) merged_word = true ->
  contains (words self) hyphenated_word = true ->
  exists cm ch,
    unit_confidence cm /\ unit_confidence ch
    /\ calculate_confidence_score self hyphenated_word merged_word
       = Ok (dict_set [(merged_word, cm)] hyphenated_word ch).
Proof.
  intros Hpos (m & Hm)%contains_Some (h & Hh)%contains_Some.
  pose proof (Hpos _ _ Hm). pose proof (Hpos _ _ Hh).
  eexists _, _. split; [|split];
    [| |apply (calculate_confidence_score_pos _ _ _ m h); auto].
  - apply unit_confidence_quotient; lia.
  - apply unit_confidence_quotient; lia.
Qed.

Lemma calculate_confidence_score_shape hyphenated_word merged_word res :
  calculate_confidence_score self hyphenated_word merged_word = Ok res ->
  res <> [] /\ NoDup (List.map fst res).
Proof.
  unfold calculate_confidence_score. case_results; try (intros [=]; fail).
  intros Hr.
  assert (Hres : exists v1 v2, res = dict_set [(merged_word, v1)] hyphenated_word v2)
    by (injection Hr as <-; eauto).
  destruct Hres as (v1 & v2 & ->).
  split; [apply dict_set_nonempty|].
  apply dict_set_NoDup. cbn. apply NoDup_singleton.
Qed.

End Outcomes.

Section BaselineOutcomes.
Context `{PyBuiltins}.
Variable self : BaselineWithSupplements.

(** X1.  When only the hyphenated form of a word is found under its lookup
    key, [merge_and_lookup] returns the hyphenated form alone, with the
    confidence 1. *)
Theorem hyphenated_form_only_known tok :
  contains (words self) (lookup_key self tok (merged_form self tok)) = false ->
  contains (words self) (lookup_key self tok (hyphenated_form self tok)) = true ->
  merge_and_lookup self tok = Ok [(hyphenated_form self tok, PyInt 1)].
Proof.
  unfold lookup_key, merge_and_lookup.
  fold (merged_form self tok) (hyphenated_form self tok).
  destruct (re_search_digit tok); cbn [negb]; intros -> ->; reflexivity.
Qed.

Lemma calculate_confidence_score_floats hyphenated_word merged_word res :
  calculate_confidence_score self hyphenated_word merged_word = Ok res ->
  Forall (fun kv => exists f, snd kv = PyFloat f) res.
Proof.
  unfold calculate_confidence_score. case_results; try (intros [=]; fail).
  intros Hr. injection Hr as <-.
  destruct (decide (merged_word = hyphenated_word)); repeat constructor;
    cbn; eauto.
Qed.

(** A returned dictionary has one entry, or two entries with [float]
    confidences. *)
Lemma merge_and_lookup_small tok res :
  merge_and_lookup self tok = Ok res ->
  res <> [] /\ NoDup (List.map fst res)
  /\ ((exists k v, res = [(k, v)])
      \/ exists k1 f1 k2 f2, res = [(k1, PyFloat f1); (k2, PyFloat f2)]).
Proof.
  intros Hres.
  assert (Hshape : res <> [] /\ NoDup (List.map fst res)
                   /\ (List.length res = 1%nat
                       \/ Forall (fun kv => exists f, snd kv = PyFloat f) res)).
  { destruct (merge_and_lookup_cases self tok)
      as [Hc|[Hc|[Hc|[(_ & _ & Hc)|[(k1 & k2 & _ & _ & Hc)|[_ Hc]]]]]];
      rewrite Hc in Hres.
    - injection Hres as <-. repeat split; [discriminate|apply NoDup_singleton|auto].
    - injection Hres as <-. repeat split; [discriminate|apply NoDup_singleton|auto].
    - injection Hres as <-. repeat split; [discriminate|apply NoDup_singleton|auto].
    - destruct (calculate_confidence_score_shape self _ _ _ Hres).
      repeat split; auto. right.
      apply (calculate_confidence_score_floats _ _ _ Hres).
    - destruct (calculate_confidence_score self k2 k1) as [c|] eqn:Hc';
        cbn [mbind result_bind] in Hres; [|discriminate].
      injection Hres as <-.
      destruct (calculate_confidence_score_shape self _ _ _ Hc').
      repeat split; [by apply rename_keys_nonempty|apply rename_keys_NoDup|].
      right. apply Forall_forall. intros [k v] Hin%list_elem_of_In.
      apply rename_keys_values, in_map_iff in Hin as ([k' v'] & <- & Hin).
      pose proof (calculate_confidence_score_floats _ _ _ Hc') as Hf.
      rewrite Forall_forall in Hf. apply (Hf (k', v')).
      by apply list_elem_of_In.
    - discriminate. }
  destruct Hshape as (Hne & Hnd & Hv). repeat split; auto.
  assert (Hlen : (List.length res <= 2)%nat).
  { apply (two_keys (List.map fst res) (merged_form self tok)
                    (hyphenated_form self tok)) in Hnd.
    - by rewrite length_map in Hnd.
    - intros x. apply (merge_and_lookup_keys self tok res x Hres). }
  destruct res as [|[k1 v1] [|[k2 v2] [|? ?]]]; cbn in Hlen; try lia;
    [congruence|eauto|].
  destruct Hv as [Hv|Hv]; [discriminate|].
  apply Forall_cons in Hv as [[f1 Hf1] Hv].
  apply Forall_cons in Hv as [[f2 Hf2] _]. cbn in Hf1, Hf2. subst.
  right. eauto 10.
Qed.

(** X2.  A dictionary returned by [merge_and_lookup] is never empty: it has
    one or two entries, with distinct keys, and every key is the merged or
    the hyphenated form of the word. *)
Theorem merge_and_lookup_shape tok res :
  merge_and_lookup self tok = Ok res ->
  (1 <= List.length res <= 2)%nat
  /\ NoDup (List.map fst res)
  /\ forall k, In k (List.map fst res) ->
               k = merged_form self tok \/ k = hyphenated_form self tok.
Proof.
  intros Hres. destruct (merge_and_lookup_small tok res Hres) as (_ & Hnd & Hs).
  repeat split; auto.
  - destruct Hs as [(? & ? & ->)|(? & ? & ? & ? & ->)]; cbn; lia.
  - destruct Hs as [(? & ? & ->)|(? & ? & ? & ? & ->)]; cbn; lia.
  - intros k. apply (merge_and_lookup_keys self tok res k Hres).
Qed.

(** X3.  Whenever [merge_and_lookup] returns, the head of the sorted items
    exists (no [IndexError]), is an entry of the dictionary, and no entry
    has a greater confidence; an exception of [merge_and_lookup] is passed
    on. *)
Theorem best_candidate_maximal tok :
  match merge_and_lookup self tok with
  | Ok res =>
      exists k v,
        best_candidate self tok = Ok (k, v) /\ In (k, v) res
        /\ forall k' v', In (k', v') res -> pynum_lt v v' = false
  | Raise e => best_candidate self tok = Raise e
  end.
Proof.
  unfold best_candidate.
  destruct (merge_and_lookup self tok) as [res|e] eqn:Hres;
    cbn [mbind result_bind]; [|reflexivity].
  destruct (merge_and_lookup_small tok res Hres)
    as (_ & _ & [(k & v & ->)|(k1 & f1 & k2 & f2 & ->)]).
  - exists k, v. cbn. repeat split; auto.
    intros k' v' [[= <- <-]|[]]. apply pynum_lt_irrefl.
  - unfold sorted_desc. cbn [foldl insert_desc snd].
    destruct (pynum_lt (PyFloat f1) (PyFloat f2)) eqn:Hlt.
    + exists k2, (PyFloat f2). cbn [In]. repeat split; auto.
      intros k' v' [[= <- <-]|[[= <- <-]|[]]];
        [by apply SFltb_asym|apply pynum_lt_irrefl].
    + exists k1, (PyFloat f1). cbn [In]. repeat split; auto.
      intros k' v' [[= <- <-]|[[= <- <-]|[]]];
        [apply pynum_lt_irrefl|assumption].
Qed.


(** X4.  On a word list whose frequencies are all at least 1, and for a word
    without a normal hyphen or with exactly one hyphen symbol,
    [merge_and_lookup] raises nothing, and every confidence it returns is
    the [int] 0 or 1 or a [float] with two decimals between 0.0 and 1.0. *)
Theorem merge_and_lookup_total tok :
  positive_frequencies (words self) ->
  cascade_completes self tok ->
  exists res,
    merge_and_lookup self tok = Ok res
    /\ Forall (fun kv => unit_confidence (snd kv)) res.
Proof.
  intros Hpos Hcc.
  assert (Hset : forall k1 k2 c1 c2,
    unit_confidence c1 -> unit_confidence c2 ->
    forall k v, In (k, v) (dict_set [(k1, c1)] k2 c2) -> unit_confidence v).
  { intros k1 k2 c1 c2 H1 H2 k v [->|[[= <- <-]|[]]]%dict_set_values; auto. }
  destruct (merge_and_lookup_cases self tok)
    as [Hc|[Hc|[Hc|[(Hm & Hh & Hc)|[(k1 & k2 & Hk1 & Hk2 & Hc)|[Hn _]]]]]];
    try (rewrite Hc; eexists; split; [reflexivity|];
         repeat constructor; cbn; unfold unit_confidence; auto; fail).
  - destruct (calculate_confidence_score_listed self _ _ Hpos Hm Hh)
      as (cm & ch & Hcm & Hch & Hs).
    rewrite Hc, Hs. eexists; split; [reflexivity|].
    apply Forall_forall. intros [k v] Hin%list_elem_of_In. cbn [snd]. eauto.
  - destruct (calculate_confidence_score_listed self _ _ Hpos Hk1 Hk2)
      as (cm & ch & Hcm & Hch & Hs).
    rewrite Hc, Hs. cbn [mbind result_bind]. eexists; split; [reflexivity|].
    apply Forall_forall. intros [k v] Hin%list_elem_of_In. cbn [snd].
    apply rename_keys_values, in_map_iff in Hin as ([k' v'] & <- & Hin). eauto.
  - contradiction.
Qed.

(** X5.  When both forms of a word are found under their lookup keys and
    their frequencies add up to 0, [merge_and_lookup] raises
    [ZeroDivisionError]. *)
Theorem zero_total_raises tok m h :
  words self !! lookup_key self tok (merged_form self tok) = Some m ->
  words self !! lookup_key self tok (hyphenated_form self tok) = Some h ->
  m + h = 0 ->
  merge_and_lookup self tok = Raise ZeroDivisionError.
Proof.
  unfold lookup_key, merge_and_lookup.
  fold (merged_form self tok) (hyphenated_form self tok).
  intros Hm Hh Hz.
  destruct (re_search_digit tok); cbn [negb];
    rewrite (contains_true _ _ _ Hm), (contains_true _ _ _ Hh);
    unfold calculate_confidence_score, getitem;
    rewrite Hm, (contains_true _ _ _ Hh), Hh; cbn [mbind result_bind];
    unfold PyFloat.truediv; rewrite Hz; reflexivity.
Qed.

(** X6.  [calculate_confidence_score] for a merged word with a positive
    frequency and a hyphenated word that is not listed returns 1.0 for the
    merged and 0.0 for the hyphenated word. *)
Theorem confidence_score_without_hyphenated hyphenated_word merged_word m :
  words self !! merged_word = Some m ->
  1 <= m ->
  words self !! hyphenated_word = None ->
  calculate_confidence_score self hyphenated_word merged_word
  = Ok [(merged_word, PyFloat (PyFloat.decimal2 100));
        (hyphenated_word, PyFloat (PyFloat.decimal2 0))].
Proof.
  intros Hm Hpos Hh. unfold calculate_confidence_score, getitem, contains.
  rewrite Hm, Hh. cbn [mbind result_bind]. rewrite Z.add_0_r.
  rewrite (truediv_pos m m) by lia. cbn [mbind result_bind].
  rewrite truediv_zero by lia. cbn [mbind result_bind].
  rewrite quotient_same by lia.
  cbn [dict_set]. destruct (decide (merged_word = hyphenated_word)) as [->|_];
    [congruence|reflexivity].
Qed.

Lemma re_search_hyphen_sub_digit symbol s :
  re_search_hyphen s = true -> re_search_hyphen (re_sub_digit symbol s) = true.
Proof.
  unfold re_search_hyphen, re_sub_digit. rewrite !existsb_exists.
  intros (c & Hin & Hc%N.eqb_eq). subst c.
  exists HYPHEN_MINUS. split; [|reflexivity].
  apply in_map_iff. exists HYPHEN_MINUS. split; [reflexivity|assumption].
Qed.

Lemma re_search_hyphen_forms tok :
  re_search_hyphen (merged_form self tok) = true ->
  re_search_hyphen (hyphenated_form self tok) = true.
Proof.
  unfold re_search_hyphen, merged_form, hyphenated_form, str_replace.
  rewrite !existsb_exists.
  intros (c & Hin & Hc). exists c. split; [|assumption].
  apply in_flat_map in Hin as (x & Hx & Hin). apply in_flat_map.
  exists x. split; [assumption|].
  destruct (N.eqb x (hyphen_symbol self)); [destruct Hin|assumption].
Qed.

(** X7.  For a word with a digit whose merged form still holds a normal
    hyphen, when both forms are found with positive frequencies, the two
    confidences are stored under the hyphenated form one after the other:
    the result is the hyphenated form alone, with its own confidence. *)
Theorem digit_word_with_hyphen_collapses tok m h :
  re_search_digit tok = true ->
  re_search_hyphen (merged_form self tok) = true ->
  words self !! re_sub_digit (digit_symbol self) (merged_form self tok)
  = Some m ->
  words self !! re_sub_digit (digit_symbol self) (hyphenated_form self tok)
  = Some h ->
  1 <= m -> 1 <= h ->
  merge_and_lookup self tok
  = Ok [(hyphenated_form self tok,
         PyFloat (PyFloat.round2 (PyFloat.quotient h (m + h))))].
Proof.
  intros Hd Hhy Hm Hh Hm1 Hh1.
  pose proof (re_search_hyphen_sub_digit (digit_symbol self) _ Hhy) as Hkm.
  pose proof (re_search_hyphen_sub_digit (digit_symbol self) _
                (re_search_hyphen_forms tok Hhy)) as Hkh.
  unfold merge_and_lookup.
  fold (merged_form self tok) (hyphenated_form self tok).
  rewrite Hd. cbn [negb].
  rewrite (contains_true _ _ _ Hm), (contains_true _ _ _ Hh).
  rewrite (calculate_confidence_score_pos self _ _ m h) by assumption.
  cbn [mbind result_bind dict_set].
  destruct (decide _) as [Heq|Hne]; unfold rename_keys; cbn [foldl].
  - rewrite Hkh. reflexivity.
  - rewrite Hkm, Hkh. cbn [dict_set].
    destruct (decide _); [reflexivity|congruence].
Qed.

End BaselineOutcomes.

Lemma merge_and_lookup_shape_witness :
  (1 <= List.length [(py "email", PyFloat (PyFloat.decimal2 57));
                     (py "e-mail", PyFloat (PyFloat.decimal2 43))] <= 2)%nat.
Proof.
  exact (proj1 (@merge_and_lookup_shape ascii_builtins email_baseline
                  token_email _ ltac:(vm_compute; reflexivity))).
Defined.

Lemma hyphenated_form_only_known_witness :
  @merge_and_lookup ascii_builtins (baseline_of [(py "e-mail", 3)]) token_email
  = Ok [(py "e-mail", PyInt 1)].
Proof.
  apply (@hyphenated_form_only_known ascii_builtins
           (baseline_of [(py "e-mail", 3)]) token_email);
    vm_compute; reflexivity.
Defined.

Lemma merge_and_lookup_total_witness :
  exists res,
    @merge_and_lookup ascii_builtins aliens_baseline token_aliens = Ok res
    /\ Forall (fun kv => unit_confidence (snd kv)) res.
Proof.
  apply (@merge_and_lookup_total ascii_builtins aliens_baseline token_aliens).
  - change (map_Forall (fun _ v => 1 <= v) (words aliens_baseline)).
    refine (bool_decide_unpack _ _). vm_compute. reflexivity.
  - left. vm_compute; reflexivity.
Defined.

Lemma zero_total_raises_witness :
  @merge_and_lookup ascii_builtins zero_baseline token_email
  = Raise ZeroDivisionError.
Proof.
  apply (@zero_total_raises ascii_builtins zero_baseline token_email 0 0);
    vm_compute; reflexivity.
Defined.

Lemma confidence_score_without_hyphenated_witness :
  calculate_confidence_score aliens_baseline (py "ali-ens") (py "aliens")
  = Ok [(py "aliens", PyFloat (PyFloat.decimal2 100));
        (py "ali-ens", PyFloat (PyFloat.decimal2 0))].
Proof.
  apply (confidence_score_without_hyphenated aliens_baseline _ _ 1);
    [vm_compute; reflexivity|lia|vm_compute; reflexivity].
Defined.

Lemma digit_word_with_hyphen_collapses_witness :
  @merge_and_lookup ascii_builtins digits_both_baseline token_13_million
  = Ok [(py "13-milli-on", PyFloat (PyFloat.decimal2 25))].
Proof.
  apply (@digit_word_with_hyphen_collapses ascii_builtins digits_both_baseline
           token_13_million 3 1); try (vm_compute; reflexivity); lia.
Defined.

(** ** The basic baseline *)

Section Basic.
Context `{PyBuiltins}.

Lemma basic_calculate_confidence_score_eq self hyphenated_word merged_word :
  basic_calculate_confidence_score (basic_of self) hyphenated_word merged_word
  = calculate_confidence_score self hyphenated_word merged_word.
Proof. reflexivity. Qed.

(** X8.  On a word without a digit that is found as a whole in one of its
    two forms, or that has no normal hyphen, the supplemented baseline
    returns what the basic baseline returns over the same word list. *)
Theorem basic_agrees_on_plain_words self tok :
  re_search_digit tok = false ->
  contains (words self) (merged_form self tok) = true
  \/ contains (words self) (hyphenated_form self tok) = true
  \/ re_search_hyphen tok = false ->
  merge_and_lookup self tok = basic_merge_and_lookup (basic_of self) tok.
Proof.
  intros Hd Hk. unfold merge_and_lookup, basic_merge_and_lookup.
  cbn [basic_of basic_words basic_hyphen_symbol].
  fold (merged_form self tok) (hyphenated_form self tok).
  rewrite Hd. cbn [negb].
  destruct (contains _ (merged_form self tok)) eqn:Hm;
    destruct (contains _ (hyphenated_form self tok)) eqn:Hh;
    try reflexivity.
  destruct Hk as [Hk|[Hk|Hk]]; try discriminate. rewrite Hk. reflexivity.
Qed.

(** X9.  On a word list whose frequencies are all at least 1 the basic
    baseline raises nothing, for any word: it returns one or two
    confidences, each the [int] 0 or 1 or a [float] with two decimals
    between 0.0 and 1.0. *)
Theorem basic_merge_and_lookup_total (self : MergeHyphensBaseline) tok :
  positive_frequencies (basic_words self) ->
  exists res,
    basic_merge_and_lookup self tok = Ok res
    /\ (1 <= List.length res <= 2)%nat
    /\ Forall (fun kv => unit_confidence (snd kv)) res.
Proof.
  intros Hpos. unfold basic_merge_and_lookup.
  set (m := str_replace _ [] _). set (h := str_replace _ [HYPHEN_MINUS] _).
  destruct (contains _ m) eqn:Hm; destruct (contains _ h) eqn:Hh;
    try (eexists; split; [reflexivity|]; split; [cbn; lia|];
         repeat constructor; cbn; unfold unit_confidence; auto; fail).
  set (suppl := {| words := basic_words self;
                   hyphen_symbol := basic_hyphen_symbol self;
                   digit_symbol := CAPITAL_CHI |}).
  change (basic_calculate_confidence_score self h m)
    with (calculate_confidence_score suppl h m).
  destruct (calculate_confidence_score_listed suppl h m Hpos Hm Hh)
    as (cm & ch & Hcm & Hch & ->).
  eexists; split; [reflexivity|]. cbn [dict_set].
  destruct (decide (m = h)); (split; [cbn; lia|]);
    repeat (apply Forall_cons; split; [assumption|]); apply Forall_nil_2.
Qed.

(** X10.  With a word list that holds no key with a decimal digit, the
    basic baseline finds no word with a digit: it returns the merged form
    with the confidence 0. *)
Theorem basic_digit_word_unknown (self : MergeHyphensBaseline) tok :
  lower_keeps_digits ->
  is_digit (basic_hyphen_symbol self) = false ->
  (forall k, contains (basic_words self) k = true -> re_search_digit k = false) ->
  re_search_digit tok = true ->
  basic_merge_and_lookup self tok
  = Ok [(str_replace (basic_hyphen_symbol self) [] (str_lower tok), PyInt 0)].
Proof.
  intros Hlow Hsym Hlist Hd. unfold basic_merge_and_lookup.
  assert (Hnot : forall new, List.filter is_digit new = [] ->
    contains (basic_words self)
      (str_replace (basic_hyphen_symbol self) new (str_lower tok)) = false).
  { intros new Hnew.
    destruct (contains _ _) eqn:Hc; [|reflexivity].
    apply Hlist, re_search_digit_filter in Hc.
    rewrite str_replace_digits, Hlow in Hc by assumption.
    apply re_search_digit_filter in Hc. congruence. }
  rewrite (Hnot [] eq_refl), (Hnot [HYPHEN_MINUS] eq_refl). reflexivity.
Qed.

End Basic.

Lemma basic_agrees_on_plain_words_witness :
  @merge_and_lookup ascii_builtins email_baseline token_email
  = @basic_merge_and_lookup ascii_builtins (basic_of email_baseline) token_email.
Proof.
  apply (@basic_agrees_on_plain_words ascii_builtins email_baseline token_email).
  - vm_compute; reflexivity.
  - left. vm_compute; reflexivity.
Defined.

Lemma basic_merge_and_lookup_total_witness :
  exists res,
    @basic_merge_and_lookup ascii_builtins (basic_of email_baseline) token_email
    = Ok res
    /\ (1 <= List.length res <= 2)%nat
    /\ Forall (fun kv => unit_confidence (snd kv)) res.
Proof.
  apply (@basic_merge_and_lookup_total ascii_builtins (basic_of email_baseline)
           token_email).
  change (map_Forall (fun _ v => 1 <= v) (words email_baseline)).
  refine (bool_decide_unpack _ _). vm_compute. reflexivity.
Defined.

Lemma basic_digit_word_unknown_witness :
  @basic_merge_and_lookup ascii_builtins (basic_of digits_million_baseline)
                          token_13_megapixel
  = Ok [(py "13-megapixel", PyInt 0)].
Proof.
  apply (@basic_digit_word_unknown ascii_builtins
           (basic_of digits_million_baseline) token_13_megapixel).
  - exact ascii_lower_keeps_digits.
  - vm_compute; reflexivity.
  - intros k. unfold contains, basic_of, basic_words, digits_million_baseline,
      baseline_of, words. cbn [list_to_map foldr].
    destruct (decide (k = [CAPITAL_CHI; CAPITAL_CHI] ++ py "-million")) as [->|Hne].
    + intros _. vm_compute; reflexivity.
    + rewrite lookup_insert_ne
        by (intros Heq; apply Hne; rewrite <- Heq; reflexivity).
      rewrite lookup_empty. discriminate.
  - vm_compute; reflexivity.
Defined.

(** ** The loading of the word list *)

Section Loading.
Context `{PyBuiltins}.

Lemma read_word_list_snoc wlf line :
  read_word_list (wlf ++ [line])
  = (ws ← read_word_list wlf;
     match entry_of_line line with
     | Some (word, f) => Ok (<[word := f]> ws)
     | None => Raise ValueError
     end).
Proof.
  unfold read_word_list, entry_of_line. rewrite foldl_snoc.
  destruct (foldl _ _ wlf); cbn [mbind result_bind]; [|reflexivity].
  destruct (str_split TAB (str_strip line)) as [|w [|f [|? ?]]]; try reflexivity.
  destruct (int_of_str f); reflexivity.
Qed.

(** X11.  When every line of the word list file is [word<TAB>integer], the
    loading succeeds; every entry of the word list comes from a line of
    the file, and a word has the frequency of the last line that lists
    it. *)
Theorem read_word_list_last_line_wins wlf :
  Forall (fun line => is_Some (entry_of_line line)) wlf ->
  exists ws,
    read_word_list wlf = Ok ws
    /\ (forall w f, ws !! w = Some f ->
          exists line, In line wlf /\ entry_of_line line = Some (w, f))
    /\ (forall before line after w f,
          wlf = before ++ line :: after ->
          entry_of_line line = Some (w, f) ->
          Forall (fun l => forall f', entry_of_line l <> Some (w, f')) after ->
          ws !! w = Some f).
Proof.
  induction wlf as [|line0 wlf IH] using rev_ind; intros Hwf.
  - exists ∅. split; [reflexivity|]. split.
    + intros w f Hw. rewrite lookup_empty in Hw. discriminate.
    + intros [|? ?] ? ? ? ? [=].
  - apply Forall_app in Hwf as [Hwf Hline0].
    apply Forall_cons in Hline0 as [[[w0 f0] Hline0] _].
    destruct (IH Hwf) as (ws & Hws & Hfrom & Hlast).
    exists (<[w0 := f0]> ws). rewrite read_word_list_snoc, Hws.
    cbn [mbind result_bind]. rewrite Hline0. split; [reflexivity|]. split.
    + intros w f Hw. apply lookup_insert_Some in Hw as [[<- <-]|[Hne Hw]].
      * exists line0. split; [apply in_or_app; right; left; reflexivity|assumption].
      * destruct (Hfrom w f Hw) as (line & Hin & Hline).
        exists line. split; [apply in_or_app; left; assumption|assumption].
    + intros before line after w f Heq Hline Hafter.
      destruct after as [|l after _] using rev_ind.
      * apply app_inj_tail in Heq as [-> ->].
        rewrite Hline0 in Hline. injection Hline as -> ->.
        apply lookup_insert_eq.
      * rewrite app_comm_cons, app_assoc in Heq.
        apply app_inj_tail in Heq as [-> ->].
        apply Forall_app in Hafter as [Hafter Hl].
        apply Forall_cons in Hl as [Hl _].
        rewrite lookup_insert_ne
          by (intros ->; apply (Hl f0); assumption).
        apply (Hlast before line after); auto.
Qed.

End Loading.

Lemma read_word_list_last_line_wins_witness :
  exists ws,
    @read_word_list ascii_builtins word_list_with_repeated_word = Ok ws
    /\ ws !! py "email" = Some 2.
Proof.
  destruct (@read_word_list_last_line_wins ascii_builtins
              word_list_with_repeated_word) as (ws & Hws & _ & Hlast).
  - repeat (apply Forall_cons; split; [vm_compute; eauto|]). apply Forall_nil_2.
  - exists ws. split; [assumption|].
    apply (Hlast (firstn 2 word_list_with_repeated_word)
                 (py "email" ++ [TAB] ++ py "2" ++ [10%N]) []).
    + reflexivity.
    + vm_compute; reflexivity.
    + apply Forall_nil_2.
Defined.

(** ** [frequency_sort] *)

Lemma insert_by_frequency_perm x sorted :
  insert_by_frequency x sorted ≡ₚ sorted ++ [x].
Proof.
  induction sorted as [|y rest IH]; cbn [insert_by_frequency]; [reflexivity|].
  destruct (frequency (snd y) <? frequency (snd x)).
  - change (x :: y :: rest) with ([x] ++ (y :: rest)). apply Permutation_app_comm.
  - cbn. by rewrite IH.
Qed.

Lemma insert_by_frequency_descending x sorted :
  descending_frequencies sorted ->
  descending_frequencies (insert_by_frequency x sorted).
Proof.
  induction sorted as [|y rest IH]; cbn [insert_by_frequency descending_frequencies].
  - intros _. split; [apply Forall_nil_2|exact I].
  - intros [Hy Hrest].
    destruct (Z.ltb_spec (frequency (snd y)) (frequency (snd x))) as [Hlt|Hge];
      cbn [descending_frequencies].
    + split; [|auto]. apply Forall_cons; split; [lia|].
      eapply Forall_impl; [exact Hy|]. cbn. intros; lia.
    + split; [|auto]. rewrite insert_by_frequency_perm.
      apply Forall_app; split; [assumption|].
      apply Forall_cons; split; [lia|apply Forall_nil_2].
Qed.

Lemma insert_by_frequency_stable f x sorted :
  descending_frequencies sorted ->
  items_of_frequency f (insert_by_frequency x sorted)
  = items_of_frequency f sorted ++ items_of_frequency f [x].
Proof.
  unfold items_of_frequency.
  induction sorted as [|y rest IH]; cbn [insert_by_frequency descending_frequencies].
  - reflexivity.
  - intros [Hy Hrest].
    destruct (Z.ltb_spec (frequency (snd y)) (frequency (snd x))) as [Hlt|Hge].
    + cbn [List.filter].
      destruct (Z.eqb_spec (frequency (snd x)) f) as [Hx|Hx];
        [|by rewrite app_nil_r].
      assert (Hnone : List.filter (fun x0 => frequency (snd x0) =? f) (y :: rest) = []).
      { apply Forall_cons_2 with (x := y) in Hy; [|lia].
        induction Hy as [|z l Hz Hl IHl]; [reflexivity|]. cbn [List.filter].
        destruct (Z.eqb_spec (frequency (snd z)) f); [lia|assumption]. }
      cbn [List.filter] in Hnone. rewrite Hnone. reflexivity.
    + cbn [List.filter]. rewrite IH by assumption.
      destruct (frequency (snd y) =? f); reflexivity.
Qed.

(** X12.  [frequency_sort] returns the items of the dictionary in
    descending order of their frequency: it is a rearrangement of the
    items, no item is followed by one of a higher frequency, and items of
    the same frequency keep the order of the dictionary. *)
Theorem frequency_sort_stable_descending case_dict :
  frequency_sort case_dict ≡ₚ case_dict
  /\ descending_frequencies (frequency_sort case_dict)
  /\ forall f, items_of_frequency f (frequency_sort case_dict)
               = items_of_frequency f case_dict.
Proof.
  unfold frequency_sort.
  induction case_dict as [|x items IH] using rev_ind.
  - split; [reflexivity|split; [exact I|reflexivity]].
  - destruct IH as (Hperm & Hdesc & Hstable). rewrite foldl_snoc.
    repeat split.
    + by rewrite insert_by_frequency_perm, Hperm.
    + by apply insert_by_frequency_descending.
    + intros f. rewrite insert_by_frequency_stable by assumption.
      rewrite Hstable. unfold items_of_frequency.
      symmetry. apply List.filter_app.
Qed.

(** ** The counters of the evaluation harness *)

Lemma sum_of_frequencies_record_case d input conf :
  sum_of_frequencies (record_case d input conf) = sum_of_frequencies d + 1.
Proof.
  unfold record_case, sum_of_frequencies.
  destruct (d !! input) as [info|] eqn:Hd.
  - rewrite <- insert_delete_eq.
    rewrite map_fold_insert_L;
      [|intros; lia|apply lookup_delete_eq].
    rewrite (map_fold_delete_L _ _ input info d);
      [|intros; lia|assumption].
    cbn [frequency]. lia.
  - rewrite map_fold_insert_L;
      [|intros; lia|assumption].
    cbn [frequency]. lia.
Qed.

Lemma evaluate_words_total eb input output exp_outputput conf :
  let eb' := evaluate_words eb input output exp_outputput conf in
  hyphen eb' = hyphen eb /\ mhb eb' = mhb eb
  /\ total_counter eb' = total_counter eb + 1.
Proof.
  unfold evaluate_words, total_counter.
  destruct (decide _); destruct (decide _); cbn; repeat split; lia.
Qed.

Lemma evaluate_words_match eb input output exp_outputput conf :
  counters_match eb ->
  counters_match (evaluate_words eb input output exp_outputput conf).
Proof.
  unfold evaluate_words, counters_match. intros (Htp & Htn & Hfn & Hfp).
  destruct (decide _); destruct (decide _); cbn;
    rewrite ?sum_of_frequencies_record_case; repeat split; congruence.
Qed.

Section Counting.
Context `{PyBuiltins}.

(** What a run over the hyphenated words of a sentence keeps. *)
Lemma evaluate_tokens_invariant (P : EvaluateBaseline -> Z -> Prop) :
  (forall eb n input output exp_outputput conf,
     P eb n -> P (evaluate_words eb input output exp_outputput conf) (n + 1)) ->
  forall original hyphenated eb i eb' n,
    P eb n ->
    evaluate_tokens original eb i hyphenated = Ok eb' ->
    P eb' (n + Z.of_nat
                 (List.length
                    (List.filter
                       (fun h => re_search_hyphenated (hyphen eb) (str_lower h))
                       hyphenated)))
    /\ hyphen eb' = hyphen eb.
Proof.
  intros Hstep original hyphenated.
  induction hyphenated as [|h rest IH]; intros eb i eb' n HP;
    cbn [evaluate_tokens List.filter].
  - intros [= <-]. cbn. rewrite Z.add_0_r. auto.
  - unfold evaluate_token at 1.
    destruct (re_search_hyphenated (hyphen eb) (str_lower h)).
    + destruct (best_candidate (mhb eb) (str_lower h)) as [[output conf]|];
        cbn [mbind result_bind]; [|intros [=]].
      destruct (original !! i); cbn [mbind result_bind]; [|intros [=]].
      intros Hrest.
      destruct (evaluate_words_total eb (str_lower h) output (str_lower l) conf)
        as (Hhy & _ & _).
      apply (IH _ _ _ (n + 1)) in Hrest; [|by apply Hstep].
      rewrite Hhy in Hrest. destruct Hrest as [HP' ->]. split; [|reflexivity].
      cbn [List.length]. rewrite Nat2Z.inj_succ.
      replace (n + Z.succ _) with (n + 1 + Z.of_nat
        (List.length (List.filter
           (fun h0 => re_search_hyphenated (hyphen eb) (str_lower h0)) rest)))
        by lia.
      exact HP'.
    + cbn [mbind result_bind]. apply IH. assumption.
Qed.

Lemma evaluate_file_invariant (P : EvaluateBaseline -> Z -> Prop) :
  (forall eb n input output exp_outputput conf,
     P eb n -> P (evaluate_words eb input output exp_outputput conf) (n + 1)) ->
  forall hyphenated_file eb eb' n,
    P eb n ->
    evaluate_baseline_on_file eb hyphenated_file = Ok eb' ->
    P eb' (n + num_hyphenated_words (hyphen eb) hyphenated_file)
    /\ hyphen eb' = hyphen eb.
Proof.
  intros Hstep hyphenated_file eb.
  unfold evaluate_baseline_on_file, num_hyphenated_words.
  induction hyphenated_file as [|line file IH] using rev_ind; intros eb' n HP.
  - intros [= <-]. cbn. rewrite Z.add_0_r. auto.
  - rewrite foldl_snoc.
    destruct (foldl _ _ file) as [eb1|]; cbn [mbind result_bind]; [|intros [=]].
    destruct (IH eb1 n HP eq_refl) as [HP1 Hhy1].
    unfold evaluate_line.
    assert (Hhd : str_split TAB line !! 0%nat
                  = Some (List.hd [] (str_split TAB line))).
    { destruct (str_split TAB line) eqn:Hsp; [|reflexivity].
      destruct (str_split_nonempty _ _ Hsp). }
    rewrite Hhd. destruct (str_split TAB line !! 1%nat); [|intros [=]].
    intros Hline.
    apply (evaluate_tokens_invariant P Hstep _ _ _ _ _ _ HP1) in Hline
      as [HP' Hhy'].
    rewrite Hhy1 in HP', Hhy'. split; [|assumption].
    rewrite flat_map_app, length_app, Nat2Z.inj_add. cbn [flat_map].
    rewrite app_nil_r, Z.add_assoc. exact HP'.
Qed.


(** X14.  When each of the four counters is the sum of the frequencies
    stored in its dictionary, this is still so after a run of
    [evaluate_baseline_on_file]. *)
Theorem counters_match_dictionaries eb hyphenated_file eb' :
  counters_match eb ->
  evaluate_baseline_on_file eb hyphenated_file = Ok eb' ->
  counters_match eb'.
Proof.
  intros Hm Hrun.
  apply (evaluate_file_invariant (fun e _ => counters_match e)) with (n := 0)
    in Hrun as [Hm' _]; auto.
  intros e n input output exp_outputput conf. apply evaluate_words_match.
Qed.

End Counting.


Lemma counters_match_dictionaries_witness :
  exists eb',
    @evaluate_baseline_on_file ascii_builtins
      (new_EvaluateBaseline email_baseline) dataset_email = Ok eb'
    /\ counters_match eb'.
Proof.
  eexists. split; [vm_compute; reflexivity|].
  refine (@counters_match_dictionaries ascii_builtins
            (new_EvaluateBaseline email_baseline) dataset_email _ _ _).
  - repeat split.
  - vm_compute; reflexivity.
Defined.

(** ** The matrices and the error categories of the language-model
    evaluation *)

Lemma count_word_columns c w :
  let c' := count_word c w in
  expected_v0 (num_ambiguous c') - expected_v0 (num c')
  = expected_v0 (num_ambiguous c) - expected_v0 (num c)
  /\ expected_v1 (num_ambiguous c') - expected_v1 (num c')
     = expected_v1 (num_ambiguous c) - expected_v1 (num c)
  /\ correct_predictions (num_ambiguous c) - correct_predictions (num c)
     <= correct_predictions (num_ambiguous c') - correct_predictions (num c').
Proof.
  unfold count_word, expected_v0, expected_v1, correct_predictions.
  destruct (decide _); destruct (prediction_keep_hyphen _ _);
    try destruct (both_high w); cbn; lia.
Qed.

Lemma count_words_expected ws :
  let c := count_words counters_zero ws in
  expected_v0 (num_ambiguous c) = expected_v0 (num c)
  /\ expected_v1 (num_ambiguous c) = expected_v1 (num c).
Proof.
  unfold count_words.
  induction ws as [|w ws IH] using rev_ind.
  - cbn. lia.
  - rewrite foldl_snoc.
    pose proof (count_word_columns (foldl count_word counters_zero ws) w).
    cbn zeta in *. lia.
Qed.

(** X15.  After any sequence of hyphenated words, the ambiguous matrix has
    the same number of words expected without the hyphen and the same
    number expected with it as the confusion matrix, and at least as many
    correct predictions. *)
Theorem ambiguous_matrix_keeps_expected ws :
  let c := count_words counters_zero ws in
  expected_v0 (num_ambiguous c) = expected_v0 (num c)
  /\ expected_v1 (num_ambiguous c) = expected_v1 (num c)
  /\ correct_predictions (num c) <= correct_predictions (num_ambiguous c).
Proof.
  unfold count_words.
  induction ws as [|w ws IH] using rev_ind.
  - cbn. lia.
  - rewrite foldl_snoc.
    pose proof (count_word_columns (foldl count_word counters_zero ws) w).
    cbn zeta in *. lia.
Qed.

Lemma SFcompare_antisym x y :
  SFcompare x y = option_map CompOpp (SFcompare y x).
Proof.
  unfold SFcompare.
  destruct x as [[]| [] | |[] mx ex], y as [[]| [] | | [] my ey];
    try reflexivity; cbn [option_map]; f_equal;
    change (PosDef.Pos.compare_cont Eq my mx) with (Pos.compare my mx);
    change (PosDef.Pos.compare_cont Eq mx my) with (Pos.compare mx my);
    destruct (Z.compare_spec ex ey), (Z.compare_spec ey ex);
    try lia; try reflexivity;
    destruct (Pos.compare_spec mx my), (Pos.compare_spec my mx);
    try lia; reflexivity.
Qed.

(** A probability that is a number is either at least 0.5 or below it. *)
Lemma half_or_below x : not_nan x ->
  PyFloat.gt PyFloat.lit_0_5 x = negb (PyFloat.ge x PyFloat.lit_0_5).
Proof.
  unfold not_nan, PyFloat.gt, PyFloat.ge, SFltb, SFleb. intros Hx.
  rewrite (SFcompare_antisym x).
  destruct x as [[]| [] | |[] mx ex]; try congruence;
    destruct (SFcompare PyFloat.lit_0_5 _) as [[]|] eqn:Hc;
    try reflexivity; vm_compute in Hc; discriminate.
Qed.

Lemma count_word_categories c w :
  not_nan (prob_word_v0 w) -> not_nan (prob_word_v1 w) ->
  let c' := count_word c w in
  error_categories c' - wrong_predictions (num c')
  = error_categories c - wrong_predictions (num c).
Proof.
  intros H0 H1. unfold count_word, count_error_category, error_categories,
    wrong_predictions.
  rewrite (half_or_below _ H0), (half_or_below _ H1).
  destruct (decide _); destruct (prediction_keep_hyphen _ _);
    try destruct (both_high w);
    repeat match goal with
    | |- context [PyFloat.ge ?a ?b] => destruct (PyFloat.ge a b)
    end; cbn; lia.
Qed.

(** X16.  When no probability is NaN, every wrong prediction falls into
    exactly one of the four error categories: the four categories add up
    to the number of wrong predictions of the confusion matrix. *)
Theorem error_categories_partition ws :
  Forall (fun w => not_nan (prob_word_v0 w) /\ not_nan (prob_word_v1 w)) ws ->
  let c := count_words counters_zero ws in
  error_categories c = wrong_predictions (num c).
Proof.
  unfold count_words.
  induction ws as [|w ws IH] using rev_ind; intros Hnum.
  - reflexivity.
  - apply Forall_app in Hnum as [Hws Hw].
    apply Forall_cons in Hw as [[H0 H1] _].
    rewrite foldl_snoc.
    pose proof (count_word_categories (foldl count_word counters_zero ws) w H0 H1).
    specialize (IH Hws). cbn zeta in *. lia.
Qed.

Lemma error_categories_partition_witness :
  error_categories (count_words counters_zero [word_on_threshold]) = 1.
Proof.
  apply (error_categories_partition [word_on_threshold]).
  apply Forall_cons; split; [|apply Forall_nil_2].
  split; vm_compute; discriminate.
Defined.

(** ** Word boundaries and the probability of a word *)

Lemma str_join_snoc sep l w : l <> [] ->
  str_join sep (l ++ [w]) = str_join sep l ++ sep ++ w.
Proof.
  induction l as [|x [|y l] IH]; intros Hne; [congruence|reflexivity|].
  change (str_join sep ((x :: y :: l) ++ [w]))
    with (x ++ sep ++ str_join sep ((y :: l) ++ [w])).
  rewrite IH by discriminate.
  change (str_join sep (x :: y :: l)) with (x ++ sep ++ str_join sep (y :: l)).
  by rewrite <- !app_assoc.
Qed.

Lemma slice_app_l i j a b : 0 <= i -> j <= len a ->
  slice i j (a ++ b) = slice i j a.
Proof.
  unfold slice, len. intros Hi Hj.
  destruct (Z.le_gt_cases j i) as [Hle|Hlt].
  - replace (Z.to_nat (j - i)) with 0%nat by lia. reflexivity.
  - rewrite skipn_app, firstn_app, length_skipn.
    replace (Z.to_nat (j - i) - (List.length a - Z.to_nat i))%nat with 0%nat
      by lia.
    cbn [firstn]. by rewrite app_nil_r.
Qed.

Lemma slice_app_r a b : slice (len a) (len a + len b) (a ++ b) = b.
Proof.
  unfold slice, len. rewrite Nat2Z.id.
  replace (Z.to_nat (_ + _ - _)) with (List.length b) by lia.
  rewrite skipn_app, skipn_all, Nat.sub_diag. cbn [skipn app].
  apply firstn_all.
Qed.

Lemma len_app a b : len (a ++ b) = len a + len b.
Proof. unfold len. rewrite length_app. lia. Qed.

Lemma boundaries_of_words_snoc words boundaries index w :
  boundaries_of_words words boundaries index ->
  boundaries_of_words (words ++ [w])
                      (boundaries ++ [(index, index + len w)])
                      (index + len w + 1).
Proof.
  intros (Hlen & Hidx & Hbs).
  assert (Hjoin : str_join [SPACE] (words ++ [w])
                  = match words with
                    | [] => w
                    | _ => str_join [SPACE] words ++ [SPACE] ++ w
                    end).
  { destruct words; [reflexivity|]. by apply str_join_snoc. }
  assert (Hlenj : len (str_join [SPACE] (words ++ [w])) = index + len w).
  { rewrite Hjoin, Hidx. destruct words; [lia|].
    rewrite !len_app. change (len [SPACE]) with 1. lia. }
  assert (Hidx0 : 0 <= index).
  { rewrite Hidx. destruct words; unfold len; lia. }
  split; [rewrite !length_app; cbn; lia|]. split.
  - rewrite <- Hlenj. destruct words; reflexivity.
  - intros word_pos w_start w_end Hb.
    apply lookup_app_Some in Hb as [Hb|[Hge Hb]].
    + destruct (Hbs _ _ _ Hb) as (word & Hw & Hs & He & Hle & Hsl).
      exists word. split; [by apply lookup_app_l_Some|].
      repeat split; try assumption.
      * rewrite Hlenj, Hidx. destruct words; [discriminate|]. unfold len in *. lia.
      * rewrite Hjoin. destruct words; [discriminate|].
        rewrite slice_app_l by assumption. assumption.
    + apply list_lookup_singleton_Some in Hb as [Hpos [= <- <-]].
      exists w. split.
      { rewrite Hlen in Hge, Hpos.
        rewrite lookup_app_r by lia.
        replace (word_pos - List.length words)%nat with 0%nat by lia.
        reflexivity. }
      repeat split; try lia.
      rewrite Hjoin, Hidx. destruct words as [|x l].
      * apply (slice_app_r [] w).
      * rewrite app_assoc.
        replace (len (str_join [SPACE] (x :: l)) + 1)
          with (len (str_join [SPACE] (x :: l) ++ [SPACE]))
          by (rewrite len_app; reflexivity).
        apply slice_app_r.
Qed.

Lemma add_words_snoc st word_pos input_words word :
  add_words st word_pos (input_words ++ [word])
  = add_word (add_words st word_pos input_words)
             (word_pos + List.length input_words) word.
Proof.
  revert st word_pos.
  induction input_words as [|w ws IH]; intros st word_pos; cbn [add_words app].
  - by rewrite Nat.add_0_r.
  - rewrite IH. cbn [List.length]. f_equal. lia.
Qed.

Lemma str_replace_absent old new s :
  existsb (fun c => N.eqb c old) s = false -> str_replace old new s = s.
Proof.
  unfold str_replace. induction s as [|c s IH]; [reflexivity|].
  cbn [existsb flat_map]. intros [Hc Hs]%orb_false_iff.
  rewrite Hc, IH by assumption. reflexivity.
Qed.

(** The two variants of a sentence and their word boundaries. *)
Lemma variants_of_spec input_words :
  let sv := variants_of input_words in
  input_words_v0 sv = List.map (str_replace HYPHENATION_SYMBOL []) input_words
  /\ input_words_v1 sv
     = List.map (str_replace HYPHENATION_SYMBOL [HYPHEN_MINUS]) input_words
  /\ boundaries_of_words (input_words_v0 sv) (word_boundaries_v0 sv)
                         (index_v0 sv)
  /\ boundaries_of_words (input_words_v1 sv) (word_boundaries_v1 sv)
                         (index_v1 sv).
Proof.
  unfold variants_of.
  induction input_words as [|word ws IH] using rev_ind.
  - cbn. repeat split; try (intros ? ? ? [=]).
  - rewrite add_words_snoc. cbn zeta in IH.
    destruct IH as (H0 & H1 & Hb0 & Hb1).
    unfold add_word.
    cbn [input_words_v0 input_words_v1 word_boundaries_v0 word_boundaries_v1
         index_v0 index_v1].
    rewrite !map_app. cbn [List.map].
    assert (Hw0 : (if has_hyphenation_symbol word
                   then str_replace HYPHENATION_SYMBOL [] word else word)
                  = str_replace HYPHENATION_SYMBOL [] word).
    { unfold has_hyphenation_symbol.
      destruct (existsb _ word) eqn:He; [reflexivity|].
      by rewrite str_replace_absent. }
    assert (Hw1 : (if has_hyphenation_symbol word
                   then str_replace HYPHENATION_SYMBOL [HYPHEN_MINUS] word
                   else word)
                  = str_replace HYPHENATION_SYMBOL [HYPHEN_MINUS] word).
    { unfold has_hyphenation_symbol.
      destruct (existsb _ word) eqn:He; [reflexivity|].
      by rewrite str_replace_absent. }
    rewrite Hw0, Hw1.
    split; [by rewrite H0|]. split; [by rewrite H1|].
    split; by apply boundaries_of_words_snoc.
Qed.

(** The boundaries of the word at a position of a variant. *)
Lemma boundaries_lookup (f : list N -> list N) words boundaries index
      input_words word_pos word :
  input_words !! word_pos = Some word ->
  words = List.map f input_words ->
  boundaries_of_words words boundaries index ->
  exists w_start w_end,
    boundaries !! word_pos = Some (w_start, w_end)
    /\ words !! word_pos = Some (f word)
    /\ 0 <= w_start /\ w_end = w_start + len (f word)
    /\ slice w_start w_end (str_join [SPACE] words) = f word.
Proof.
  intros Hword Hws (Hlen & _ & Hbs).
  assert (Hfw : words !! word_pos = Some (f word)).
  { rewrite Hws. change (List.map f input_words) with (f <$> input_words).
    by rewrite list_lookup_fmap, Hword. }
  destruct (boundaries !! word_pos) as [[w_start w_end]|] eqn:Hb.
  - exists w_start, w_end.
    destruct (Hbs _ _ _ Hb) as (w & Hw & ? & ? & _ & ?).
    rewrite Hfw in Hw. injection Hw as <-. auto 10.
  - apply lookup_ge_None in Hb. apply lookup_lt_Some in Hfw. lia.
Qed.

(** X17.  For every word of the input sentence, the two lists of word
    boundaries hold its position in the two variants of the sentence: the
    slice of the variant at the boundaries is the word with the
    hyphenation symbols removed, or replaced by normal hyphens. *)
Theorem word_boundaries_slice input_words word_pos word :
  input_words !! word_pos = Some word ->
  let sv := variants_of input_words in
  (exists w_start w_end,
     word_boundaries_v0 sv !! word_pos = Some (w_start, w_end)
     /\ input_words_v0 sv !! word_pos
        = Some (str_replace HYPHENATION_SYMBOL [] word)
     /\ slice w_start w_end (str_join [SPACE] (input_words_v0 sv))
        = str_replace HYPHENATION_SYMBOL [] word)
  /\ (exists w_start w_end,
        word_boundaries_v1 sv !! word_pos = Some (w_start, w_end)
        /\ input_words_v1 sv !! word_pos
           = Some (str_replace HYPHENATION_SYMBOL [HYPHEN_MINUS] word)
        /\ slice w_start w_end (str_join [SPACE] (input_words_v1 sv))
           = str_replace HYPHENATION_SYMBOL [HYPHEN_MINUS] word).
Proof.
  intros Hword sv.
  destruct (variants_of_spec input_words) as (H0 & H1 & Hb0 & Hb1).
  fold sv in H0, H1, Hb0, Hb1.
  split.
  - destruct (boundaries_lookup _ _ _ _ _ _ _ Hword H0 Hb0)
      as (w_start & w_end & ? & ? & _ & _ & ?). eauto.
  - destruct (boundaries_lookup _ _ _ _ _ _ _ Hword H1 Hb1)
      as (w_start & w_end & ? & ? & _ & _ & ?). eauto.
Qed.

Lemma word_boundaries_slice_witness :
  let sv := variants_of words_email_now in
  exists w_start w_end,
    word_boundaries_v1 sv !! 1%nat = Some (w_start, w_end)
    /\ input_words_v1 sv !! 1%nat = Some (py "now")
    /\ slice w_start w_end (py "e-mail now") = py "now".
Proof.
  exact (proj2 (word_boundaries_slice words_email_now 1 (py "now") eq_refl)).
Defined.

Lemma sum_probabilities_floats json input_word :
  json_of_floats json ->
  forall n i_word i_sent prob,
    (i_word + n <= List.length input_word)%nat ->
    (i_sent + n <= List.length json)%nat ->
    prob = PyInt 0 \/ (exists f, prob = PyFloat f) ->
    exists r,
      sum_probabilities json input_word i_word i_sent n prob = Ok r
      /\ (r = PyInt 0 \/ exists f, r = PyFloat f).
Proof.
  intros Hjson n.
  induction n as [|n IH]; intros i_word i_sent prob Hw Hs Hprob;
    cbn [sum_probabilities]; [eauto|].
  destruct (json !! i_sent) as [distribution|] eqn:Hd;
    [|apply lookup_ge_None in Hd; lia].
  destruct (input_word !! i_word) as [c|] eqn:Hc;
    [|apply lookup_ge_None in Hc; lia].
  apply IH; [lia|lia|].
  destruct (distribution !! c) as [v|] eqn:Hv; cbn [default].
  - unfold json_of_floats in Hjson. rewrite Forall_forall in Hjson.
    destruct (Hjson distribution (list_elem_of_lookup_2 _ _ _ Hd) c v Hv)
      as [f ->].
    right. destruct prob; cbn; eauto.
  - destruct Hprob as [->|[f ->]]; cbn; eauto.
Qed.

Lemma word_probability_ok json words boundaries index word_pos word :
  boundaries_of_words words boundaries index ->
  words !! word_pos = Some word ->
  word <> [] ->
  json_of_floats json ->
  len (str_join [SPACE] words) <= Z.of_nat (List.length json) ->
  exists prob, word_probability json boundaries words word_pos = Ok prob.
Proof.
  intros (Hlen & _ & Hbs) Hword Hne Hjson Hlong. unfold word_probability.
  destruct (boundaries !! word_pos) as [[w_start w_end]|] eqn:Hb.
  2:{ apply lookup_ge_None in Hb. apply lookup_lt_Some in Hword. lia. }
  destruct (Hbs _ _ _ Hb) as (w & Hw & Hs & He & Hle & _).
  rewrite Hword in Hw. injection Hw as <-. rewrite Hword.
  assert (Hpos : 1 <= len word).
  { destruct word; [congruence|]. unfold len. cbn [List.length]. lia. }
  destruct (sum_probabilities_floats json word Hjson
              (Z.to_nat (w_end - w_start)) 0 (Z.to_nat w_start) (PyInt 0))
    as (r & -> & Hr); [unfold len in *; lia|unfold len in *; lia|auto|].
  cbn [mbind result_bind]. destruct Hr as [->|[f ->]]; cbn [pynum_div_int].
  - rewrite truediv_zero by assumption. cbn [mbind result_bind]. eauto.
  - destruct (Z.eqb_spec (len word) 0); [lia|]. cbn [mbind result_bind]. eauto.
Qed.

(** X18.  When the language model answers with [float]s and with at least
    one position for each character of the sentence, the probability of a
    word that is not empty is computed without an exception, in both
    variants of the sentence. *)
Theorem word_probability_defined json_v0 json_v1 input_words word_pos word :
  input_words !! word_pos = Some word ->
  str_replace HYPHENATION_SYMBOL [] word <> [] ->
  json_of_floats json_v0 -> json_of_floats json_v1 ->
  let sv := variants_of input_words in
  len (str_join [SPACE] (input_words_v0 sv)) <= Z.of_nat (List.length json_v0) ->
  len (str_join [SPACE] (input_words_v1 sv)) <= Z.of_nat (List.length json_v1) ->
  exists prob_word_v0 prob_word_v1,
    word_probability json_v0 (word_boundaries_v0 sv) (input_words_v0 sv)
                     word_pos = Ok prob_word_v0
    /\ word_probability json_v1 (word_boundaries_v1 sv) (input_words_v1 sv)
                        word_pos = Ok prob_word_v1.
Proof.
  intros Hword Hne Hj0 Hj1 sv Hl0 Hl1.
  destruct (variants_of_spec input_words) as (H0 & H1 & Hb0 & Hb1).
  fold sv in H0, H1, Hb0, Hb1.
  destruct (word_probability_ok json_v0 _ _ _ word_pos
              (str_replace HYPHENATION_SYMBOL [] word) Hb0) as [p0 Hp0]; auto.
  { rewrite H0. change (List.map ?f input_words) with (f <$> input_words).
    by rewrite list_lookup_fmap, Hword. }
  destruct (word_probability_ok json_v1 _ _ _ word_pos
              (str_replace HYPHENATION_SYMBOL [HYPHEN_MINUS] word) Hb1)
    as [p1 Hp1]; auto.
  { rewrite H1. change (List.map ?f input_words) with (f <$> input_words).
    by rewrite list_lookup_fmap, Hword. }
  { intros Hnil. apply Hne.
    apply (f_equal (@List.length N)) in Hnil.
    rewrite str_replace_length_one in Hnil.
    destruct word; [reflexivity|discriminate]. }
  eauto.
Qed.

(** X19.  A word made of hyphenation symbols only is empty in the variant
    without hyphens: its probability there is [0 / 0], and
    [ZeroDivisionError] is raised, whatever the language model answers. *)
Theorem symbols_only_word_raises json input_words word_pos word :
  input_words !! word_pos = Some word ->
  str_replace HYPHENATION_SYMBOL [] word = [] ->
  let sv := variants_of input_words in
  word_probability json (word_boundaries_v0 sv) (input_words_v0 sv) word_pos
  = Raise ZeroDivisionError.
Proof.
  intros Hword Hnil sv.
  destruct (variants_of_spec input_words) as (H0 & _ & Hb0 & _).
  fold sv in H0, Hb0.
  destruct (boundaries_lookup _ _ _ _ _ _ _ Hword H0 Hb0)
    as (w_start & w_end & Hb & Hw & _ & He & _).
  rewrite Hnil in He, Hw.
  unfold word_probability. rewrite Hb, Hw.
  replace (Z.to_nat (w_end - w_start)) with 0%nat
    by (unfold len in He; cbn in He; lia).
  reflexivity.
Qed.

Lemma json_email_now_floats : json_of_floats json_email_now.
Proof.
  apply Forall_replicate.
  intros k v [[_ <-]|[_ [_ <-]%lookup_singleton_Some]]%lookup_insert_Some;
    eauto.
Qed.

Lemma word_probability_defined_witness :
  let sv := variants_of words_email_now in
  exists prob_word_v0 prob_word_v1,
    word_probability json_email_now (word_boundaries_v0 sv)
                     (input_words_v0 sv) 0 = Ok prob_word_v0
    /\ word_probability json_email_now (word_boundaries_v1 sv)
                        (input_words_v1 sv) 0 = Ok prob_word_v1.
Proof.
  apply (word_probability_defined json_email_now json_email_now
           words_email_now 0 token_email).
  - reflexivity.
  - vm_compute. discriminate.
  - exact json_email_now_floats.
  - exact json_email_now_floats.
  - vm_compute. discriminate.
  - vm_compute. discriminate.
Defined.

Lemma symbols_only_word_raises_witness :
  let sv := variants_of [[HYPHENATION_SYMBOL]] in
  word_probability json_email_now (word_boundaries_v0 sv) (input_words_v0 sv) 0
  = Raise ZeroDivisionError.
Proof.
  apply (symbols_only_word_raises json_email_now [[HYPHENATION_SYMBOL]] 0
           [HYPHENATION_SYMBOL]); reflexivity.
Defined.

(** ** [ProcessFile.run] *)


Section Process.
Context `{PyBuiltins}.
Variable self : BaselineWithSupplements.



End Process.

Section ProcessAnyModel.
Context `{PyBuiltins}.
Variable hyphen_sym : N.
Variable model_merge_and_lookup : list N -> result (list (list N * pynum)).




End ProcessAnyModel.




(** ** [evaluate_accuracy] *)

(** Rounding a number below [2^64] does not overflow. *)
Lemma binary_round_aux_finite sx mx ex lx :
  0 <= mx -> ex <= 0 -> mx < 2 ^ (64 - ex) ->
  match binary_round_aux PyFloat.prec PyFloat.emax sx mx ex lx with
  | S754_zero _ | S754_finite _ _ _ => True
  | _ => False
  end.
Proof.
  intros Hmx Hex Hub. unfold binary_round_aux.
  destruct (shr_fexp_spec mx ex lx Hmx) as [He1 Hm1].
  destruct (shr_fexp PyFloat.prec PyFloat.emax mx ex lx) as [mrs1 e1] eqn:E1.
  cbn [fst snd] in Hm1, He1.
  set (mx1 := round_nearest_even (shr_m mrs1) (loc_of_shr_record mrs1)).
  assert (Hd1 : Zdigits2 mx <= 64 - ex) by (apply Zdigits2_le_of_lt; lia).
  rewrite fexp_binary64 in He1.
  assert (He1' : ex <= e1 <= 11) by lia.
  assert (HA : 0 < 2 ^ (e1 - ex)) by (apply Z.pow_pos_nonneg; lia).
  assert (Hsplit : 2 ^ (64 - ex) = 2 ^ (64 - e1) * 2 ^ (e1 - ex)).
  { rewrite <- Z.pow_add_r by lia. f_equal. lia. }
  assert (Hm1nn : 0 <= shr_m mrs1) by (rewrite Hm1; apply Z.div_pos; lia).
  assert (Hm1ub : shr_m mrs1 < 2 ^ (64 - e1)).
  { rewrite Hm1. apply Z.div_lt_upper_bound; [lia|]. rewrite Z.mul_comm. lia. }
  assert (Hmx1 : mx1 = shr_m mrs1 \/ mx1 = shr_m mrs1 + 1)
    by apply round_nearest_even_cases.
  assert (Hmx1nn : 0 <= mx1) by lia.
  destruct (shr_fexp_spec mx1 e1 loc_Exact Hmx1nn) as [He2 Hm2].
  destruct (shr_fexp PyFloat.prec PyFloat.emax mx1 e1 loc_Exact) as [mrs2 e2] eqn:E2.
  cbn [fst snd] in Hm2, He2.
  assert (Hd2 : Zdigits2 mx1 <= 65 - e1).
  { apply Zdigits2_le_of_lt; try lia.
    replace (65 - e1) with (64 - e1 + 1) by lia.
    rewrite Z.pow_add_r by lia. lia. }
  rewrite fexp_binary64 in He2.
  assert (He2' : e1 <= e2 <= 12) by lia.
  assert (Hmfnn : 0 <= shr_m mrs2).
  { rewrite Hm2. apply Z.div_pos; [lia|]. apply Z.pow_pos_nonneg; lia. }
  destruct (shr_m mrs2) as [|p|p]; [exact I| |lia].
  replace (e2 <=? PyFloat.emax - PyFloat.prec) with true; [exact I|].
  symmetry. apply Z.leb_le. unfold PyFloat.emax, PyFloat.prec. lia.
Qed.

(** A percentage [100 * a / b] of a part [a] of [b] is computed without
    an exception. *)
Lemma truediv_percent a b : 0 <= a <= b -> 1 <= b ->
  exists q, PyFloat.truediv (100 * a) b = Ok q.
Proof.
  intros Ha Hb. unfold PyFloat.truediv.
  destruct (Z.eqb_spec b 0); [lia|].
  destruct (Z.eq_dec a 0) as [->|Hne]; [destruct b; try lia; cbn; eauto|].
  assert (Hfin : match PyFloat.quotient (100 * a) b with
                 | S754_zero _ | S754_finite _ _ _ => True
                 | _ => False
                 end).
  { destruct a as [|a|a]; try lia. destruct b as [|b|b]; try lia.
    change (100 * Z.pos a) with (Z.pos (100 * a)).
    unfold PyFloat.quotient, PyFloat.of_int, SFdiv, SFdiv_core_binary.
    cbn [xorb].
    set (e' := Z.min _ _).
    assert (He' : -1074 <= e' <= 0).
    { subst e'. rewrite fexp_binary64. lia. }
    assert (HS : 0 < 2 ^ (- e')) by (apply Z.pow_pos_nonneg; lia).
    assert (Hm' : exists m', 0 <= m' <= Z.pos (100 * a) * 2 ^ (- e')
              /\ match 0 - 0 - e' with
                 | 0 => Z.pos (100 * a)
                 | Z.pos _ => Z.shiftl (Z.pos (100 * a)) (0 - 0 - e')
                 | Z.neg _ => 0
                 end = m').
    { destruct (0 - 0 - e') as [|s|s] eqn:Hs; try lia.
      - eexists; split; [|reflexivity].
        replace e' with 0 by lia. cbn. lia.
      - eexists; split; [|reflexivity].
        rewrite Z.shiftl_mul_pow2 by lia.
        replace (Z.pos s) with (- e') by lia. nia. }
    destruct Hm' as (m' & Hm' & ->).
    destruct (Z.div_eucl m' (Z.pos b)) as [q r] eqn:Hqr.
    assert (Hq : q = m' / Z.pos b) by (unfold Z.div; rewrite Hqr; reflexivity).
    apply binary_round_aux_finite; [subst q; apply Z.div_pos; lia|lia|].
    assert (q < 128 * 2 ^ (- e')).
    { subst q. apply Z.div_lt_upper_bound; [lia|]. nia. }
    replace (64 - e') with (64 + - e') by lia.
    rewrite Z.pow_add_r by lia.
    assert (128 < 2 ^ 64) by (vm_compute; reflexivity). nia. }
  destruct (PyFloat.quotient (100 * a) b); try destruct Hfin; eauto.
Qed.

Lemma truediv_ZeroDivisionError a b :
  PyFloat.truediv a b = Raise ZeroDivisionError <-> b = 0.
Proof.
  unfold PyFloat.truediv. destruct (Z.eqb_spec b 0) as [->|Hne].
  - tauto.
  - split; [|contradiction]. destruct (PyFloat.quotient a b); discriminate.
Qed.

Lemma truediv_part a b : 0 <= a <= b -> 1 <= b ->
  exists q, PyFloat.truediv a b = Ok q.
Proof.
  intros Ha Hb. destruct (Z.eq_dec a 0) as [->|Hne].
  - rewrite truediv_zero by assumption. eauto.
  - rewrite truediv_pos by lia. eauto.
Qed.

Lemma evaluate_accuracy_cases eb :
  counters_nonnegative eb ->
  (tn_counter eb + fp_counter eb = 0 \/ fn_counter eb + tp_counter eb = 0 ->
   evaluate_accuracy eb = Raise ZeroDivisionError)
  /\ (tn_counter eb + fp_counter eb <> 0 ->
      fn_counter eb + tp_counter eb <> 0 ->
      exists percentages, evaluate_accuracy eb = Ok percentages).
Proof.
  intros (Htp & Htn & Hfn & Hfp). unfold evaluate_accuracy.
  destruct (Z.eq_dec (tn_counter eb + fn_counter eb + fp_counter eb
                      + tp_counter eb) 0) as [Hz|Hnz].
  { split; [|lia]. intros _.
    rewrite (proj2 (truediv_ZeroDivisionError _ _) Hz). reflexivity. }
  destruct (truediv_part (tn_counter eb + tp_counter eb)
              (tn_counter eb + fn_counter eb + fp_counter eb + tp_counter eb))
    as [accuracy ->]; [lia|lia|].
  cbn [mbind result_bind].
  destruct (Z.eq_dec (tn_counter eb + fp_counter eb) 0) as [Hz1|Hnz1].
  { split; [|lia]. intros _.
    rewrite (proj2 (truediv_ZeroDivisionError _ _) Hz1). reflexivity. }
  destruct (truediv_percent (tn_counter eb) (tn_counter eb + fp_counter eb))
    as [q1 ->]; [lia|lia|].
  cbn [mbind result_bind].
  destruct (Z.eq_dec (fn_counter eb + tp_counter eb) 0) as [Hz2|Hnz2].
  { split; [|lia]. intros _.
    rewrite (proj2 (truediv_ZeroDivisionError _ _) Hz2). reflexivity. }
  destruct (truediv_percent (tp_counter eb) (fn_counter eb + tp_counter eb))
    as [q2 ->]; [lia|lia|].
  cbn [mbind result_bind]. split; [lia|eauto].
Qed.

Section Accuracy.
Context `{PyBuiltins}.

(** X23.  After a run of [evaluate_baseline_on_file] on a new evaluator,
    [evaluate_accuracy] raises [ZeroDivisionError] when no word expected
    without a hyphen, or no word expected with a hyphen, has been counted
    (as for an empty dataset); in every other case it returns its three
    percentages. *)
Theorem evaluate_accuracy_after_run baseline hyphenated_file eb :
  evaluate_baseline_on_file (new_EvaluateBaseline baseline) hyphenated_file
  = Ok eb ->
  (tn_counter eb + fp_counter eb = 0 \/ fn_counter eb + tp_counter eb = 0 ->
   evaluate_accuracy eb = Raise ZeroDivisionError)
  /\ (tn_counter eb + fp_counter eb <> 0 ->
      fn_counter eb + tp_counter eb <> 0 ->
      exists percentages, evaluate_accuracy eb = Ok percentages).
Proof.
  intros Hrun. apply evaluate_accuracy_cases.
  apply (evaluate_file_invariant (fun e _ => counters_nonnegative e))
    with (n := 0) in Hrun as [Hnn _]; auto.
  - intros e n input output exp_outputput conf (? & ? & ? & ?).
    unfold evaluate_words, counters_nonnegative.
    destruct (decide _); destruct (decide _); cbn; repeat split; lia.
  - unfold counters_nonnegative. cbn. lia.
Qed.

End Accuracy.

Lemma evaluate_accuracy_after_run_witness :
  exists eb,
    @evaluate_baseline_on_file ascii_builtins
      (new_EvaluateBaseline email_baseline) [line_email_now] = Ok eb
    /\ evaluate_accuracy eb = Raise ZeroDivisionError.
Proof.
  eexists. split; [vm_compute; reflexivity|].
  refine (proj1 (@evaluate_accuracy_after_run ascii_builtins email_baseline
                   [line_email_now] _ _) _).
  - vm_compute; reflexivity.
  - right. vm_compute; reflexivity.
Defined.

(** ** Lower-casing before the lookup *)

Lemma re_search_hyphen_count s :
  re_search_hyphen s = negb (Nat.eqb (str_count HYPHEN_MINUS s) 0).
Proof.
  unfold re_search_hyphen, str_count.
  induction s as [|c s IH]; [reflexivity|]. cbn [existsb List.filter].
  destruct (N.eqb HYPHEN_MINUS c); [reflexivity|exact IH].
Qed.

Section Lowered.
Context `{PyBuiltins}.

(** X24.  [merge_and_lookup] lower-cases its argument itself: when
    lower-casing is idempotent and keeps the digits and the normal
    hyphens, the lower-casing of the word by the callers does not change
    the result. *)
Theorem merge_and_lookup_of_lowered self tok :
  lower_idempotent ->
  lower_keeps_digits ->
  lower_keeps_count HYPHEN_MINUS ->
  merge_and_lookup self (str_lower tok) = merge_and_lookup self tok.
Proof.
  intros Hidem Hdigits Hhyphens. unfold merge_and_lookup.
  rewrite Hidem.
  assert (Hd : re_search_digit (str_lower tok) = re_search_digit tok).
  { destruct (re_search_digit tok) eqn:Ht.
    - destruct (re_search_digit (str_lower tok)) eqn:Hl; [reflexivity|].
      apply re_search_digit_filter in Hl. rewrite Hdigits in Hl.
      apply re_search_digit_filter in Hl. congruence.
    - apply re_search_digit_filter. rewrite Hdigits.
      by apply re_search_digit_filter. }
  assert (Hh : re_search_hyphen (str_lower tok) = re_search_hyphen tok)
    by (by rewrite !re_search_hyphen_count, Hhyphens).
  rewrite Hd, Hh. reflexivity.
Qed.

End Lowered.

Lemma ascii_lower_idempotent : @lower_idempotent ascii_builtins.
Proof.
  intros s. cbn [str_lower ascii_builtins]. rewrite List.map_map.
  apply map_ext. intros c. unfold lower_char.
  case_leb; cbn [andb] in *; try reflexivity; lia.
Qed.

Lemma ascii_lower_keeps_hyphens :
  @lower_keeps_count ascii_builtins HYPHEN_MINUS.
Proof.
  intros s. cbn [str_lower ascii_builtins]. unfold str_count.
  induction s as [|c s IH]; [reflexivity|].
  cbn [List.map List.filter].
  replace (N.eqb HYPHEN_MINUS (lower_char c)) with (N.eqb HYPHEN_MINUS c).
  - destruct (N.eqb HYPHEN_MINUS c); cbn [List.length]; lia.
  - unfold lower_char, HYPHEN_MINUS.
    case_leb; cbn [andb] in *; try reflexivity;
      destruct (N.eqb_spec 45 c); destruct (N.eqb_spec 45 (c + 32));
      try reflexivity; lia.
Qed.

Lemma merge_and_lookup_of_lowered_witness :
  @merge_and_lookup ascii_builtins email_baseline token_email
  = @merge_and_lookup ascii_builtins email_baseline token_email_capitals.
Proof.
  exact (@merge_and_lookup_of_lowered ascii_builtins email_baseline
           token_email_capitals ascii_lower_idempotent
           ascii_lower_keeps_digits ascii_lower_keeps_hyphens).
Defined.

(** ** A word without the hyphen symbol *)

Lemma quotient_half f : 1 <= f ->
  PyFloat.round2 (PyFloat.quotient f (f + f)) = PyFloat.decimal2 50.
Proof.
  intros Hf. destruct (round2_quotient f (f + f)) as [_ ->]; [lia|].
  pose proof (hundredths_truediv f (f + f) ltac:(lia)) as Hh.
  f_equal. nia.
Qed.

(** X25.  For a word without a digit and without the hyphen symbol that is
    listed with a positive frequency, the merged and the hyphenated form
    are the same key: [merge_and_lookup] returns the word with the
    confidence 0.5, not 1. *)
Theorem word_without_symbol_half `{PyBuiltins} self tok f :
  re_search_digit tok = false ->
  ~ In (hyphen_symbol self) (str_lower tok) ->
  words self !! str_lower tok = Some f ->
  1 <= f ->
  merge_and_lookup self tok
  = Ok [(str_lower tok, PyFloat (PyFloat.decimal2 50))].
Proof.
  intros Hd Hsym Hw Hf. unfold merge_and_lookup.
  assert (Hrep : forall new,
    str_replace (hyphen_symbol self) new (str_lower tok) = str_lower tok).
  { intros new. apply str_replace_absent.
    destruct (existsb _ _) eqn:He; [|reflexivity].
    apply existsb_exists in He as (c & Hin & ->%N.eqb_eq). contradiction. }
  rewrite !Hrep, Hd. cbn [negb]. rewrite (contains_true _ _ _ Hw).
  rewrite (calculate_confidence_score_pos self _ _ f f) by assumption.
  rewrite quotient_half by assumption.
  cbn [dict_set]. destruct (decide _); [reflexivity|congruence].
Qed.

Lemma word_without_symbol_half_witness :
  @merge_and_lookup ascii_builtins aliens_baseline (py "Aliens")
  = Ok [(py "aliens", PyFloat (PyFloat.decimal2 50))].
Proof.
  apply (@word_without_symbol_half ascii_builtins aliens_baseline
           (py "Aliens") 1).
  - vm_compute; reflexivity.
  - vm_compute. intuition discriminate.
  - vm_compute; reflexivity.
  - lia.
Defined.

(** ** The report of the language-model evaluation *)

Lemma matrix_le_zero m : matrix_le matrix_zero m ->
  0 <= predicted_v0_expected_v0 m /\ 0 <= predicted_v0_expected_v1 m
  /\ 0 <= predicted_v1_expected_v0 m /\ 0 <= predicted_v1_expected_v1 m.
Proof. unfold matrix_le. cbn. tauto. Qed.

(** X26.  After any sequence of hyphenated words, the report of [run]
    raises [ZeroDivisionError] when no word expected without a hyphen, or
    no word expected with a hyphen, has been counted (as for no word at
    all); in every other case its six percentages are computed: the
    ambiguous matrix adds no failure of its own. *)
Theorem report_accuracies_after_words ws :
  let c := count_words counters_zero ws in
  (expected_v0 (num c) = 0 \/ expected_v1 (num c) = 0 ->
   report_accuracies c = Raise ZeroDivisionError)
  /\ (expected_v0 (num c) <> 0 -> expected_v1 (num c) <> 0 ->
      exists percentages, report_accuracies c = Ok percentages).
Proof.
  intros c.
  destruct (count_words_expected ws) as (H0 & H1). fold c in H0, H1.
  destruct (count_words_le counters_zero ws) as (Hm & Ha & _). fold c in Hm, Ha.
  apply matrix_le_zero in Hm as (Hm1 & Hm2 & Hm3 & Hm4).
  apply matrix_le_zero in Ha as (Ha1 & Ha2 & Ha3 & Ha4).
  unfold expected_v0, expected_v1 in *. unfold report_accuracies.
  set (m := num c) in *. set (a := num_ambiguous c) in *.
  destruct (Z.eq_dec (predicted_v0_expected_v0 m + predicted_v0_expected_v1 m
                      + predicted_v1_expected_v0 m + predicted_v1_expected_v1 m)
                     0) as [Hz|Hnz].
  { split; [|lia]. intros _.
    rewrite (proj2 (truediv_ZeroDivisionError _ _) Hz). reflexivity. }
  destruct (truediv_part
              (predicted_v0_expected_v0 m + predicted_v1_expected_v1 m)
              (predicted_v0_expected_v0 m + predicted_v0_expected_v1 m
               + predicted_v1_expected_v0 m + predicted_v1_expected_v1 m))
    as [q1 ->]; [lia|lia|].
  destruct (truediv_part
              (predicted_v0_expected_v0 a + predicted_v1_expected_v1 a)
              (predicted_v0_expected_v0 a + predicted_v0_expected_v1 a
               + predicted_v1_expected_v0 a + predicted_v1_expected_v1 a))
    as [q2 ->]; [lia|lia|].
  cbn [mbind result_bind].
  destruct (Z.eq_dec (predicted_v0_expected_v0 m + predicted_v1_expected_v0 m) 0)
    as [Hz0|Hnz0].
  { split; [|lia]. intros _.
    rewrite (proj2 (truediv_ZeroDivisionError _ _) Hz0). reflexivity. }
  destruct (truediv_percent (predicted_v0_expected_v0 m)
              (predicted_v0_expected_v0 m + predicted_v1_expected_v0 m))
    as [q3 ->]; [lia|lia|].
  destruct (truediv_percent (predicted_v0_expected_v0 a)
              (predicted_v0_expected_v0 a + predicted_v1_expected_v0 a))
    as [q4 ->]; [lia|lia|].
  cbn [mbind result_bind].
  destruct (Z.eq_dec (predicted_v0_expected_v1 m + predicted_v1_expected_v1 m) 0)
    as [Hz1|Hnz1].
  { split; [|lia]. intros _.
    rewrite (proj2 (truediv_ZeroDivisionError _ _) Hz1). reflexivity. }
  destruct (truediv_percent (predicted_v1_expected_v1 m)
              (predicted_v0_expected_v1 m + predicted_v1_expected_v1 m))
    as [q5 ->]; [lia|lia|].
  destruct (truediv_percent (predicted_v1_expected_v1 a)
              (predicted_v0_expected_v1 a + predicted_v1_expected_v1 a))
    as [q6 ->]; [lia|lia|].
  cbn [mbind result_bind]. split; [lia|eauto].
Qed.

Lemma report_accuracies_after_words_witness :
  report_accuracies (count_words counters_zero [word_on_threshold])
  = Raise ZeroDivisionError.
Proof.
  apply (proj1 (report_accuracies_after_words [word_on_threshold])).
  left. vm_compute. reflexivity.
Defined.

(** ** The words of a sentence *)

